(** * Student finance tracker: the store and its rule engine

    A shallow embedding of [scripts/validators.js] and of the [AppState]
    class of [state.js], followed by the properties of the specification
    that were checked against them.

    Conventions.
    - A JavaScript string is a [string]: a sequence of code units, here
      restricted to the code units below 256.
    - A JavaScript number is a [number]: an extended rational with [NaN].
      Rounding to binary64 and the sign of zero are not represented.
    - Built-ins of the language runtime that the program calls on data it
      does not control (the regular expression engine on user patterns,
      [parseFloat], number printing, [Date] parsing, [localeCompare], the
      calendar of the local time zone) are the fields of the class [Host]; values read from the outside world during
      one call (clock, random source, the answer to [confirm]) are the fields
      of the record [Env].
    - The regular expressions written literally in the source are translated
      into recognisers, one per pattern. *)

From Stdlib Require Import List String Ascii Bool Arith ZArith QArith Lia Lqa.
From Stdlib Require Import Sorted DecimalString.
From Stdlib Require Import Permutation DecimalN.
Import ListNotations.
Open Scope string_scope.
Open Scope nat_scope.

(* ------------------------------------------------------------------ *)
(** ** Numbers *)

(** The numbers of the language, with [NaN] and the two infinities, and with
    the arithmetic on finite numbers done exactly.  The language rounds the
    result of each operation to the nearest binary64 number; rounding keeps
    the sign of a result and the order of two results, and changes nothing
    where the exact result is a binary64 number.  The properties below read
    of a computed number its sign, its order against another number, or its
    value where no rounding takes place (a number less zero, zero divided by
    a number). *)
Module Num.

Inductive number : Type :=
| NaN
| NegInf
| Fin (q : Q)
| PosInf.

Definition zero : number := Fin 0.

(** Unary minus. *)
Definition neg (x : number) : number :=
  match x with
  | NaN => NaN
  | NegInf => PosInf
  | Fin q => Fin (- q)
  | PosInf => NegInf
  end.

(** [x + y]. *)
Definition add (x y : number) : number :=
  match x, y with
  | NaN, _ | _, NaN => NaN
  | PosInf, NegInf | NegInf, PosInf => NaN
  | PosInf, _ | _, PosInf => PosInf
  | NegInf, _ | _, NegInf => NegInf
  | Fin a, Fin b => Fin (a + b)
  end.

(** [x - y]. *)
Definition sub (x y : number) : number := add x (neg y).

(** The sign of a number as the sort comparison reads it: [NaN] counts as
    zero (ECMAScript, SortCompare: "if v is NaN, return +0"). *)
Definition sign (x : number) : comparison :=
  match x with
  | NaN => Eq
  | NegInf => Lt
  | Fin q => (q ?= 0)%Q
  | PosInf => Gt
  end.

(** [x * y]. *)
Definition mul (x y : number) : number :=
  match x, y with
  | NaN, _ | _, NaN => NaN
  | Fin a, Fin b => Fin (a * b)
  | Fin a, inf | inf, Fin a =>
      match (a ?= 0)%Q with
      | Eq => NaN
      | Gt => inf
      | Lt => neg inf
      end
  | PosInf, PosInf | NegInf, NegInf => PosInf
  | PosInf, NegInf | NegInf, PosInf => NegInf
  end.

(** [x / y]; a zero divisor is read as [+0]. *)
Definition div (x y : number) : number :=
  match x, y with
  | NaN, _ | _, NaN => NaN
  | Fin a, Fin b =>
      match (b ?= 0)%Q with
      | Eq => match (a ?= 0)%Q with
              | Eq => NaN
              | Gt => PosInf
              | Lt => NegInf
              end
      | _ => Fin (a / b)
      end
  | Fin _, _ => Fin 0
  | inf, Fin b =>
      match (b ?= 0)%Q with
      | Lt => neg inf
      | _ => inf
      end
  | _, _ => NaN
  end.

(** [x < y]; false as soon as one side is [NaN]. *)
Definition ltb (x y : number) : bool :=
  match x, y with
  | NaN, _ | _, NaN => false
  | Fin a, Fin b => match (a ?= b)%Q with Lt => true | _ => false end
  | NegInf, NegInf => false
  | NegInf, _ => true
  | _, PosInf => match x with PosInf => false | _ => true end
  | _, _ => false
  end.

(** [x > y]. *)
Definition gtb (x y : number) : bool := ltb y x.

(** [Math.min(x, y)] and [Math.max(x, y)]. *)
Definition min (x y : number) : number :=
  match x, y with
  | NaN, _ | _, NaN => NaN
  | _, _ => if ltb y x then y else x
  end.

Definition max (x y : number) : number :=
  match x, y with
  | NaN, _ | _, NaN => NaN
  | _, _ => if ltb x y then y else x
  end.

(** ToBoolean on a number: false for zero and for [NaN]. *)
Definition truthy (x : number) : bool :=
  match x with
  | NaN => false
  | Fin q => negb (Qeq_bool q 0)
  | _ => true
  end.

(** [x || y] on numbers. *)
Definition or_else (x : option number) (y : number) : number :=
  match x with
  | Some v => if truthy v then v else y
  | None => y
  end.

(** [x === y] on numbers: [NaN] equals nothing, itself included. *)
Definition eq (x y : number) : Prop :=
  match x, y with
  | Fin a, Fin b => (a == b)%Q
  | PosInf, PosInf | NegInf, NegInf => True
  | _, _ => False
  end.

(** [x <= y] as a proposition on numbers that are not [NaN]. *)
Definition le (x y : number) : Prop :=
  match x, y with
  | NaN, _ | _, NaN => False
  | NegInf, _ => True
  | _, PosInf => True
  | Fin a, Fin b => (a <= b)%Q
  | _, _ => False
  end.

Definition is_nan (x : number) : bool :=
  match x with NaN => true | _ => false end.

End Num.

(* ------------------------------------------------------------------ *)
(** ** Characters and strings *)

Module Str.

(** [\s]: white space and line terminators, among the code units below 256. *)
Definition isWhiteSpace (c : ascii) : bool :=
  let n := nat_of_ascii c in
  ((9 <=? n) && (n <=? 13)) || (n =? 32) || (n =? 160).

(** The characters [.] does not match. *)
Definition isLineTerminator (c : ascii) : bool :=
  let n := nat_of_ascii c in (n =? 10) || (n =? 13).

(** [\d] *)
Definition isDigit (c : ascii) : bool :=
  let n := nat_of_ascii c in (48 <=? n) && (n <=? 57).

Definition isUpper (c : ascii) : bool :=
  let n := nat_of_ascii c in (65 <=? n) && (n <=? 90).

Definition isLower (c : ascii) : bool :=
  let n := nat_of_ascii c in (97 <=? n) && (n <=? 122).

(** [[A-Za-z]] *)
Definition isLetter (c : ascii) : bool := isUpper c || isLower c.

(** [\w] *)
Definition isWordChar (c : ascii) : bool :=
  isLetter c || isDigit c || Ascii.eqb c "_".

Definition digitValue (c : ascii) : nat := nat_of_ascii c - 48.

(** [toUpperCase] and [toLowerCase] of one code unit.  The program applies
    them only to text that passed the category pattern, made of the letters
    A-Z and a-z, spaces and hyphens; on those the mapping below is the
    language's. *)
Definition toUpper (c : ascii) : ascii :=
  if isLower c then ascii_of_nat (nat_of_ascii c - 32) else c.

Definition toLower (c : ascii) : ascii :=
  if isUpper c then ascii_of_nat (nat_of_ascii c + 32) else c.

Fixpoint map (f : ascii -> ascii) (s : string) : string :=
  match s with
  | EmptyString => EmptyString
  | String c r => String (f c) (map f r)
  end.

(** ToBoolean on a string: false for the empty string only. *)
Definition truthy (s : string) : bool :=
  match s with
  | EmptyString => false
  | _ => true
  end.

(** [x || y] where [x] is a string or [undefined]. *)
Definition or_else (x : option string) (y : string) : string :=
  match x with
  | Some v => if truthy v then v else y
  | None => y
  end.

(** [s.split(sep)] for a separator of one character. *)
Fixpoint split (sep : ascii) (s : string) : list string :=
  match s with
  | EmptyString => [EmptyString]
  | String c r =>
      if Ascii.eqb c sep then EmptyString :: split sep r
      else match split sep r with
           | [] => [String c EmptyString]
           | w :: ws => String c w :: ws
           end
  end.

(** Decimal digits of a natural number. *)
Definition ofN (n : N) : string := NilEmpty.string_of_uint (N.to_uint n).

End Str.

(* ------------------------------------------------------------------ *)
(** ** The runtime the program runs on *)

(** Built-ins called on data the program does not control.
    - [regexp_syntax_error p]: the message of the SyntaxError that
      [new RegExp(p, flags)] throws for the flags ['g'] and ['gi'], or [None]
      when the pattern compiles.  Every engine's message is a non-empty
      text, so an error marker [{ error: message }] is truthy.
    - [regexp_match_at p ic text i]: the end index of the match of pattern
      [p] (ignoring case when [ic]) that starts exactly at index [i] of
      [text], if there is one.
    - [parseFloat], [numberToString] (the string a template literal makes of
      a number), [dateTimeValue s] (the time value of [new Date(s)], [NaN]
      for an invalid date), [localeCompare].
    - [localDay (y, m, d)]: year, month index and day that [getFullYear()],
      [getMonth()] and [getDate()] read from the date object made for
      midnight of day [d] of the month of index [m] of year [y], in the time
      zone of the host.  It is the same day wherever the zone has that day;
      a zone that skipped it (Pacific/Apia had no 30 December 2011) gives
      the day after. *)
Class Host : Type := {
  regexp_syntax_error : string -> option string;
  regexp_match_at : string -> bool -> string -> nat -> option nat;
  parseFloat : string -> Num.number;
  numberToString : Num.number -> string;
  dateTimeValue : string -> Num.number;
  localeCompare : string -> string -> Num.number;
  localDay : nat * nat * nat -> nat * nat * nat
}.

(** What one call reads from the outside world.
    - [env_timestamp]: the result of [getTimestamp()] of storage.js, the
      current time as a text in ISO-8601.
    - [env_dateNow] and [env_random]: [Date.now()] and
      [Math.random().toString(36).substr(2, 9)], read by [generateId].
    - [env_confirm]: the user's answer to [confirm(...)].
    - [env_today]: year, month (from 1) and day of [new Date()] in local
      time.
    - [env_isoDate i] and [env_weekday i]: for the day [i] days before
      today, [date.toISOString().split('T')[0]] and
      [date.toLocaleDateString('en-US', { weekday: 'short' })]. *)
Record Env : Type := {
  env_timestamp : string;
  env_dateNow : N;
  env_random : string;
  env_confirm : bool;
  env_today : nat * nat * nat;
  env_isoDate : nat -> string;
  env_weekday : nat -> string
}.

(* ------------------------------------------------------------------ *)
(** ** validators.js *)

Module Validators.

Import Str.

(** *** Rule 1: description *)

(** The tail [.* \S $] of the description pattern: any characters but
    line terminators, then a character that is not white space, up to the
    end. *)
Fixpoint restEndsNonSpace (s : string) : bool :=
  match s with
  | EmptyString => false
  | String c EmptyString => negb (isWhiteSpace c)
  | String c r => negb (isLineTerminator c) && restEndsNonSpace r
  end.

(** The pattern of [validateDescription]: one character that is not white
    space, optionally followed by any characters but line terminators and a
    last character that is not white space. *)
Definition descriptionPattern (s : string) : bool :=
  match s with
  | EmptyString => false
  | String c r =>
      negb (isWhiteSpace c) &&
      match r with
      | EmptyString => true
      | _ => restEndsNonSpace r
      end
  end.

(** [/\s{2,}/]: two white space characters in a row, anywhere. *)
Fixpoint hasDoubleSpaces (s : string) : bool :=
  match s with
  | String a (String b _ as r) =>
      (isWhiteSpace a && isWhiteSpace b) || hasDoubleSpaces r
  | _ => false
  end.

(** [s.replace(/\s+/g, ' ')]; [inRun] tells that the previous character
    belonged to the run of white space being replaced. *)
Fixpoint collapseFrom (inRun : bool) (s : string) : string :=
  match s with
  | EmptyString => EmptyString
  | String c r =>
      if isWhiteSpace c
      then (if inRun then collapseFrom true r
            else String " " (collapseFrom true r))
      else String c (collapseFrom false r)
  end.

Definition collapseSpaces (s : string) : string := collapseFrom false s.

Record DescriptionResult : Type := {
  d_valid : bool;
  d_message : string;
  d_cleaned : option string
}.

Definition validateDescription (description : string) : DescriptionResult :=
  if negb (descriptionPattern description)
  then {| d_valid := false;
          d_message := "Description cannot start or end with spaces";
          d_cleaned := None |}
  else if hasDoubleSpaces description
  then {| d_valid := false;
          d_message := "Description cannot contain double spaces";
          d_cleaned := None |}
  else {| d_valid := true;
          d_message := EmptyString;
          d_cleaned := Some (collapseSpaces description) |}.

(** *** Rule 2: amount *)

(** The optional fraction of the amount pattern, up to the end: a dot and
    one or two digits. *)
Definition fractionToEnd (s : string) : bool :=
  match s with
  | EmptyString => true
  | String "." (String d1 EmptyString) => isDigit d1
  | String "." (String d1 (String d2 EmptyString)) => isDigit d1 && isDigit d2
  | _ => false
  end.

(** Digits, then the optional fraction, up to the end. *)
Fixpoint digitsFractionToEnd (s : string) : bool :=
  match s with
  | EmptyString => true
  | String c r => if isDigit c then digitsFractionToEnd r else fractionToEnd s
  end.

(** The pattern of [validateAmount]: a lone 0 or a digit from 1 to 9 followed
    by digits, then the optional fraction. *)
Definition amountPattern (s : string) : bool :=
  match s with
  | EmptyString => false
  | String c r =>
      if Ascii.eqb c "0" then fractionToEnd r
      else if isDigit c then digitsFractionToEnd r
      else false
  end.

Record AmountResult : Type := {
  a_valid : bool;
  a_message : string;
  a_value : option Num.number
}.

Definition million : Num.number := Num.Fin 1000000.

Definition validateAmount `{Host} (amount : string) : AmountResult :=
  let numValue := parseFloat amount in
  if negb (amountPattern amount)
  then {| a_valid := false;
          a_message := "Amount must be a positive number with up to 2 decimals (e.g., 10, 10.50)";
          a_value := None |}
  else if Num.gtb numValue million
  then {| a_valid := false;
          a_message := "Amount cannot exceed 1,000,000";
          a_value := None |}
  else {| a_valid := true;
          a_message := EmptyString;
          a_value := Some numValue |}.

(** *** Rule 3: date *)

Definition monthDigits (a b : ascii) : bool :=
  (Ascii.eqb a "0" && isDigit b && negb (Ascii.eqb b "0")) ||
  (Ascii.eqb a "1" && (Ascii.eqb b "0" || Ascii.eqb b "1" || Ascii.eqb b "2")).

Definition dayDigits (a b : ascii) : bool :=
  (Ascii.eqb a "0" && isDigit b && negb (Ascii.eqb b "0")) ||
  ((Ascii.eqb a "1" || Ascii.eqb a "2") && isDigit b) ||
  (Ascii.eqb a "3" && (Ascii.eqb b "0" || Ascii.eqb b "1")).

(** The pattern of [validateDate]: four digits, a hyphen, a month from 01
    to 12, a hyphen, a day from 01 to 31, and nothing else. *)
Definition datePattern (s : string) : bool :=
  match list_ascii_of_string s with
  | [y1; y2; y3; y4; h1; m1; m2; h2; d1; d2] =>
      isDigit y1 && isDigit y2 && isDigit y3 && isDigit y4 &&
      Ascii.eqb h1 "-" && monthDigits m1 m2 &&
      Ascii.eqb h2 "-" && dayDigits d1 d2
  | _ => false
  end.

(** [Number(s)] on a string of decimal digits. *)
Definition digitsValue (s : string) : nat :=
  fold_left (fun acc c => 10 * acc + digitValue c) (list_ascii_of_string s) 0.

(** [const [year, month, day] = date.split('-').map(Number)] *)
Definition splitDate (date : string) : nat * nat * nat :=
  match List.map digitsValue (split "-" date) with
  | year :: month :: day :: _ => (year, month, day)
  | _ => (0, 0, 0)
  end.

Definition isLeapYear (y : nat) : bool :=
  (y mod 4 =? 0) && (negb (y mod 100 =? 0) || (y mod 400 =? 0)).

(** Length of month [m] (from 1 to 12) of year [y]. *)
Definition daysInMonth (y m : nat) : nat :=
  match m with
  | 2 => if isLeapYear y then 29 else 28
  | 4 | 6 | 9 | 11 => 30
  | _ => 31
  end.

(** The day that [new Date(year, monthIndex, day)] stands for in the
    Gregorian calendar, for a month index from 0 to 11 and a day from 1 to
    31 (what the date pattern lets through): a year below 100 stands for
    1900 + year, and a day past the end of the month runs over into the next
    month.  What the date object then reads back is the host's [localDay]
    of it. *)
Definition newDate (year monthIndex day : nat) : nat * nat * nat :=
  let fullYear := if year <=? 99 then 1900 + year else year in
  let len := daysInMonth fullYear (monthIndex + 1) in
  if day <=? len then (fullYear, monthIndex, day)
  else if monthIndex =? 11 then (fullYear + 1, 0, day - len)
  else (fullYear, monthIndex + 1, day - len).

(** [dateObj > today] for two days given by year, month and day. *)
Definition laterDay (a b : nat * nat * nat) : bool :=
  let '(y1, m1, d1) := a in
  let '(y2, m2, d2) := b in
  (y2 <? y1) || ((y1 =? y2) && ((m2 <? m1) || ((m1 =? m2) && (d2 <? d1)))).

Record DateResult : Type := {
  t_valid : bool;
  t_message : string;
  t_warning : option string
}.

Definition validateDate `{Host} (env : Env) (date : string) : DateResult :=
  if negb (datePattern date)
  then {| t_valid := false;
          t_message := "Date must be in YYYY-MM-DD format";
          t_warning := None |}
  else
    let '(year, month, day) := splitDate date in
    let '(fullYear, monthIndex, dayOfMonth) :=
      localDay (newDate year (month - 1) day) in
    if negb (fullYear =? year) || negb (monthIndex =? month - 1)
       || negb (dayOfMonth =? day)
    then {| t_valid := false; t_message := "Invalid date"; t_warning := None |}
    else if laterDay (fullYear, monthIndex + 1, dayOfMonth) (env_today env)
    then {| t_valid := true; t_message := EmptyString;
            t_warning := Some "Future date detected" |}
    else {| t_valid := true; t_message := EmptyString; t_warning := None |}.

(** *** Rule 4: category *)

(** The pattern of [validateCategory], read from left to right: groups of
    letters separated by one space or one hyphen.  [afterLetter] tells that
    the previous character was a letter, so that a separator or the end may
    follow. *)
Fixpoint categoryFrom (afterLetter : bool) (s : string) : bool :=
  match s with
  | EmptyString => afterLetter
  | String c r =>
      if isLetter c then categoryFrom true r
      else if (Ascii.eqb c " " || Ascii.eqb c "-") && afterLetter
      then categoryFrom false r
      else false
  end.

Definition categoryPattern (s : string) : bool := categoryFrom false s.

(** [category.charAt(0).toUpperCase() + category.slice(1).toLowerCase()] *)
Definition capitalize (s : string) : string :=
  match s with
  | EmptyString => EmptyString
  | String c r => String (toUpper c) (Str.map toLower r)
  end.

Record CategoryResult : Type := {
  g_valid : bool;
  g_message : string;
  g_cleaned : option string
}.

Definition validateCategory (category : string) : CategoryResult :=
  if negb (categoryPattern category)
  then {| g_valid := false;
          g_message := "Category must contain only letters, spaces, and hyphens";
          g_cleaned := None |}
  else if String.length category <? 2
  then {| g_valid := false;
          g_message := "Category must be at least 2 characters long";
          g_cleaned := None |}
  else {| g_valid := true;
          g_message := EmptyString;
          g_cleaned := Some (capitalize category) |}.

(** *** The checks that only warn *)

(** The longest head of [l] made of characters that satisfy [p], and what
    follows it. *)
Fixpoint span (p : ascii -> bool) (l : list ascii)
  : list ascii * list ascii :=
  match l with
  | [] => ([], [])
  | c :: r =>
      if p c then let '(a, b) := span p r in (c :: a, b) else ([], l)
  end.

(** Equality of two characters when case is ignored; the first is a word
    character. *)
Definition sameLetter (a c : ascii) : bool :=
  Ascii.eqb (toUpper a) (toUpper c).

(** [l] starts with the word [w], letter case apart, and a word boundary
    follows. *)
Fixpoint repeatsWord (w l : list ascii) : bool :=
  match w, l with
  | [], [] => true
  | [], c :: _ => negb (isWordChar c)
  | a :: w', c :: l' => sameLetter a c && repeatsWord w' l'
  | _ :: _, [] => false
  end.

(** At the start of a word: the word, white space, the same word again and
    a word boundary. *)
Definition duplicateAt (l : list ascii) : bool :=
  let '(w, rest) := span isWordChar l in
  let '(spaces, rest') := span isWhiteSpace rest in
  match spaces with
  | [] => false
  | _ :: _ => repeatsWord w rest'
  end.

Fixpoint duplicateFrom (afterWordChar : bool) (l : list ascii) : bool :=
  match l with
  | [] => false
  | c :: r =>
      (negb afterWordChar && isWordChar c && duplicateAt l)
      || duplicateFrom (isWordChar c) r
  end.

(** The pattern of [hasDuplicateWords]: a word, white space and the same
    word, between word boundaries, case ignored. *)
Definition hasDuplicateWords (text : string) : bool :=
  duplicateFrom false (list_ascii_of_string text).

Definition endsWord (l : list ascii) : bool :=
  match l with
  | [] => true
  | c :: _ => negb (isWordChar c)
  end.

Fixpoint centsFrom (l : list ascii) : bool :=
  match l with
  | [] => false
  | c :: r =>
      (Ascii.eqb c "." &&
       match r with
       | d1 :: d2 :: r' => isDigit d1 && isDigit d2 && endsWord r'
       | _ => false
       end)
      || centsFrom r
  end.

(** The pattern of [hasCents]: a dot, two digits and a word boundary. *)
Definition hasCents (amount : string) : bool :=
  centsFrom (list_ascii_of_string amount).

Definition beverages : list string :=
  ["coffee"; "tea"; "soda"; "juice"; "water"].

Fixpoint beverageFrom (afterWordChar : bool) (l : list ascii) : bool :=
  match l with
  | [] => false
  | c :: r =>
      (negb afterWordChar &&
       existsb (fun w => repeatsWord (list_ascii_of_string w) l) beverages)
      || beverageFrom (isWordChar c) r
  end.

(** The pattern of [isBeverageTransaction]: somewhere in the text, one of
    the five words between word boundaries, case ignored. *)
Definition isBeverageTransaction (description : string) : bool :=
  beverageFrom false (list_ascii_of_string description).

(** *** The whole form *)

Record FormData : Type := {
  f_description : string;
  f_amount : string;
  f_category : string;
  f_date : string
}.

Record Cleaned : Type := {
  c_description : string;
  c_amount : Num.number;
  c_date : string;
  c_category : string
}.

(** [errors] and [warnings] list the members of the objects of these names
    in the order they are created. *)
Record Validation : Type := {
  isValid : bool;
  errors : list (string * string);
  warnings : list (string * string);
  cleaned : Cleaned
}.

Definition errorIf (failed : bool) (field message : string)
  : list (string * string) :=
  if failed then [(field, message)] else [].

Definition validateTransaction `{Host} (env : Env) (formData : FormData)
  : Validation :=
  let descValidation := validateDescription (f_description formData) in
  let amountValidation := validateAmount (f_amount formData) in
  let dateValidation := validateDate env (f_date formData) in
  let catValidation := validateCategory (f_category formData) in
  let errors :=
    (errorIf (negb (d_valid descValidation)) "description" (d_message descValidation)
    ++ errorIf (negb (a_valid amountValidation)) "amount" (a_message amountValidation)
    ++ errorIf (negb (t_valid dateValidation)) "date" (t_message dateValidation)
    ++ errorIf (negb (g_valid catValidation)) "category" (g_message catValidation))%list
  in
  let warnings :=
    ((match t_warning dateValidation with
      | Some w => if t_valid dateValidation && Str.truthy w
                  then [("date", w)] else []
      | None => []
      end)
     ++ (if Str.truthy (f_description formData)
         then (if isBeverageTransaction (f_description formData)
               then [("description", "Beverage purchase detected")]
               else if hasDuplicateWords (f_description formData)
               then [("description", "Duplicate words detected")]
               else [])
         else [])
     ++ (if Str.truthy (f_amount formData) && hasCents (f_amount formData)
         then [("amount", "Amount includes cents")]
         else []))%list
  in
  {| isValid := (List.length errors =? 0);
     errors := errors;
     warnings := warnings;
     cleaned :=
       {| c_description :=
            Str.or_else (d_cleaned descValidation) (f_description formData);
          c_amount :=
            Num.or_else (a_value amountValidation) (parseFloat (f_amount formData));
          c_date := f_date formData;
          c_category :=
            Str.or_else (g_cleaned catValidation) (f_category formData) |} |}.

End Validators.

(* ------------------------------------------------------------------ *)
(** ** state.js: the store *)

Module Store.

Import Validators.

Record Transaction : Type := {
  id : string;
  description : string;
  amount : Num.number;
  category : string;
  date : string;
  createdAt : string;
  updatedAt : string
}.

(** The settings object; a member that is not set is [None]. *)
Record Settings : Type := {
  baseCurrency : option string;
  conversionRates : option (list (string * Num.number));
  monthlyBudget : option Num.number;
  categories : option (list string)
}.

(** A [RegExp] object: what it was compiled from and its scan position. *)
Record RegExp : Type := {
  source : string;
  ignoreCase : bool;
  global : bool;
  lastIndex : nat
}.

(** The member [regex] of [currentSearch]: [null], a [RegExp], or the
    marker [{ error: message }]. *)
Inductive Matcher : Type :=
| NoMatcher
| Compiled (r : RegExp)
| Malformed (error : string).

Record Search : Type := {
  pattern : string;
  regex : Matcher;
  caseSensitive : bool
}.

(** A subscriber is an opaque callback; the store only calls it, and what
    the callback does while it runs is not part of the store. *)
Definition Listener : Type := nat.

(** What the store does to the outside. *)
Inductive Event : Type :=
| Notified (l : Listener)
| SavedTransactions (ts : list Transaction)
| SavedSettings (st : Settings).

(** The members of [AppState], and in [trace] the events the store has
    produced so far, oldest first. *)
Record AppState : Type := {
  transactions : list Transaction;
  settings : Settings;
  filteredTransactions : list Transaction;
  currentSearch : Search;
  currentSort : string;
  editingId : option string;
  listeners : list Listener;
  trace : list Event
}.

Definition setTransactions (v : list Transaction) (s : AppState) : AppState :=
  {| transactions := v; settings := settings s;
     filteredTransactions := filteredTransactions s;
     currentSearch := currentSearch s; currentSort := currentSort s;
     editingId := editingId s; listeners := listeners s; trace := trace s |}.

Definition setSettings (v : Settings) (s : AppState) : AppState :=
  {| transactions := transactions s; settings := v;
     filteredTransactions := filteredTransactions s;
     currentSearch := currentSearch s; currentSort := currentSort s;
     editingId := editingId s; listeners := listeners s; trace := trace s |}.

Definition setEditingId (v : option string) (s : AppState) : AppState :=
  {| transactions := transactions s; settings := settings s;
     filteredTransactions := filteredTransactions s;
     currentSearch := currentSearch s; currentSort := currentSort s;
     editingId := v; listeners := listeners s; trace := trace s |}.

Definition setFiltered (v : list Transaction) (s : AppState) : AppState :=
  {| transactions := transactions s; settings := settings s;
     filteredTransactions := v;
     currentSearch := currentSearch s; currentSort := currentSort s;
     editingId := editingId s; listeners := listeners s; trace := trace s |}.

Definition setCurrentSearch (v : Search) (s : AppState) : AppState :=
  {| transactions := transactions s; settings := settings s;
     filteredTransactions := filteredTransactions s;
     currentSearch := v; currentSort := currentSort s;
     editingId := editingId s; listeners := listeners s; trace := trace s |}.

Definition setCurrentSort (v : string) (s : AppState) : AppState :=
  {| transactions := transactions s; settings := settings s;
     filteredTransactions := filteredTransactions s;
     currentSearch := currentSearch s; currentSort := v;
     editingId := editingId s; listeners := listeners s; trace := trace s |}.

Definition setListeners (v : list Listener) (s : AppState) : AppState :=
  {| transactions := transactions s; settings := settings s;
     filteredTransactions := filteredTransactions s;
     currentSearch := currentSearch s; currentSort := currentSort s;
     editingId := editingId s; listeners := v; trace := trace s |}.

Definition emit (es : list Event) (s : AppState) : AppState :=
  {| transactions := transactions s; settings := settings s;
     filteredTransactions := filteredTransactions s;
     currentSearch := currentSearch s; currentSort := currentSort s;
     editingId := editingId s; listeners := listeners s;
     trace := (trace s ++ es)%list |}.

Definition setRegex (m : Matcher) (c : Search) : Search :=
  {| pattern := pattern c; regex := m; caseSensitive := caseSensitive c |}.

(** An [Error] object. *)
Record JsError : Type := {
  name : string;
  message : string
}.

Definition newError (msg : string) : JsError :=
  {| name := "Error"; message := msg |}.

(** How a method ends: it returns a value or throws, and leaves a state. *)
Inductive Outcome (A : Type) : Type :=
| Returned (value : A) (after : AppState)
| Thrown (error : JsError) (after : AppState).

Arguments Returned {A} value after.
Arguments Thrown {A} error after.

(** [constructor()] *)
Definition initial : AppState :=
  {| transactions := [];
     settings := {| baseCurrency := None; conversionRates := None;
                    monthlyBudget := None; categories := None |};
     filteredTransactions := [];
     currentSearch := {| pattern := EmptyString; regex := NoMatcher;
                         caseSensitive := false |};
     currentSort := "date-desc";
     editingId := None;
     listeners := [];
     trace := [] |}.

(** [subscribe(listener)] *)
Definition subscribe (listener : Listener) (s : AppState) : AppState :=
  setListeners (listeners s ++ [listener])%list s.

(** The function that [subscribe(listener)] returns: it takes every
    occurrence of the listener out of the list. *)
Definition unsubscribe (listener : Listener) (s : AppState) : AppState :=
  setListeners (filter (fun l => negb (Nat.eqb l listener)) (listeners s)) s.

(** [notify()]: every listener is called, in the order of subscription. *)
Definition notify (s : AppState) : AppState :=
  emit (List.map Notified (listeners s)) s.

(** [saveTransactions(this.transactions)] *)
Definition saveTransactions (s : AppState) : AppState :=
  emit [SavedTransactions (transactions s)] s.

(** [init()]; [loaded] and [loadedSettings] are what [loadTransactions()]
    and [loadSettings()] return. *)
Definition init (loaded : list Transaction) (loadedSettings : Settings)
  (s : AppState) : AppState :=
  notify (setFiltered loaded (setSettings loadedSettings (setTransactions loaded s))).

Definition orOld {A : Type} (new old : option A) : option A :=
  match new with
  | Some _ => new
  | None => old
  end.

(** [{ ...this.settings, ...newSettings }] *)
Definition mergeSettings (old new : Settings) : Settings :=
  {| baseCurrency := orOld (baseCurrency new) (baseCurrency old);
     conversionRates := orOld (conversionRates new) (conversionRates old);
     monthlyBudget := orOld (monthlyBudget new) (monthlyBudget old);
     categories := orOld (categories new) (categories old) |}.

(** [updateSettings(newSettings)] *)
Definition updateSettings (newSettings : Settings) (s : AppState) : AppState :=
  let s1 := setSettings (mergeSettings (settings s) newSettings) s in
  notify (emit [SavedSettings (settings s1)] s1).

(** [setEditing(id)] and [clearEditing()] *)
Definition setEditing (i : string) (s : AppState) : AppState :=
  notify (setEditingId (Some i) s).

Definition clearEditing (s : AppState) : AppState :=
  notify (setEditingId None s).

(** [clearAll()] *)
Definition clearAll (env : Env) (s : AppState) : AppState :=
  if env_confirm env
  then notify (saveTransactions (setFiltered [] (setTransactions [] s)))
  else s.

(** [generateId()] of storage.js *)
Definition generateId (env : Env) : string :=
  "txn_" ++ Str.ofN (env_dateNow env) ++ "_" ++ env_random env.

Section WithHost.

Context `{Host}.

(** *** Searching *)

(** The text a transaction is searched in. *)
Definition searchable (t : Transaction) : string :=
  description t ++ " " ++ numberToString (amount t) ++ " " ++
  category t ++ " " ++ date t.

(** The loop of RegExpBuiltinExec: the end index of the first match that
    starts at index [i] or later, trying [fuel + 1] start positions. *)
Fixpoint execFrom (r : RegExp) (text : string) (fuel i : nat) : option nat :=
  match regexp_match_at (source r) (ignoreCase r) text i with
  | Some e => Some e
  | None =>
      match fuel with
      | O => None
      | S fuel' => execFrom r text fuel' (S i)
      end
  end.

Definition setLastIndex (i : nat) (r : RegExp) : RegExp :=
  {| source := source r; ignoreCase := ignoreCase r; global := global r;
     lastIndex := if global r then i else lastIndex r |}.

(** [regex.test(text)]: the search starts at [lastIndex] when the regular
    expression is global, and leaves in [lastIndex] the end of the match
    found, or 0 when there is none. *)
Definition test (r : RegExp) (text : string) : bool * RegExp :=
  let len := String.length text in
  let start := if global r then lastIndex r else 0 in
  if len <? start then (false, setLastIndex 0 r)
  else match execFrom r text (len - start) start with
       | Some e => (true, setLastIndex e r)
       | None => (false, setLastIndex 0 r)
       end.

(** Whether a text matches a regular expression at all: [test] on a
    matcher whose scan position is 0. *)
Definition matches (r : RegExp) (text : string) : bool :=
  fst (test (setLastIndex 0 r) text).

(** [this.transactions.filter(t => regex.test(searchable))] with the one
    [regex] object going through all the calls. *)
Fixpoint filterTest (r : RegExp) (ts : list Transaction)
  : list Transaction * RegExp :=
  match ts with
  | [] => ([], r)
  | t :: ts' =>
      let '(found, r1) := test r (searchable t) in
      let '(kept, r2) := filterTest r1 ts' in
      (if found then t :: kept else kept, r2)
  end.

(** [applySearch()] *)
Definition applySearch (s : AppState) : AppState :=
  match regex (currentSearch s) with
  | NoMatcher | Malformed _ => setFiltered (transactions s) s
  | Compiled r =>
      let '(kept, r') := filterTest r (transactions s) in
      setFiltered kept (setCurrentSearch (setRegex (Compiled r') (currentSearch s)) s)
  end.

(** *** Sorting *)

(** The comparison function of [applySort] for the sort key [sortBy]. *)
Definition comparator (sortBy : string) (a b : Transaction) : Num.number :=
  let parts := Str.split "-" sortBy in
  let field := nth 0 parts EmptyString in
  let direction := nth_error parts 1 in
  let oriented (comparison : Num.number) :=
    match direction with
    | Some d => if String.eqb d "asc" then comparison else Num.neg comparison
    | None => Num.neg comparison
    end in
  if String.eqb field "date"
  then oriented (Num.sub (dateTimeValue (date a)) (dateTimeValue (date b)))
  else if String.eqb field "amount"
  then oriented (Num.sub (amount a) (amount b))
  else if String.eqb field "description"
  then oriented (localeCompare (description a) (description b))
  else Num.zero.

(** [Array.prototype.sort(compare)].  The sort is stable, and for a
    comparison function that orders the elements consistently its result is
    the one stable arrangement in that order, which insertion from the right
    computes: an element goes past those it compares greater than. *)
Fixpoint insertBy (compare : Transaction -> Transaction -> Num.number)
  (x : Transaction) (l : list Transaction) : list Transaction :=
  match l with
  | [] => [x]
  | y :: r =>
      match Num.sign (compare x y) with
      | Gt => y :: insertBy compare x r
      | _ => x :: l
      end
  end.

Definition sort (compare : Transaction -> Transaction -> Num.number)
  (l : list Transaction) : list Transaction :=
  fold_right (insertBy compare) [] l.

(** [applySort()] *)
Definition applySort (s : AppState) : AppState :=
  setFiltered (sort (comparator (currentSort s)) (filteredTransactions s)) s.

(** [applySearchAndSort()] *)
Definition applySearchAndSort (s : AppState) : AppState :=
  applySort (applySearch s).

(** [setSearch(pattern, caseSensitive)]: the flags are ['g'] or ['gi']. *)
Definition compile (pattern : string) (caseSensitive : bool) : Matcher :=
  if Str.truthy pattern
  then match regexp_syntax_error pattern with
       | Some msg => Malformed msg
       | None => Compiled {| source := pattern;
                             ignoreCase := negb caseSensitive;
                             global := true;
                             lastIndex := 0 |}
       end
  else NoMatcher.

Definition setSearch (pattern : string) (caseSensitive : bool) (s : AppState)
  : Outcome unit :=
  let s1 :=
    setCurrentSearch {| pattern := pattern;
                        regex := compile pattern caseSensitive;
                        caseSensitive := caseSensitive |} s in
  Returned tt (applySearchAndSort s1).

(** [setSort(sortBy)] *)
Definition setSort (sortBy : string) (s : AppState) : Outcome unit :=
  Returned tt (applySearchAndSort (setCurrentSort sortBy s)).

(** *** Transactions *)

(** [getTransaction(id)]: the first transaction with this id. *)
Definition getTransaction (i : string) (s : AppState) : option Transaction :=
  find (fun t => String.eqb (id t) i) (transactions s).

(** [addTransaction(formData)] *)
Definition addTransaction (env : Env) (formData : FormData) (s : AppState)
  : Outcome Transaction :=
  let validation := validateTransaction env formData in
  if negb (isValid validation)
  then Thrown (newError "Invalid transaction data") s
  else
    let now := env_timestamp env in
    let transaction :=
      {| id := generateId env;
         description := c_description (cleaned validation);
         amount := c_amount (cleaned validation);
         category := c_category (cleaned validation);
         date := c_date (cleaned validation);
         createdAt := now;
         updatedAt := now |} in
    let s1 := setTransactions (transaction :: transactions s) s in
    Returned transaction (notify (saveTransactions (applySearchAndSort s1))).

(** [array.findIndex(p)]; [None] stands for -1. *)
Fixpoint findIndex (p : Transaction -> bool) (l : list Transaction)
  : option nat :=
  match l with
  | [] => None
  | t :: r => if p t then Some 0 else option_map S (findIndex p r)
  end.

(** [array[i] = x] for an index inside the array. *)
Fixpoint assign (i : nat) (x : Transaction) (l : list Transaction)
  : list Transaction :=
  match l, i with
  | [], _ => []
  | _ :: r, O => x :: r
  | y :: r, S j => y :: assign j x r
  end.

(** [updateTransaction(id, formData)].  The element at the index that
    [findIndex] returns always exists (lemma [findIndex_nth_error] below), so
    the inner [None] is never taken. *)
Definition updateTransaction (env : Env) (i : string) (formData : FormData)
  (s : AppState) : Outcome Transaction :=
  let validation := validateTransaction env formData in
  if negb (isValid validation)
  then Thrown (newError "Invalid transaction data") s
  else
    match findIndex (fun t => String.eqb (id t) i) (transactions s) with
    | None => Thrown (newError "Transaction not found") s
    | Some index =>
        match nth_error (transactions s) index with
        | None => Thrown (newError "Transaction not found") s
        | Some old =>
            let updatedTransaction :=
              {| id := id old;
                 description := c_description (cleaned validation);
                 amount := c_amount (cleaned validation);
                 category := c_category (cleaned validation);
                 date := c_date (cleaned validation);
                 createdAt := createdAt old;
                 updatedAt := env_timestamp env |} in
            let s1 :=
              setTransactions (assign index updatedTransaction (transactions s)) s in
            Returned updatedTransaction
              (notify (saveTransactions (applySearchAndSort s1)))
        end
    end.

(** [deleteTransaction(id)] *)
Definition deleteTransaction (env : Env) (i : string) (s : AppState)
  : Outcome bool :=
  if negb (env_confirm env)
  then Returned false s
  else
    let s1 :=
      setTransactions
        (filter (fun t => negb (String.eqb (id t) i)) (transactions s)) s in
    Returned true (notify (saveTransactions (applySearchAndSort s1))).

(** [importTransactions(newTransactions)] *)
Definition importTransactions (newTransactions : list Transaction)
  (s : AppState) : Outcome unit :=
  let s1 := setTransactions (newTransactions ++ transactions s)%list s in
  Returned tt (notify (saveTransactions (applySearchAndSort s1))).

(** *** Statistics *)

Record TrendDay : Type := {
  td_date : string;
  td_amount : Num.number;
  td_day : string
}.

Record Budget : Type := {
  used : Num.number;
  total : Num.number;
  percentage : Num.number;
  isOverBudget : bool;
  remaining : Num.number;
  overspent : Num.number
}.

Record Stats : Type := {
  st_total : nat;
  st_totalAmount : Num.number;
  st_topCategory : string;
  st_last7Days : list TrendDay;
  st_budget : Budget
}.

(** [list.reduce((sum, t) => sum + t.amount, 0)] *)
Definition sumAmounts (ts : list Transaction) : Num.number :=
  fold_left (fun sum t => Num.add sum (amount t)) ts Num.zero.

(** [categoryCount[key] = (categoryCount[key] || 0) + 1] on an object kept
    as the list of its members in the order they were created.  (A key that
    names a member every object inherits, such as [constructor], is outside
    this model; a category that passed validation starts with a capital and
    names none.) *)
Fixpoint increment (key : string) (o : list (string * nat))
  : list (string * nat) :=
  match o with
  | [] => [(key, 1)]
  | (k, n) :: r =>
      if String.eqb k key then (k, n + 1) :: r else (k, n) :: increment key r
  end.

Definition countCategories (ts : list Transaction) : list (string * nat) :=
  fold_left (fun o t => increment (category t) o) ts [].

(** A key that is an array index: the decimal writing, with no leading
    zero, of an integer below 2^32 - 1. *)
Definition keyValue (k : string) : N :=
  fold_left (fun acc c => (10 * acc + N.of_nat (Str.digitValue c))%N)
            (list_ascii_of_string k) 0%N.

Definition isArrayIndex (k : string) : bool :=
  match k with
  | EmptyString => false
  | String c r =>
      forallb Str.isDigit (list_ascii_of_string k) &&
      (negb (Ascii.eqb c "0") || (String.length k =? 1)) &&
      (keyValue k <? 4294967295)%N
  end.

Fixpoint insertKey (e : string * nat) (l : list (string * nat))
  : list (string * nat) :=
  match l with
  | [] => [e]
  | y :: r =>
      if (keyValue (fst y) <? keyValue (fst e))%N
      then y :: insertKey e r else e :: l
  end.

(** [Object.entries(o)]: the keys that are array indices in ascending
    order, then the others in the order of creation. *)
Definition entries (o : list (string * nat)) : list (string * nat) :=
  (fold_right insertKey [] (filter (fun e => isArrayIndex (fst e)) o)
   ++ filter (fun e => negb (isArrayIndex (fst e))) o)%list.

(** The loop that keeps the first category with the highest count. *)
Definition topCategoryOf (es : list (string * nat)) : string :=
  fst (fold_left
         (fun (best : string * nat) (e : string * nat) =>
            if snd best <? snd e then e else best)
         es ("-", 0)).

(** One turn of the loop of [getLast7DaysTrend()], for the day [i] days
    before today. *)
Definition trendDay (env : Env) (s : AppState) (i : nat) : TrendDay :=
  let dateStr := env_isoDate env i in
  {| td_date := dateStr;
     td_amount :=
       sumAmounts (filter (fun t => String.eqb (date t) dateStr) (transactions s));
     td_day := env_weekday env i |}.

(** [getLast7DaysTrend()] *)
Definition getLast7DaysTrend (env : Env) (s : AppState) : list TrendDay :=
  List.map (trendDay env s) [6; 5; 4; 3; 2; 1; 0].

(** [getStats()] *)
Definition getStats (env : Env) (s : AppState) : Stats :=
  let totalAmount := sumAmounts (transactions s) in
  let budgetUsed := totalAmount in
  let budgetTotal := Num.or_else (monthlyBudget (settings s)) (Num.Fin 500) in
  {| st_total := List.length (transactions s);
     st_totalAmount := totalAmount;
     st_topCategory := topCategoryOf (entries (countCategories (transactions s)));
     st_last7Days := getLast7DaysTrend env s;
     st_budget :=
       {| used := budgetUsed;
          total := budgetTotal;
          percentage :=
            Num.min (Num.mul (Num.div budgetUsed budgetTotal) (Num.Fin 100))
                    (Num.Fin 100);
          isOverBudget := Num.gtb budgetUsed budgetTotal;
          remaining := Num.max (Num.sub budgetTotal budgetUsed) Num.zero;
          overspent := Num.max (Num.sub budgetUsed budgetTotal) Num.zero |} |}.

End WithHost.

End Store.

(* ------------------------------------------------------------------ *)
(** ** validators.js: compiling a search pattern *)

Module Patterns.

Import Store.

(** The flags of a regular expression, among [g] and [i]: the callers pass
    ['g'] or ['gi'], and the default is ['i']. *)
Record Flags : Type := {
  flag_g : bool;
  flag_i : bool
}.

Section WithHost.

Context `{Host}.

(** [compileRegex(pattern, flags)] *)
Definition compileRegex (pattern : string) (flags : Flags) : Matcher :=
  if Str.truthy pattern
  then match regexp_syntax_error pattern with
       | Some msg => Malformed msg
       | None => Compiled {| source := pattern;
                             ignoreCase := flag_i flags;
                             global := flag_g flags;
                             lastIndex := 0 |}
       end
  else NoMatcher.

End WithHost.

End Patterns.

(* ------------------------------------------------------------------ *)
(** ** ui.js: the search box *)

Module Ui.

Import Store Patterns.

(** [caseSensitive ? 'g' : 'gi'] *)
Definition searchFlags (caseSensitive : bool) : Flags :=
  {| flag_g := true; flag_i := negb caseSensitive |}.

Section WithHost.

Context `{Host}.

(** [handleSearch()]: [pattern] and [caseSensitive] are read from the search
    box and its check box; the result is the text left in the element
    [searchError] and what the call does to the store. *)
Definition handleSearch (pattern : string) (caseSensitive : bool)
  (s : AppState) : string * Outcome unit :=
  match compileRegex pattern (searchFlags caseSensitive) with
  | Malformed error => ("Invalid regex: " ++ error, Returned tt s)
  | _ => (EmptyString, setSearch pattern caseSensitive s)
  end.


(** [if (state.editingId)]: an id is being edited, and it is not the empty
    text. *)
Definition isEditing (s : AppState) : bool :=
  match editingId s with
  | Some i => Str.truthy i
  | None => false
  end.

(** [handleFormSubmit(e)]: [formData] is read from the four fields of the
    form; the result is the text and the type given to [showMessage], and
    the store.  After a change that went through, [resetForm()] ends the
    editing. *)
Definition handleFormSubmit (env : Env) (formData : Validators.FormData)
  (s : AppState) : string * string * AppState :=
  let attempt :=
    match editingId s with
    | Some i =>
        if Str.truthy i then updateTransaction env i formData s
        else addTransaction env formData s
    | None => addTransaction env formData s
    end in
  match attempt with
  | Returned _ s' =>
      (if isEditing s then "Transaction updated successfully"
       else "Transaction added successfully",
       "success", clearEditing s')
  | Thrown error s' => (message error, "error", s')
  end.

End WithHost.

End Ui.

(* ------------------------------------------------------------------ *)
(** ** A reference runtime

    An executable [Host] on which the store can be run.  It agrees with the
    language on the fragment the examples below are written in: patterns
    made of letters, digits and spaces (which match as literal text) and
    patterns with an unclosed group (which do not compile); decimal
    numerals without exponent; numbers with a short decimal writing; dates
    written YYYY-MM-DD; texts of unaccented letters. *)

Module Reference.

Import Str.

(** Depth of open groups after reading the pattern; [None] when a closing
    parenthesis has nothing to close. *)
Fixpoint groupDepth (depth : nat) (p : string) : option nat :=
  match p with
  | EmptyString => Some depth
  | String "\" (String _ r) => groupDepth depth r
  | String "(" r => groupDepth (S depth) r
  | String ")" r =>
      match depth with
      | O => None
      | S d => groupDepth d r
      end
  | String _ r => groupDepth depth r
  end.

Definition syntaxError (p : string) : option string :=
  match groupDepth 0 p with
  | Some O => None
  | Some (S _) =>
      Some ("Invalid regular expression: /" ++ p ++ "/: Unterminated group")
  | None =>
      Some ("Invalid regular expression: /" ++ p ++ "/: Unmatched ')'")
  end.

Definition sameChar (ic : bool) (a b : ascii) : bool :=
  if ic then Ascii.eqb (toUpper a) (toUpper b) else Ascii.eqb a b.

(** Whether [p] is read at the head of [text]. *)
Fixpoint readsAtHead (ic : bool) (p text : string) : bool :=
  match p, text with
  | EmptyString, _ => true
  | String a p', String b text' => sameChar ic a b && readsAtHead ic p' text'
  | String _ _, EmptyString => false
  end.

Fixpoint drop (i : nat) (s : string) : option string :=
  match i, s with
  | O, _ => Some s
  | S j, String _ r => drop j r
  | S _, EmptyString => None
  end.

Definition matchAt (p : string) (ic : bool) (text : string) (i : nat)
  : option nat :=
  match drop i text with
  | Some rest => if readsAtHead ic p rest then Some (i + String.length p) else None
  | None => None
  end.

(** Leading digits of a text: their value, how many they are, what follows. *)
Fixpoint readDigits (value : N) (count : nat) (s : string) : N * nat * string :=
  match s with
  | String c r =>
      if isDigit c
      then readDigits (10 * value + N.of_nat (digitValue c))%N (S count) r
      else (value, count, s)
  | EmptyString => (value, count, s)
  end.

Fixpoint skipSpaces (s : string) : string :=
  match s with
  | String c r => if isWhiteSpace c then skipSpaces r else s
  | EmptyString => s
  end.

Definition parseUnsigned (s : string) : option Q :=
  let '(whole, n, rest) := readDigits 0%N 0 s in
  match rest with
  | String "." r =>
      let '(frac, k, _) := readDigits 0%N 0 r in
      if (n + k =? 0)%nat then None
      else Some (Qplus (inject_Z (Z.of_N whole))
                       (Qmake (Z.of_N frac) (Pos.pow 10 (Pos.of_nat k))))
  | _ => if (n =? 0)%nat then None else Some (inject_Z (Z.of_N whole))
  end.

Definition refParseFloat (s : string) : Num.number :=
  match skipSpaces s with
  | String "-" r =>
      match parseUnsigned r with
      | Some q => Num.Fin (Qred (- q))
      | None => Num.NaN
      end
  | String "+" r =>
      match parseUnsigned r with
      | Some q => Num.Fin (Qred q)
      | None => Num.NaN
      end
  | r =>
      match parseUnsigned r with
      | Some q => Num.Fin (Qred q)
      | None => Num.NaN
      end
  end.

(** Up to [fuel] decimals of the fraction [num / den], stopping when the
    remainder is 0. *)
Fixpoint decimals (fuel : nat) (num den : N) : string :=
  match fuel with
  | O => EmptyString
  | S f =>
      if (num =? 0)%N then EmptyString
      else (ofN ((10 * num) / den) ++ decimals f ((10 * num) mod den) den)%string
  end.

Definition printUnsigned (q : Q) : string :=
  let num := Z.to_N (Qnum q) in
  let den := Npos (Qden q) in
  let whole := ofN (num / den)%N in
  match decimals 17 (num mod den)%N den with
  | EmptyString => whole
  | ds => whole ++ "." ++ ds
  end.

Definition refNumberToString (x : Num.number) : string :=
  match x with
  | Num.NaN => "NaN"
  | Num.PosInf => "Infinity"
  | Num.NegInf => "-Infinity"
  | Num.Fin q =>
      match (q ?= 0)%Q with
      | Lt => "-" ++ printUnsigned (Qopp q)
      | _ => printUnsigned q
      end
  end.

(** Days from 1970-01-01 to the given day of the Gregorian calendar. *)
Definition daysFromCivil (y m d : Z) : Z :=
  let y' := (if m <=? 2 then y - 1 else y)%Z in
  let era := (y' / 400)%Z in
  let yoe := (y' - era * 400)%Z in
  let mp := ((m + 9) mod 12)%Z in
  let doy := ((153 * mp + 2) / 5 + d - 1)%Z in
  let doe := (yoe * 365 + yoe / 4 - yoe / 100 + doy)%Z in
  (era * 146097 + doe - 719468)%Z.

Definition refDateTimeValue (s : string) : Num.number :=
  if Validators.datePattern s &&
     (let '(y, m, d) := Validators.splitDate s in
      (d <=? Validators.daysInMonth y m)%nat)
  then let '(y, m, d) := Validators.splitDate s in
       Num.Fin (inject_Z (daysFromCivil (Z.of_nat y) (Z.of_nat m) (Z.of_nat d)
                          * 86400000))
  else Num.NaN.

(** Comparison of two texts code unit by code unit. *)
Definition refLocaleCompare (a b : string) : Num.number :=
  match String.compare a b with
  | Lt => Num.Fin (-1)
  | Eq => Num.Fin 0
  | Gt => Num.Fin 1
  end.

Definition host : Host :=
  {| regexp_syntax_error := syntaxError;
     regexp_match_at := matchAt;
     parseFloat := refParseFloat;
     numberToString := refNumberToString;
     dateTimeValue := refDateTimeValue;
     localeCompare := refLocaleCompare;
     localDay := fun day => day |}.

(** The same runtime in the time zone Pacific/Apia, whose calendar went
    from 29 December 2011 straight to 31 December 2011. *)
Definition apiaDay (day : nat * nat * nat) : nat * nat * nat :=
  let '(y, m, d) := day in
  if (y =? 2011) && (m =? 11) && (d =? 30) then (2011, 11, 31) else day.

Definition apia : Host :=
  {| regexp_syntax_error := syntaxError;
     regexp_match_at := matchAt;
     parseFloat := refParseFloat;
     numberToString := refNumberToString;
     dateTimeValue := refDateTimeValue;
     localeCompare := refLocaleCompare;
     localDay := apiaDay |}.

(** One moment of the outside world: Friday 10 January 2025, noon UTC. *)
Definition env (confirmed : bool) : Env :=
  {| env_timestamp := "2025-01-10T12:00:00.000Z";
     env_dateNow := 1736510400000%N;
     env_random := "k3j9x2m1q";
     env_confirm := confirmed;
     env_today := (2025, 1, 10);
     env_isoDate := fun i =>
       nth i ["2025-01-10"; "2025-01-09"; "2025-01-08"; "2025-01-07";
              "2025-01-06"; "2025-01-05"; "2025-01-04"] EmptyString;
     env_weekday := fun i =>
       nth i ["Fri"; "Thu"; "Wed"; "Tue"; "Mon"; "Sun"; "Sat"] EmptyString |}.

End Reference.

(* ------------------------------------------------------------------ *)
(** ** Example data *)

Module Examples.

Import Store Validators.

Definition coffee : FormData :=
  {| f_description := "Coffee"; f_amount := "3.50";
     f_category := "Food"; f_date := "2025-01-10" |}.

Definition t1 : Transaction :=
  {| id := "txn_1"; description := "Coffee"; amount := Num.Fin (7 # 2);
     category := "Food"; date := "2025-01-10";
     createdAt := "2025-01-10T08:00:00.000Z";
     updatedAt := "2025-01-10T08:00:00.000Z" |}.

Definition t2 : Transaction :=
  {| id := "txn_2"; description := "Coffee beans"; amount := Num.Fin 12;
     category := "Food"; date := "2025-01-08";
     createdAt := "2025-01-08T09:30:00.000Z";
     updatedAt := "2025-01-08T09:30:00.000Z" |}.

Definition t3 : Transaction :=
  {| id := "txn_3"; description := "Bus pass"; amount := Num.Fin 45;
     category := "Transport"; date := "2025-01-09";
     createdAt := "2025-01-09T07:15:00.000Z";
     updatedAt := "2025-01-09T07:15:00.000Z" |}.

(** A store holding [ts], with one subscriber, as [importTransactions]
    leaves it. *)
Definition storeOf (ts : list Transaction) : AppState :=
  match importTransactions (H := Reference.host) ts (subscribe 1 initial) with
  | Returned _ s => s
  | Thrown _ s => s
  end.

Definition store : AppState := storeOf [t1; t2; t3].

(** The regular expression that [setSearch('Coffee', false)] compiles. *)
Definition coffeeRegExp : RegExp :=
  {| source := "Coffee"; ignoreCase := true; global := true; lastIndex := 0 |}.

(** A description that starts with a space. *)
Definition badDescription : FormData :=
  {| f_description := " Coffee"; f_amount := "3.50";
     f_category := "Food"; f_date := "2025-01-10" |}.

(** An amount that is not a numeral. *)
Definition badAmount : FormData :=
  {| f_description := "Coffee"; f_amount := "abc";
     f_category := "Food"; f_date := "2025-01-10" |}.

(** Two transactions under one id, as an import can bring them in. *)
Definition twin : Transaction :=
  {| id := "txn_1"; description := "Tea"; amount := Num.Fin 2;
     category := "Food"; date := "2025-01-07";
     createdAt := "2025-01-07T10:00:00.000Z";
     updatedAt := "2025-01-07T10:00:00.000Z" |}.

(** A record whose date is no date, as an import file can hold one. *)
Definition undated : Transaction :=
  {| id := "txn_4"; description := "Books"; amount := Num.Fin 20;
     category := "Books"; date := "soon";
     createdAt := "2025-01-09T11:00:00.000Z";
     updatedAt := "2025-01-09T11:00:00.000Z" |}.


(** The store as it is created, after the settings form saved a monthly
    budget of -5. *)
Definition overdrawn : AppState :=
  updateSettings
    {| baseCurrency := Some "USD";
       conversionRates := Some [("EUR", Num.Fin (17 # 20));
                                ("GBP", Num.Fin (3 # 4))];
       monthlyBudget := Some (Num.Fin (-5));
       categories := None |}
    initial.

End Examples.

(* ------------------------------------------------------------------ *)
(** ** Notions the properties are stated with *)

Import Store Validators.

(** Two values of the member [regex] that stand for the same search: both
    [null], the same error, or regular expressions compiled from the same
    pattern with the same flags.  The scan position is not compared. *)
Definition sameMatcher (m1 m2 : Matcher) : Prop :=
  match m1, m2 with
  | NoMatcher, NoMatcher => True
  | Malformed a, Malformed b => a = b
  | Compiled r1, Compiled r2 =>
      source r1 = source r2 /\ ignoreCase r1 = ignoreCase r2 /\
      global r1 = global r2
  | _, _ => False
  end.

(** The field of a sort key: what stands before its first hyphen. *)
Definition sortField (sortBy : string) : string :=
  nth 0 (Str.split "-" sortBy) EmptyString.

(** Whether validation reported an error for a field. *)
Definition failed (field : string) (v : Validation) : bool :=
  existsb (fun e => String.eqb (fst e) field) (errors v).

(** A value of the language that is a string or a number. *)
Inductive JsValue : Type :=
| JsString (s : string)
| JsNumber (n : Num.number).

(** The configured monthly budget, when there is one, is not below zero. *)
Definition budgetNotNegative (st : Settings) : Prop :=
  match monthlyBudget st with
  | Some b => Num.ltb b Num.zero = false
  | None => True
  end.


(** How many transactions of the list have the id [i]. *)
Definition countId (i : string) (ts : list Transaction) : nat :=
  List.length (filter (fun t => String.eqb (id t) i) ts).

(** How many transactions of the list have the category [c]. *)
Definition countCategory (c : string) (ts : list Transaction) : nat :=
  List.length (filter (fun t => String.eqb (category t) c) ts).

(** The names of the members that every object inherits.  Used as a
    category, one of them would not start a count of its own in the object
    [categoryCount]. *)
Definition inheritedMembers : list string :=
  ["constructor"; "hasOwnProperty"; "isPrototypeOf"; "propertyIsEnumerable";
   "toLocaleString"; "toString"; "valueOf"; "__proto__";
   "__defineGetter__"; "__defineSetter__"; "__lookupGetter__";
   "__lookupSetter__"].

(** What [replace(/\s+/g, ' ')] makes of one character of a text that has
    no two white space characters in a row. *)
Definition blank (c : ascii) : ascii :=
  if Str.isWhiteSpace c then " "%char else c.

(** A text made of decimal digits. *)
Definition allDigits (s : string) : bool :=
  forallb Str.isDigit (list_ascii_of_string s).

(** The whole part of an amount: the text 0, or digits of which the first
    is not 0. *)
Definition wholePart (w : string) : Prop :=
  w = "0" \/
  exists c r, w = String c r /\ Str.isDigit c = true /\ c <> "0"%char /\
              allDigits r = true.

(** The fraction of an amount: nothing, or a dot and one or two digits. *)
Definition fractionPart (f : string) : Prop :=
  f = EmptyString \/
  exists ds, f = String "." ds /\ allDigits ds = true /\
             1 <= String.length ds <= 2.

(** The time zone of the host has every day of the calendar: the date
    object made for a day reads back as that day. *)
Definition noSkippedDay `{Host} : Prop := forall day, localDay day = day.

(** Year, month and day that [validateDate] reads from a date. *)
Definition yearOf (date : string) : nat := fst (fst (splitDate date)).
Definition monthOf (date : string) : nat := snd (fst (splitDate date)).
Definition dayOf (date : string) : nat := snd (splitDate date).

(** Two texts that differ at most in the case of the letters a to z. *)
Definition sameUpToCase (s s' : string) : Prop :=
  Str.map Str.toUpper s = Str.map Str.toUpper s'.

(** The warnings that are not about the date. *)
Definition otherThanDate (ws : list (string * string))
  : list (string * string) :=
  filter (fun w => negb (String.eqb (fst w) "date")) ws.

(* ------------------------------------------------------------------ *)
(** ** The recognisers on the test table of validators.js

    The inputs of [testPatterns], each with what the pattern of the source
    answers on it. *)

Module PatternTable.

Import Validators.

Example description_table :
  List.map descriptionPattern
    ["Coffee"; " Coffee"; "Coffee "; "Coffee  shop"; "Coffee shop"]
  = [true; false; false; true; true] /\
  List.map hasDoubleSpaces
    ["Coffee"; " Coffee"; "Coffee "; "Coffee  shop"; "Coffee shop"]
  = [false; false; false; true; false] /\
  List.map (fun s => d_valid (validateDescription s))
    ["Coffee"; " Coffee"; "Coffee "; "Coffee  shop"; "Coffee shop"]
  = [true; false; false; false; true].
Proof. repeat split; reflexivity. Qed.

(** The table expects the pattern to refuse '10.5'; the pattern, which
    allows one or two decimals, accepts it. *)
Example amount_table :
  List.map amountPattern ["0"; "10"; "10.50"; "10.5"; "10.500"; "-10"]
  = [true; true; true; true; false; false].
Proof. reflexivity. Qed.

Example category_table :
  List.map categoryPattern ["Food"; "Fast Food"; "High-Tech"; "Food123"; "Food!"]
  = [true; true; true; false; false].
Proof. reflexivity. Qed.

Example date_table :
  List.map datePattern ["2025-09-29"; "2025-13-01"; "2025-09-32"; "2025-9-1"]
  = [true; false; false; false].
Proof. reflexivity. Qed.

Example calendar_dates :
  List.map (fun s => t_valid (validateDate (H := Reference.host)
                                           (Reference.env true) s))
    ["2025-02-28"; "2025-02-30"; "2024-02-29"; "2023-02-29"; "2025-04-31";
     "2000-02-29"; "1900-02-29"; "0050-01-01"]
  = [true; false; true; false; false; true; false; false].
Proof. reflexivity. Qed.

(** The table of the advanced patterns.  It expects no cents in '10.5',
    and none are found. *)
Example advanced_table :
  List.map hasDuplicateWords ["coffee coffee"; "coffee shop coffee"; "the the"]
  = [true; false; true] /\
  List.map hasCents ["10.50"; "10"; "10.5"] = [true; false; false] /\
  List.map isBeverageTransaction
    ["Coffee"; "Iced TEA to go"; "Teapot"; "Bus pass"; "steam"]
  = [true; true; false; false; false].
Proof. repeat split; reflexivity. Qed.

Example cleaned_texts :
  collapseSpaces "Coffee shop" = "Coffee shop" /\
  capitalize "fast food" = "Fast food" /\
  capitalize "Food" = "Food".
Proof. repeat split; reflexivity. Qed.

End PatternTable.

(* ------------------------------------------------------------------ *)
(** ** Properties *)

(** *** What the recomputation of the view leaves alone *)

Section Frame.

Context `{Host}.

Lemma applySearch_frame (s : AppState) :
  transactions (applySearch s) = transactions s /\
  settings (applySearch s) = settings s /\
  currentSort (applySearch s) = currentSort s /\
  listeners (applySearch s) = listeners s /\
  trace (applySearch s) = trace s /\
  pattern (currentSearch (applySearch s)) = pattern (currentSearch s) /\
  caseSensitive (currentSearch (applySearch s)) = caseSensitive (currentSearch s).
Proof.
  unfold applySearch.
  destruct (regex (currentSearch s)) as [ | r | e ]; simpl; auto 10.
  destruct (filterTest r (transactions s)) as [kept r']; simpl; auto 10.
Qed.

Lemma applySearchAndSort_frame (s : AppState) :
  transactions (applySearchAndSort s) = transactions s /\
  settings (applySearchAndSort s) = settings s /\
  currentSort (applySearchAndSort s) = currentSort s /\
  listeners (applySearchAndSort s) = listeners s /\
  trace (applySearchAndSort s) = trace s /\
  pattern (currentSearch (applySearchAndSort s)) = pattern (currentSearch s) /\
  caseSensitive (currentSearch (applySearchAndSort s))
  = caseSensitive (currentSearch s).
Proof.
  unfold applySearchAndSort, applySort; simpl.
  apply applySearch_frame.
Qed.

Lemma applySearchAndSort_transactions (s : AppState) :
  transactions (applySearchAndSort s) = transactions s.
Proof. apply applySearchAndSort_frame. Qed.

Lemma applySearchAndSort_trace (s : AppState) :
  trace (applySearchAndSort s) = trace s.
Proof. apply applySearchAndSort_frame. Qed.

Lemma applySearchAndSort_listeners (s : AppState) :
  listeners (applySearchAndSort s) = listeners s.
Proof. apply applySearchAndSort_frame. Qed.

(** The view is always the sorted result of the search. *)
Lemma applySearchAndSort_view (s : AppState) :
  filteredTransactions (applySearchAndSort s)
  = sort (comparator (currentSort s)) (filteredTransactions (applySearch s)).
Proof.
  unfold applySearchAndSort, applySort; simpl.
  f_equal. f_equal. apply applySearch_frame.
Qed.

(** Without a compiled matcher the search keeps every transaction. *)
Lemma applySearch_no_filter (s : AppState) :
  (forall r, regex (currentSearch s) <> Compiled r) ->
  applySearch s = setFiltered (transactions s) s.
Proof.
  unfold applySearch. intros Hno.
  destruct (regex (currentSearch s)) as [ | r | e ]; try reflexivity.
  exfalso. apply (Hno r). reflexivity.
Qed.

End Frame.

(** Saving and notifying only add to the trace. *)
Lemma effects_transactions (s : AppState) :
  transactions (notify (saveTransactions s)) = transactions s.
Proof. reflexivity. Qed.

(** *** Lists *)

Lemma findIndex_nth_error (p : Transaction -> bool) (l : list Transaction)
  (i : nat) :
  findIndex p l = Some i ->
  exists t, nth_error l i = Some t /\ p t = true /\ find p l = Some t.
Proof.
  revert i. induction l as [ | a l IH ]; intros i Hi; simpl in *.
  - discriminate.
  - destruct (p a) eqn:Hpa.
    + injection Hi as <-. exists a. auto.
    + destruct (findIndex p l) as [ j | ]; simpl in Hi; try discriminate.
      injection Hi as <-. simpl. apply IH. reflexivity.
Qed.

Lemma findIndex_None (p : Transaction -> bool) (l : list Transaction) :
  findIndex p l = None <-> find p l = None.
Proof.
  induction l as [ | a l IH ]; simpl.
  - tauto.
  - destruct (p a).
    + split; discriminate.
    + destruct (findIndex p l); simpl; split; intros Hx;
        try discriminate; try reflexivity.
      * apply IH in Hx. discriminate.
      * apply IH. assumption.
Qed.

Lemma assign_length (i : nat) (x : Transaction) (l : list Transaction) :
  List.length (assign i x l) = List.length l.
Proof.
  revert i. induction l as [ | a l IH ]; intros [ | i ]; simpl; auto.
Qed.

Lemma assign_same (i : nat) (x : Transaction) (l : list Transaction) :
  i < List.length l -> nth_error (assign i x l) i = Some x.
Proof.
  revert i. induction l as [ | a l IH ]; intros [ | i ] Hi; simpl in *;
    try lia; auto.
  apply IH. lia.
Qed.

Lemma assign_other (i j : nat) (x : Transaction) (l : list Transaction) :
  i <> j -> nth_error (assign i x l) j = nth_error l j.
Proof.
  revert i j. induction l as [ | a l IH ]; intros [ | i ] [ | j ] Hij;
    simpl; try reflexivity; try congruence.
  apply IH. congruence.
Qed.

(** *** What the search keeps *)

Section Search.

Context `{Host}.

Lemma setLastIndex_not_global (i : nat) (r : RegExp) :
  global r = false -> setLastIndex i r = r.
Proof.
  destruct r as [src ic g li]; unfold setLastIndex; simpl.
  intros ->. reflexivity.
Qed.

Lemma test_same_pattern (r : RegExp) (text : string) :
  source (snd (test r text)) = source r /\
  ignoreCase (snd (test r text)) = ignoreCase r /\
  global (snd (test r text)) = global r.
Proof.
  unfold test.
  destruct (String.length text <? (if global r then lastIndex r else 0));
    simpl; auto.
  destruct (execFrom r text _ _); simpl; auto.
Qed.

Lemma filterTest_same_pattern (ts : list Transaction) (r : RegExp) :
  source (snd (filterTest r ts)) = source r /\
  ignoreCase (snd (filterTest r ts)) = ignoreCase r /\
  global (snd (filterTest r ts)) = global r.
Proof.
  revert r. induction ts as [ | t ts IH ]; intros r; simpl.
  - auto.
  - pose proof (test_same_pattern r (searchable t)) as Ht.
    destruct (test r (searchable t)) as [found r1]; simpl in Ht.
    pose proof (IH r1) as Hf.
    destruct (filterTest r1 ts) as [kept r2]; simpl in *.
    destruct Ht as (E1 & E2 & E3). destruct Hf as (F1 & F2 & F3).
    rewrite F1, F2, F3. auto.
Qed.

(** The scan reads the pattern and the case flag, not the scan position. *)
Lemma execFrom_same_pattern (r1 r2 : RegExp) (text : string) (fuel i : nat) :
  source r1 = source r2 -> ignoreCase r1 = ignoreCase r2 ->
  execFrom r1 text fuel i = execFrom r2 text fuel i.
Proof.
  intros Hs Hi. revert i.
  induction fuel as [ | fuel IH ]; intros i; simpl; rewrite Hs, Hi.
  - reflexivity.
  - rewrite IH. reflexivity.
Qed.

(** A text matches when the scan from its first position finds a match. *)
Lemma matches_scan (r : RegExp) (text : string) :
  matches r text
  = match execFrom r text (String.length text) 0 with
    | Some _ => true
    | None => false
    end.
Proof.
  unfold matches, test.
  replace (if global (setLastIndex 0 r)
           then lastIndex (setLastIndex 0 r) else 0) with 0
    by (simpl; destruct (global r); reflexivity).
  rewrite Nat.sub_0_r.
  rewrite (execFrom_same_pattern (setLastIndex 0 r) r) by reflexivity.
  rewrite (proj2 (Nat.ltb_ge (String.length text) 0)) by lia.
  destruct (execFrom r text (String.length text) 0); reflexivity.
Qed.

Lemma matches_same_pattern (r1 r2 : RegExp) (text : string) :
  source r1 = source r2 -> ignoreCase r1 = ignoreCase r2 ->
  matches r1 text = matches r2 text.
Proof.
  intros Hs Hi. rewrite !matches_scan.
  rewrite (execFrom_same_pattern r1 r2) by assumption. reflexivity.
Qed.

(** A scan that finds a match finds one when it starts earlier. *)
Lemma execFrom_earlier (r : RegExp) (text : string) (d fuel k : nat) (e : nat) :
  execFrom r text fuel (k + d) = Some e ->
  exists e', execFrom r text (fuel + d) k = Some e'.
Proof.
  revert k. induction d as [ | d IH ]; intros k Hfound.
  - rewrite Nat.add_0_r in *. exists e. assumption.
  - rewrite Nat.add_succ_r. simpl.
    destruct (regexp_match_at (source r) (ignoreCase r) text k) as [ e0 | ].
    + exists e0. reflexivity.
    + apply IH. rewrite Nat.add_succ_l, <- Nat.add_succ_r. assumption.
Qed.

(** A successful [test], wherever it started, is on a text that matches. *)
Lemma test_true_matches (r : RegExp) (text : string) :
  fst (test r text) = true -> matches r text = true.
Proof.
  rewrite matches_scan. unfold test.
  set (start := if global r then lastIndex r else 0).
  destruct (String.length text <? start) eqn:Hlen;
    [ simpl; discriminate | ].
  apply Nat.ltb_ge in Hlen.
  destruct (execFrom r text (String.length text - start) start) as [ e | ]
    eqn:Hscan; [ | simpl; discriminate ].
  intros _.
  destruct (execFrom_earlier r text start (String.length text - start) 0 e)
    as [ e' He' ]; [ assumption | ].
  replace (String.length text - start + start) with (String.length text)
    in He' by lia.
  rewrite He'. reflexivity.
Qed.

(** The view never holds a transaction that does not match. *)
Lemma filterTest_sound (ts : list Transaction) (r : RegExp) (t : Transaction) :
  In t (fst (filterTest r ts)) ->
  In t ts /\ matches r (searchable t) = true.
Proof.
  revert r. induction ts as [ | a ts IH ]; intros r; simpl.
  - contradiction.
  - pose proof (test_true_matches r (searchable a)) as Hm.
    pose proof (test_same_pattern r (searchable a)) as (Hs & Hi & _).
    destruct (test r (searchable a)) as [found r1]; simpl in Hm, Hs, Hi.
    specialize (IH r1).
    destruct (filterTest r1 ts) as [kept r2]; simpl in *.
    assert (Hrest : In t kept -> In t ts /\ matches r (searchable t) = true).
    { intros Hk. destruct (IH Hk) as [Ht Hmt].
      rewrite (matches_same_pattern r1 r) in Hmt by assumption. auto. }
    intros Hin. destruct found.
    + destruct Hin as [ <- | Hin ]; [ auto | ].
      destruct (Hrest Hin). auto.
    + destruct (Hrest Hin). auto.
Qed.

(** With a matcher that is not global, the scan position stays at 0 and
    the search keeps exactly the transactions that match. *)
Lemma filterTest_not_global (ts : list Transaction) (r : RegExp) :
  global r = false ->
  filterTest r ts
  = (filter (fun t => matches r (searchable t)) ts, r).
Proof.
  intros Hg. induction ts as [ | a ts IH ]; simpl.
  - reflexivity.
  - assert (Ht : test r (searchable a) = (matches r (searchable a), r)).
    { unfold matches. rewrite (setLastIndex_not_global 0 r Hg).
      unfold test.
      destruct (String.length (searchable a)
                <? (if global r then lastIndex r else 0));
        [ rewrite setLastIndex_not_global by assumption; reflexivity | ].
      destruct (execFrom r (searchable a) _ _);
        rewrite setLastIndex_not_global by assumption; reflexivity. }
    rewrite Ht, IH. reflexivity.
Qed.

End Search.

(** *** Validation and the store *)

(** *** Ids *)

Lemma ofN_digits (d : Decimal.uint) :
  allDigits (NilEmpty.string_of_uint d) = true.
Proof.
  unfold allDigits.
  induction d; simpl; try reflexivity; assumption.
Qed.

Lemma digits_then_underscore (a a' r r' : string) :
  allDigits a = true -> allDigits a' = true ->
  a ++ String "_" r = a' ++ String "_" r' -> a = a' /\ r = r'.
Proof.
  revert a'. induction a as [ | c a IH ]; intros [ | c' a' ] Ha Ha' Heq;
    simpl in Heq.
  - injection Heq as ->. split; reflexivity.
  - injection Heq as <- _. discriminate Ha'.
  - injection Heq as -> _. discriminate Ha.
  - injection Heq as <- Heq.
    unfold allDigits in Ha, Ha'. simpl in Ha, Ha'.
    apply andb_true_iff in Ha. apply andb_true_iff in Ha'.
    destruct (IH a' (proj2 Ha) (proj2 Ha') Heq) as [-> ->].
    split; reflexivity.
Qed.

(** The digits of the time end at the first underscore, so that the time
    and the random text can be read back from an id. *)
Lemma generateId_inj (env env' : Env) :
  generateId env = generateId env' ->
  env_dateNow env = env_dateNow env' /\ env_random env = env_random env'.
Proof.
  unfold generateId. intros Heq. simpl in Heq. injection Heq as Heq.
  apply digits_then_underscore in Heq;
    try (unfold Str.ofN; apply ofN_digits).
  destruct Heq as [Hn Hr]. split; [ | assumption ].
  apply DecimalN.Unsigned.to_uint_inj.
  unfold Str.ofN in Hn.
  pose proof (NilEmpty.usu (N.to_uint (env_dateNow env))) as Hu.
  rewrite Hn, NilEmpty.usu in Hu. injection Hu as Hu. symmetry. exact Hu.
Qed.

Section Operations.

Context `{Host}.

Lemma isValid_errors (env : Env) (fd : FormData) :
  isValid (validateTransaction env fd) = true
  <-> errors (validateTransaction env fd) = [].
Proof.
  unfold validateTransaction; simpl.
  match goal with |- (List.length ?l =? 0) = true <-> _ => destruct l end;
    simpl; split; intros Hx; try reflexivity; discriminate.
Qed.



(** C3, as the code has it.  When validation reports a field error,
    [addTransaction] and [updateTransaction] throw an [Error] whose only
    content is the message 'Invalid transaction data', and the store is left
    exactly as it was; when validation passes and no transaction has the
    given id, [updateTransaction] throws 'Transaction not found', and the
    store is left exactly as it was. *)
Theorem rejected_change_leaves_store_untouched
  (env : Env) (i : string) (fd : FormData) (s : AppState) :
  (errors (validateTransaction env fd) <> [] ->
   addTransaction env fd s
   = Thrown (newError "Invalid transaction data") s /\
   updateTransaction env i fd s
   = Thrown (newError "Invalid transaction data") s) /\
  (errors (validateTransaction env fd) = [] ->
   getTransaction i s = None ->
   updateTransaction env i fd s
   = Thrown (newError "Transaction not found") s).
Proof.
  split.
  - intros Herr.
    assert (Hv : isValid (validateTransaction env fd) = false).
    { destruct (isValid (validateTransaction env fd)) eqn:Hv; [ | reflexivity ].
      apply isValid_errors in Hv. contradiction. }
    unfold addTransaction, updateTransaction. rewrite Hv. simpl. auto.
  - intros Herr Habsent.
    apply isValid_errors in Herr.
    unfold updateTransaction. rewrite Herr. simpl.
    unfold getTransaction in Habsent.
    apply findIndex_None in Habsent. rewrite Habsent. reflexivity.
Qed.

(** C4.  For a form that passes validation, [addTransaction] returns a
    record made of the cleaned values, with the id that [generateId] just
    made and the same time in [createdAt] and [updatedAt]; the record is put
    at the head of the canonical list, and [getTransaction] on its id returns
    it.  The id is the text made of the current time and the random text: no
    call of [generateId] at another time or with another random text makes
    it.  Nothing looks at the list, so the id is new to it unless a
    transaction of the list has this very text as its id. *)
Theorem addTransaction_valid
  (env : Env) (fd : FormData) (s : AppState) :
  isValid (validateTransaction env fd) = true ->
  exists t s',
    addTransaction env fd s = Returned t s' /\
    description t = c_description (cleaned (validateTransaction env fd)) /\
    amount t = c_amount (cleaned (validateTransaction env fd)) /\
    category t = c_category (cleaned (validateTransaction env fd)) /\
    date t = c_date (cleaned (validateTransaction env fd)) /\
    id t = generateId env /\
    (forall env',
       id t = generateId env' ->
       env_dateNow env' = env_dateNow env /\
       env_random env' = env_random env) /\
    createdAt t = env_timestamp env /\
    createdAt t = updatedAt t /\
    transactions s' = t :: transactions s /\
    getTransaction (id t) s' = Some t.
Proof.
  intros Hv.
  unfold addTransaction. rewrite Hv. cbn [negb].
  eexists. eexists. split; [ reflexivity | ].
  cbn [description amount category date id createdAt updatedAt].
  repeat split; try assumption.
  - symmetry. apply (generateId_inj env env'). assumption.
  - symmetry. apply (generateId_inj env env'). assumption.
  - rewrite effects_transactions, applySearchAndSort_transactions.
    reflexivity.
  - unfold getTransaction.
    rewrite effects_transactions, applySearchAndSort_transactions.
    cbn [transactions setTransactions find id].
    rewrite String.eqb_refl. reflexivity.
Qed.

(** [setSearch] and [setSort] add nothing to the trace: no listener is
    called. *)
Lemma setSearch_trace (p : string) (cs : bool) (s : AppState) :
  exists s', setSearch p cs s = Returned tt s' /\ trace s' = trace s.
Proof.
  unfold setSearch. eexists. split; [ reflexivity | ].
  rewrite applySearchAndSort_trace. reflexivity.
Qed.

Lemma setSort_trace (sortBy : string) (s : AppState) :
  exists s', setSort sortBy s = Returned tt s' /\ trace s' = trace s.
Proof.
  unfold setSort. eexists. split; [ reflexivity | ].
  rewrite applySearchAndSort_trace. reflexivity.
Qed.

End Operations.

(** *** Deleting and updating *)

Lemma filter_keeps_all (p : Transaction -> bool) (l : list Transaction) :
  (forall x, In x l -> p x = true) -> filter p l = l.
Proof.
  induction l as [ | a l IH ]; intros Hall; simpl.
  - reflexivity.
  - rewrite (Hall a (or_introl eq_refl)). f_equal.
    apply IH. intros x Hx. apply Hall. right. assumption.
Qed.

Lemma find_after_filter_out (p : Transaction -> bool) (l : list Transaction) :
  find p (filter (fun x => negb (p x)) l) = None.
Proof.
  induction l as [ | a l IH ]; simpl.
  - reflexivity.
  - destruct (p a) eqn:Hpa; simpl.
    + assumption.
    + rewrite Hpa. assumption.
Qed.

(** Removing by id takes exactly one element out of a list that holds the
    id once. *)
Lemma filter_out_unique_id (t : Transaction) (l : list Transaction) :
  NoDup (List.map id l) -> In t l ->
  S (List.length (filter (fun x => negb (String.eqb (id x) (id t))) l))
  = List.length l.
Proof.
  induction l as [ | a l IH ]; intros Hnd Hin; simpl in *.
  - contradiction.
  - inversion Hnd as [ | ? ? Hnotin Hnd' ]; subst.
    destruct (String.eqb (id a) (id t)) eqn:Heq; simpl.
    + apply String.eqb_eq in Heq.
      rewrite filter_keeps_all; [ reflexivity | ].
      intros x Hx. apply negb_true_iff. apply String.eqb_neq.
      intros Hid. apply Hnotin. rewrite Heq, <- Hid.
      apply in_map. assumption.
    + f_equal. apply IH; [ assumption | ].
      destruct Hin as [ -> | Hin ]; [ | assumption ].
      rewrite String.eqb_refl in Heq. discriminate.
Qed.

Lemma sameMatcher_refl (m : Matcher) : sameMatcher m m.
Proof. destruct m; simpl; auto. Qed.

Lemma filter_both_lengths (p : Transaction -> bool) (l : list Transaction) :
  List.length (filter (fun x => negb (p x)) l) + List.length (filter p l)
  = List.length l.
Proof.
  induction l as [ | a l IH ]; simpl; [ reflexivity | ].
  destruct (p a); simpl; lia.
Qed.

Section Changes.

Context `{Host}.

Lemma applySearchAndSort_matcher (s : AppState) :
  sameMatcher (regex (currentSearch (applySearchAndSort s)))
              (regex (currentSearch s)).
Proof.
  unfold applySearchAndSort, applySort, applySearch; simpl.
  destruct (regex (currentSearch s)) as [ | r | e ] eqn:Hr; simpl;
    try rewrite Hr; simpl; auto.
  pose proof (filterTest_same_pattern (transactions s) r) as Hf.
  destruct (filterTest r (transactions s)) as [kept r']; simpl in *.
  assumption.
Qed.

(** C6.  When the user confirms, [deleteTransaction] returns true and
    leaves in the list, in their order, the transactions that have another
    id: [getTransaction] on the id then finds nothing, and the list is
    shorter by the number of transactions that had the id, which is exactly
    one for a transaction of a list in which ids are unique.  When the user
    declines, it returns false and the state is the one before the call. *)
Theorem deleteTransaction_confirmed_or_declined
  (env : Env) (i : string) (s : AppState) :
  (env_confirm env = true ->
   exists s',
     deleteTransaction env i s = Returned true s' /\
     getTransaction i s' = None /\
     transactions s'
     = filter (fun t => negb (String.eqb (id t) i)) (transactions s) /\
     List.length (transactions s') + countId i (transactions s)
     = List.length (transactions s) /\
     (forall t, In t (transactions s) -> id t = i ->
                NoDup (List.map id (transactions s)) ->
                S (List.length (transactions s'))
                = List.length (transactions s))) /\
  (env_confirm env = false ->
   deleteTransaction env i s = Returned false s).
Proof.
  split; intros Hc; unfold deleteTransaction; rewrite Hc; cbn [negb].
  - eexists. split; [ reflexivity | ].
    unfold getTransaction.
    rewrite effects_transactions, applySearchAndSort_transactions.
    cbn [transactions setTransactions].
    split; [ | split; [ reflexivity | split ] ].
    + apply (find_after_filter_out (fun x => String.eqb (id x) i)).
    + unfold countId.
      apply (filter_both_lengths (fun x => String.eqb (id x) i)).
    + intros t Hin <- Hnd. apply filter_out_unique_id; assumption.
  - reflexivity.
Qed.

(** X22.  When the form passes validation and a transaction has the given
    id, [updateTransaction] returns a record that keeps the id and
    [createdAt] of the first one with that id, takes its other members from
    the cleaned form and has the current time in [updatedAt]; it stands in
    the same place of the list, every other place of the list holds what it
    held, and the settings, the sort key, the search pattern, its case flag
    and what the matcher was compiled from (or the error marker) are the ones
    before the call.  The scan position of the matcher is not among them:
    the call moves it. *)
Theorem updateTransaction_frame
  (env : Env) (i : string) (fd : FormData) (s : AppState) (old : Transaction) :
  isValid (validateTransaction env fd) = true ->
  getTransaction i s = Some old ->
  exists index t s',
    updateTransaction env i fd s = Returned t s' /\
    nth_error (transactions s) index = Some old /\
    nth_error (transactions s') index = Some t /\
    id t = i /\ id t = id old /\
    createdAt t = createdAt old /\
    updatedAt t = env_timestamp env /\
    description t = c_description (cleaned (validateTransaction env fd)) /\
    amount t = c_amount (cleaned (validateTransaction env fd)) /\
    category t = c_category (cleaned (validateTransaction env fd)) /\
    date t = c_date (cleaned (validateTransaction env fd)) /\
    List.length (transactions s') = List.length (transactions s) /\
    (forall j, j <> index ->
               nth_error (transactions s') j = nth_error (transactions s) j) /\
    settings s' = settings s /\
    currentSort s' = currentSort s /\
    pattern (currentSearch s') = pattern (currentSearch s) /\
    caseSensitive (currentSearch s') = caseSensitive (currentSearch s) /\
    sameMatcher (regex (currentSearch s')) (regex (currentSearch s)).
Proof.
  intros Hv Hfound. unfold getTransaction in Hfound.
  destruct (findIndex (fun t => String.eqb (id t) i) (transactions s))
    as [ index | ] eqn:Hidx.
  2:{ apply findIndex_None in Hidx. congruence. }
  destruct (findIndex_nth_error _ _ _ Hidx) as (old' & Hnth & Hid & Hfind).
  assert (old' = old) by congruence; subst old'.
  apply String.eqb_eq in Hid.
  unfold updateTransaction. rewrite Hv, Hidx, Hnth. cbn [negb].
  exists index. eexists. eexists. split; [ reflexivity | ].
  cbn [description amount category date id createdAt updatedAt].
  set (t := {| id := id old; description := _ |}).
  set (s1 := setTransactions (assign index t (transactions s)) s).
  assert (Htx : transactions (notify (saveTransactions (applySearchAndSort s1)))
                = assign index t (transactions s)).
  { rewrite effects_transactions, applySearchAndSort_transactions.
    reflexivity. }
  destruct (applySearchAndSort_frame s1) as (_ & Hset & Hsort & _ & _ & Hpat & Hcs).
  rewrite Htx.
  repeat split; try assumption; try reflexivity.
  - apply assign_same. apply nth_error_Some. congruence.
  - apply assign_length.
  - intros j Hj. apply assign_other. congruence.
  - apply (applySearchAndSort_matcher s1).
Qed.

End Changes.

(** *** Order of the view *)

Lemma sign_sub_Gt (a b : Num.number) :
  Num.is_nan a = false -> Num.is_nan b = false ->
  Num.sign (Num.sub a b) = Gt -> Num.le b a.
Proof.
  destruct a as [ | | p | ], b as [ | | q | ]; simpl;
    try discriminate; try tauto.
  intros _ _ Hs. apply Qgt_alt in Hs. lra.
Qed.

Lemma sign_sub_not_Gt (a b : Num.number) :
  Num.is_nan a = false -> Num.is_nan b = false ->
  Num.sign (Num.sub a b) <> Gt -> Num.le a b.
Proof.
  destruct a as [ | | p | ], b as [ | | q | ]; simpl;
    try discriminate; try tauto.
  intros _ _ Hs. apply Qle_alt in Hs. lra.
Qed.

Lemma sign_neg_sub_Gt (a b : Num.number) :
  Num.is_nan a = false -> Num.is_nan b = false ->
  Num.sign (Num.neg (Num.sub a b)) = Gt -> Num.le a b.
Proof.
  destruct a as [ | | p | ], b as [ | | q | ]; simpl;
    try discriminate; try tauto.
  intros _ _ Hs. apply Qgt_alt in Hs. lra.
Qed.

Lemma sign_neg_sub_not_Gt (a b : Num.number) :
  Num.is_nan a = false -> Num.is_nan b = false ->
  Num.sign (Num.neg (Num.sub a b)) <> Gt -> Num.le b a.
Proof.
  destruct a as [ | | p | ], b as [ | | q | ]; simpl;
    try discriminate; try tauto.
  intros _ _ Hs. apply Qle_alt in Hs. lra.
Qed.

Section SortOrder.

Variable compare : Transaction -> Transaction -> Num.number.
Variable R : Transaction -> Transaction -> Prop.
Variable P : Transaction -> Prop.

Hypothesis goes_past :
  forall x y, P x -> P y -> Num.sign (compare x y) = Gt -> R y x.
Hypothesis stays_before :
  forall x y, P x -> P y -> Num.sign (compare x y) <> Gt -> R x y.

Lemma insertBy_Forall (x : Transaction) (l : list Transaction) :
  P x -> Forall P l -> Forall P (insertBy compare x l).
Proof.
  intros Hx Hl. induction Hl as [ | y r Hy Hr IH ]; simpl.
  - constructor; [ assumption | constructor ].
  - destruct (Num.sign (compare x y));
      repeat (constructor; try assumption).
Qed.

Lemma insertBy_HdRel (z x : Transaction) (l : list Transaction) :
  R z x -> HdRel R z l -> HdRel R z (insertBy compare x l).
Proof.
  intros Hzx Hzl. destruct l as [ | y r ]; simpl.
  - constructor. assumption.
  - inversion Hzl; subst.
    destruct (Num.sign (compare x y)); constructor; assumption.
Qed.

Lemma insertBy_Sorted (x : Transaction) (l : list Transaction) :
  P x -> Forall P l -> Sorted R l -> Sorted R (insertBy compare x l).
Proof.
  intros Hx Hl Hs. induction Hs as [ | y r Hr IH Hhd ]; simpl.
  - repeat constructor.
  - inversion Hl as [ | ? ? Hy Hl' ]; subst.
    destruct (Num.sign (compare x y)) eqn:Hc.
    + constructor; [ constructor; assumption | ].
      constructor. apply stays_before; try assumption. congruence.
    + constructor; [ constructor; assumption | ].
      constructor. apply stays_before; try assumption. congruence.
    + constructor; [ apply IH; assumption | ].
      apply insertBy_HdRel; [ | assumption ].
      apply goes_past; assumption.
Qed.

Lemma sort_Sorted (l : list Transaction) :
  Forall P l -> Sorted R (sort compare l) /\ Forall P (sort compare l).
Proof.
  intros Hl. induction Hl as [ | x r Hx Hr IH ]; simpl.
  - split; constructor.
  - destruct IH as [IHs IHp]. split.
    + apply insertBy_Sorted; assumption.
    + apply insertBy_Forall; assumption.
Qed.

End SortOrder.

(** A comparison function that never tells two elements apart leaves the
    list as it is. *)
Lemma sort_all_equal (compare : Transaction -> Transaction -> Num.number)
  (l : list Transaction) :
  (forall x y, Num.sign (compare x y) = Eq) -> sort compare l = l.
Proof.
  intros Heq. unfold sort. induction l as [ | x r IH ]; simpl.
  - reflexivity.
  - rewrite IH.
    destruct r as [ | y r' ]; simpl; [ reflexivity | ].
    rewrite Heq. reflexivity.
Qed.

(** Sorting moves the elements and neither drops nor adds one. *)
Lemma insertBy_Permutation
  (compare : Transaction -> Transaction -> Num.number)
  (x : Transaction) (l : list Transaction) :
  Permutation (insertBy compare x l) (x :: l).
Proof.
  induction l as [ | y r IH ]; simpl.
  - apply Permutation_refl.
  - destruct (Num.sign (compare x y)); try apply Permutation_refl.
    apply Permutation_trans with (y :: x :: r).
    + apply perm_skip. assumption.
    + apply perm_swap.
Qed.

Lemma sort_Permutation
  (compare : Transaction -> Transaction -> Num.number)
  (l : list Transaction) :
  Permutation (sort compare l) l.
Proof.
  unfold sort. induction l as [ | x r IH ]; simpl.
  - apply Permutation_refl.
  - apply Permutation_trans with (x :: fold_right (insertBy compare) [] r).
    + apply insertBy_Permutation.
    + apply perm_skip. assumption.
Qed.

Section Order.

Context `{Host}.

Lemma comparator_other_field (sortBy : string) (a b : Transaction) :
  ~ In (sortField sortBy) ["date"; "amount"; "description"] ->
  comparator sortBy a b = Num.zero.
Proof.
  intros Hnot. unfold comparator. fold (sortField sortBy).
  destruct (String.eqb (sortField sortBy) "date") eqn:E1.
  { apply String.eqb_eq in E1. exfalso. apply Hnot. simpl. auto. }
  destruct (String.eqb (sortField sortBy) "amount") eqn:E2.
  { apply String.eqb_eq in E2. exfalso. apply Hnot. simpl. auto. }
  destruct (String.eqb (sortField sortBy) "description") eqn:E3.
  { apply String.eqb_eq in E3. exfalso. apply Hnot. simpl. auto. }
  reflexivity.
Qed.

(** C8.  After [applySort] the view holds the transactions it held, each
    as many times as before; under the key 'amount-asc' it is in
    non-decreasing order of amount, the amounts being numbers (none is
    [NaN]); under the key 'date-desc' it is in non-increasing order of date,
    the dates being valid ones (each has a time value); and under a key whose
    field is none of date, amount and description the view is the list as it
    was. *)
Theorem applySort_order (s : AppState) :
  Permutation (filteredTransactions (applySort s)) (filteredTransactions s) /\
  (currentSort s = "amount-asc" ->
   Forall (fun t => Num.is_nan (amount t) = false) (filteredTransactions s) ->
   Sorted (fun a b => Num.le (amount a) (amount b))
          (filteredTransactions (applySort s))) /\
  (currentSort s = "date-desc" ->
   Forall (fun t => Num.is_nan (dateTimeValue (date t)) = false)
          (filteredTransactions s) ->
   Sorted (fun a b => Num.le (dateTimeValue (date b)) (dateTimeValue (date a)))
          (filteredTransactions (applySort s))) /\
  (~ In (sortField (currentSort s)) ["date"; "amount"; "description"] ->
   filteredTransactions (applySort s) = filteredTransactions s).
Proof.
  unfold applySort; cbn [filteredTransactions setFiltered].
  split; [ apply sort_Permutation | ].
  split; [ | split ].
  - intros Hkey Hnum. rewrite Hkey.
    apply (sort_Sorted (comparator "amount-asc") _
             (fun t => Num.is_nan (amount t) = false)); [ | | assumption ].
    + intros x y Hx Hy Hs. apply sign_sub_Gt; assumption.
    + intros x y Hx Hy Hs. apply sign_sub_not_Gt; assumption.
  - intros Hkey Hnum. rewrite Hkey.
    apply (sort_Sorted (comparator "date-desc") _
             (fun t => Num.is_nan (dateTimeValue (date t)) = false));
      [ | | assumption ].
    + intros x y Hx Hy Hs. apply sign_neg_sub_Gt; assumption.
    + intros x y Hx Hy Hs. apply sign_neg_sub_not_Gt; assumption.
  - intros Hfield. apply sort_all_equal.
    intros x y. rewrite comparator_other_field by assumption. reflexivity.
Qed.

End Order.

(** *** The cleaned values of a form *)

Lemma collapseSpaces_truthy (s : string) :
  descriptionPattern s = true -> Str.truthy (collapseSpaces s) = true.
Proof.
  destruct s as [ | c r ]; simpl; [ discriminate | ].
  intros Hp. apply andb_true_iff in Hp. destruct Hp as [Hc _].
  apply negb_true_iff in Hc. unfold collapseSpaces; simpl.
  rewrite Hc. reflexivity.
Qed.

Lemma capitalize_truthy (s : string) :
  categoryPattern s = true -> Str.truthy (capitalize s) = true.
Proof.
  destruct s as [ | c r ]; simpl; [ discriminate | reflexivity ].
Qed.

Section Cleaned.

Context `{Host}.

Lemma failed_fields (env : Env) (fd : FormData) :
  failed "description" (validateTransaction env fd)
  = negb (d_valid (validateDescription (f_description fd))) /\
  failed "amount" (validateTransaction env fd)
  = negb (a_valid (validateAmount (f_amount fd))) /\
  failed "date" (validateTransaction env fd)
  = negb (t_valid (validateDate env (f_date fd))) /\
  failed "category" (validateTransaction env fd)
  = negb (g_valid (validateCategory (f_category fd))).
Proof.
  unfold failed, validateTransaction; cbn [errors].
  destruct (d_valid _), (a_valid _), (t_valid _), (g_valid _);
    repeat split; reflexivity.
Qed.

(** C9, as the code has it.  In the result of [validateTransaction], the
    cleaned description is the description with its runs of white space
    collapsed when the description validated, and the raw input when it
    failed; the cleaned category is the capitalised category when the
    category validated, and the raw input when it failed; the cleaned amount
    is in every case the number [parseFloat] reads in the raw amount, which
    is the value of the amount when the amount validated; the cleaned date
    is in every case the raw date. *)
Theorem validateTransaction_cleaned (env : Env) (fd : FormData) :
  (failed "description" (validateTransaction env fd) = false ->
   c_description (cleaned (validateTransaction env fd))
   = collapseSpaces (f_description fd)) /\
  (failed "description" (validateTransaction env fd) = true ->
   c_description (cleaned (validateTransaction env fd)) = f_description fd) /\
  (failed "category" (validateTransaction env fd) = false ->
   c_category (cleaned (validateTransaction env fd))
   = capitalize (f_category fd)) /\
  (failed "category" (validateTransaction env fd) = true ->
   c_category (cleaned (validateTransaction env fd)) = f_category fd) /\
  (failed "amount" (validateTransaction env fd) = false ->
   a_value (validateAmount (f_amount fd))
   = Some (c_amount (cleaned (validateTransaction env fd)))) /\
  c_amount (cleaned (validateTransaction env fd)) = parseFloat (f_amount fd) /\
  c_date (cleaned (validateTransaction env fd)) = f_date fd.
Proof.
  destruct (failed_fields env fd) as (Hd & Ha & _ & Hg).
  rewrite Hd, Ha, Hg.
  unfold validateTransaction;
    cbn [cleaned c_description c_amount c_date c_category].
  unfold validateDescription, validateCategory, validateAmount.
  repeat split.
  - destruct (descriptionPattern (f_description fd)) eqn:Hp; simpl;
      [ | discriminate ].
    destruct (hasDoubleSpaces (f_description fd)); simpl; [ discriminate | ].
    intros _. rewrite collapseSpaces_truthy by assumption. reflexivity.
  - destruct (descriptionPattern (f_description fd)) eqn:Hp; simpl;
      [ | reflexivity ].
    destruct (hasDoubleSpaces (f_description fd)); simpl;
      [ reflexivity | discriminate ].
  - destruct (categoryPattern (f_category fd)) eqn:Hp; simpl;
      [ | discriminate ].
    destruct (String.length (f_category fd) <? 2); simpl; [ discriminate | ].
    intros _. rewrite capitalize_truthy by assumption. reflexivity.
  - destruct (categoryPattern (f_category fd)) eqn:Hp; simpl;
      [ | reflexivity ].
    destruct (String.length (f_category fd) <? 2); simpl;
      [ reflexivity | discriminate ].
  - destruct (amountPattern (f_amount fd)); cbn [negb a_valid a_value Num.or_else];
      [ | discriminate ].
    destruct (Num.gtb (parseFloat (f_amount fd)) million);
      cbn [negb a_valid a_value Num.or_else]; [ discriminate | ].
    intros _.
    destruct (Num.truthy (parseFloat (f_amount fd))); reflexivity.
  - destruct (amountPattern (f_amount fd)); cbn [negb a_value Num.or_else];
      [ | reflexivity ].
    destruct (Num.gtb (parseFloat (f_amount fd)) million);
      cbn [a_value Num.or_else]; [ reflexivity | ].
    destruct (Num.truthy (parseFloat (f_amount fd))); reflexivity.
Qed.

End Cleaned.

(** *** Statistics of an empty store *)

Lemma budget_of_nothing_spent (b : Num.number) :
  Num.truthy b = true -> Num.ltb b Num.zero = false ->
  Num.eq (Num.min (Num.mul (Num.div Num.zero b) (Num.Fin 100)) (Num.Fin 100))
         Num.zero /\
  Num.gtb Num.zero b = false /\
  Num.eq (Num.max (Num.sub b Num.zero) Num.zero) b.
Proof.
  destruct b as [ | | q | ]; simpl; try discriminate.
  - intros Ht Hl.
    assert (Hq : (0 < q)%Q).
    { unfold Num.zero in Hl. simpl in Hl.
      destruct (Qcompare_spec q 0) as [ He | Hlt | Hgt ];
        try discriminate; try assumption.
      apply negb_true_iff in Ht.
      rewrite <- Qeq_bool_iff in He. congruence. }
    unfold Num.gtb, Num.zero; simpl.
    apply Qgt_alt in Hq. rewrite Hq. simpl.
    apply Qgt_alt in Hq.
    repeat split.
    destruct (Qcompare_spec (q + - 0) 0) as [ He | Hlt | Hgt ]; simpl; lra.
  - intros _ _. repeat split.
Qed.

Lemma budget_of_nothing_spent_negative (b : Num.number) :
  Num.ltb b Num.zero = true ->
  Num.eq (Num.min (Num.mul (Num.div Num.zero b) (Num.Fin 100)) (Num.Fin 100))
         Num.zero /\
  Num.gtb Num.zero b = true /\
  Num.eq (Num.max (Num.sub b Num.zero) Num.zero) Num.zero.
Proof.
  destruct b as [ | | q | ]; simpl; try discriminate.
  - intros _. repeat split.
  - intros Hl. unfold Num.gtb, Num.zero; simpl.
    destruct (q ?= 0)%Q eqn:Hc; try discriminate Hl.
    apply Qlt_alt in Hc. simpl.
    repeat split.
    destruct (Qcompare_spec (q + - 0) 0) as [ He | Hlt | Hgt ]; simpl; lra.
Qed.

(** C10.  For a store with no transaction, [getStats] returns a count of
    0, a total of 0, the top category '-', a trend of seven days of amount
    0, and a budget with 0 used and 0 percent, the budget being the
    configured one, or 500 when none is configured.  When that budget is not
    negative, nothing is overspent and the whole budget remains; when it is
    negative, the budget is reported as exceeded and nothing remains. *)
Theorem getStats_empty (env : Env) (s : AppState) :
  transactions s = [] ->
  st_total (getStats env s) = 0 /\
  st_totalAmount (getStats env s) = Num.zero /\
  st_topCategory (getStats env s) = "-" /\
  List.length (st_last7Days (getStats env s)) = 7 /\
  Forall (fun d => td_amount d = Num.zero) (st_last7Days (getStats env s)) /\
  used (st_budget (getStats env s)) = Num.zero /\
  Num.eq (percentage (st_budget (getStats env s))) Num.zero /\
  total (st_budget (getStats env s))
  = Num.or_else (monthlyBudget (settings s)) (Num.Fin 500) /\
  (budgetNotNegative (settings s) ->
   isOverBudget (st_budget (getStats env s)) = false /\
   Num.eq (remaining (st_budget (getStats env s)))
          (total (st_budget (getStats env s)))) /\
  (Num.ltb (total (st_budget (getStats env s))) Num.zero = true ->
   isOverBudget (st_budget (getStats env s)) = true /\
   Num.eq (remaining (st_budget (getStats env s))) Num.zero).
Proof.
  intros Hempty.
  unfold getStats, getLast7DaysTrend, trendDay. rewrite Hempty.
  cbn [st_total st_totalAmount st_topCategory st_last7Days st_budget
       used total percentage isOverBudget remaining List.length List.map
       filter sumAmounts fold_left countCategories].
  assert (Ht : Num.truthy (Num.or_else (monthlyBudget (settings s)) (Num.Fin 500))
               = true).
  { unfold Num.or_else.
    destruct (monthlyBudget (settings s)) as [ b | ]; [ | reflexivity ].
    destruct (Num.truthy b) eqn:Hb; [ assumption | reflexivity ]. }
  assert (Hsign : budgetNotNegative (settings s) ->
                  Num.ltb (Num.or_else (monthlyBudget (settings s)) (Num.Fin 500))
                          Num.zero = false).
  { unfold budgetNotNegative, Num.or_else.
    destruct (monthlyBudget (settings s)) as [ b | ]; [ | reflexivity ].
    destruct (Num.truthy b); [ tauto | reflexivity ]. }
  split; [ reflexivity | ].
  split; [ reflexivity | ].
  split; [ reflexivity | ].
  split; [ reflexivity | ].
  split; [ repeat constructor | ].
  split; [ reflexivity | ].
  split.
  { destruct (Num.ltb (Num.or_else (monthlyBudget (settings s)) (Num.Fin 500))
                      Num.zero) eqn:Hl.
    - apply (budget_of_nothing_spent_negative _ Hl).
    - apply (budget_of_nothing_spent _ Ht Hl). }
  split; [ reflexivity | ].
  split.
  - intros Hbudget.
    destruct (budget_of_nothing_spent _ Ht (Hsign Hbudget)) as (_ & Hover & Hrem).
    split; assumption.
  - intros Hl.
    destruct (budget_of_nothing_spent_negative _ Hl) as (_ & Hover & Hrem).
    split; assumption.
Qed.

(* ------------------------------------------------------------------ *)
(** ** Further properties of the store *)

(** *** Listeners *)

(** X1.  The function that [subscribe] returns takes the listener out of
    the list for good, however many times it was subscribed, and leaves the
    other listeners where they were; for a listener that was not in the list
    before, subscribing and then unsubscribing gives back the store as it
    was. *)
Theorem unsubscribe_removes_listener (l : Listener) (s : AppState) :
  ~ In l (listeners (unsubscribe l s)) /\
  (forall l', l' <> l ->
     filter (Nat.eqb l') (listeners (unsubscribe l s))
     = filter (Nat.eqb l') (listeners s)) /\
  listeners (unsubscribe l (subscribe l (subscribe l s)))
  = listeners (unsubscribe l s) /\
  (~ In l (listeners s) -> unsubscribe l (subscribe l s) = s).
Proof.
  unfold unsubscribe, subscribe; cbn [listeners setListeners].
  split; [ | split; [ | split ] ].
  - intros Hin. apply filter_In in Hin. destruct Hin as [_ Hneq].
    rewrite Nat.eqb_refl in Hneq. discriminate.
  - intros l' Hneq. induction (listeners s) as [ | a r IH ]; simpl.
    + reflexivity.
    + destruct (Nat.eqb a l) eqn:Hal; simpl.
      * apply Nat.eqb_eq in Hal. subst a.
        destruct (Nat.eqb l' l) eqn:Hl; [ | assumption ].
        apply Nat.eqb_eq in Hl. contradiction.
      * rewrite IH. reflexivity.
  - rewrite !filter_app. simpl. rewrite Nat.eqb_refl. simpl.
    rewrite !app_nil_r. reflexivity.
  - intros Hnot. rewrite filter_app. simpl. rewrite Nat.eqb_refl. simpl.
    rewrite app_nil_r.
    match goal with
    | |- setListeners ?kept _ = _ => assert (Hkeep : kept = listeners s)
    end.
    { induction (listeners s) as [ | a r IH ]; simpl.
      - reflexivity.
      - destruct (Nat.eqb a l) eqn:Hal; simpl.
        + apply Nat.eqb_eq in Hal. subst a. exfalso. apply Hnot. left.
          reflexivity.
        + rewrite IH; [ reflexivity | ].
          intros Hin. apply Hnot. right. assumption. }
    rewrite Hkeep. destruct s; reflexivity.
Qed.

(** *** What a change of the canonical list does *)

Section Commit.

Context `{Host}.

(** The end every change shares: recompute the view, save, notify. *)
Lemma commit_effects (s1 : AppState) :
  trace (notify (saveTransactions (applySearchAndSort s1)))
  = (trace s1 ++ SavedTransactions (transactions s1)
                 :: List.map Notified (listeners s1))%list /\
  listeners (notify (saveTransactions (applySearchAndSort s1))) = listeners s1 /\
  transactions (notify (saveTransactions (applySearchAndSort s1)))
  = transactions s1.
Proof.
  unfold notify, saveTransactions, emit;
    cbn [trace listeners transactions].
  rewrite applySearchAndSort_trace, applySearchAndSort_listeners,
    applySearchAndSort_transactions.
  rewrite <- app_assoc. simpl. auto.
Qed.

(** X2.  Every change of the canonical list that goes through
    ([addTransaction], [updateTransaction], a confirmed
    [deleteTransaction], [importTransactions]) saves the list it leaves,
    once, and then calls every listener once, in the order of
    subscription; it does nothing else to the outside, and leaves the
    listeners as they were. *)
Theorem change_saves_then_notifies (env : Env) (s s' : AppState) :
  (forall fd t, addTransaction env fd s = Returned t s' ->
     trace s' = (trace s ++ SavedTransactions (transactions s')
                   :: List.map Notified (listeners s))%list /\
     listeners s' = listeners s) /\
  (forall i fd t, updateTransaction env i fd s = Returned t s' ->
     trace s' = (trace s ++ SavedTransactions (transactions s')
                   :: List.map Notified (listeners s))%list /\
     listeners s' = listeners s) /\
  (forall i, deleteTransaction env i s = Returned true s' ->
     trace s' = (trace s ++ SavedTransactions (transactions s')
                   :: List.map Notified (listeners s))%list /\
     listeners s' = listeners s) /\
  (forall ts, importTransactions ts s = Returned tt s' ->
     trace s' = (trace s ++ SavedTransactions (transactions s')
                   :: List.map Notified (listeners s))%list /\
     listeners s' = listeners s).
Proof.
  split; [ | split; [ | split ] ].
  - intros fd t. unfold addTransaction.
    destruct (isValid (validateTransaction env fd)); cbn [negb];
      [ | discriminate ].
    intros Hret. injection Hret as _ <-.
    match goal with
    | |- context [applySearchAndSort ?x] =>
        destruct (commit_effects x) as (Ht & Hl & Hx)
    end.
    rewrite Ht, Hl, Hx. auto.
  - intros i fd t. unfold updateTransaction.
    destruct (isValid (validateTransaction env fd)); cbn [negb];
      [ | discriminate ].
    destruct (findIndex _ _) as [ index | ]; [ | discriminate ].
    destruct (nth_error _ _) as [ old | ]; [ | discriminate ].
    intros Hret. injection Hret as _ <-.
    match goal with
    | |- context [applySearchAndSort ?x] =>
        destruct (commit_effects x) as (Ht & Hl & Hx)
    end.
    rewrite Ht, Hl, Hx. auto.
  - intros i. unfold deleteTransaction.
    destruct (env_confirm env); cbn [negb]; [ | discriminate ].
    intros Hret. injection Hret as <-.
    match goal with
    | |- context [applySearchAndSort ?x] =>
        destruct (commit_effects x) as (Ht & Hl & Hx)
    end.
    rewrite Ht, Hl, Hx. auto.
  - intros ts. unfold importTransactions.
    intros Hret. injection Hret as <-.
    match goal with
    | |- context [applySearchAndSort ?x] =>
        destruct (commit_effects x) as (Ht & Hl & Hx)
    end.
    rewrite Ht, Hl, Hx. auto.
Qed.

End Commit.

(** *** Ids *)

Lemma assign_keeps_ids (index : nat) (t old : Transaction)
  (l : list Transaction) :
  nth_error l index = Some old -> id t = id old ->
  List.map id (assign index t l) = List.map id l.
Proof.
  revert index. induction l as [ | a l IH ]; intros [ | index ] Hnth Hid;
    simpl in *; try discriminate.
  - injection Hnth as ->. rewrite Hid. reflexivity.
  - rewrite (IH index) by assumption. reflexivity.
Qed.

Lemma filter_keeps_NoDup_ids (p : Transaction -> bool) (l : list Transaction) :
  NoDup (List.map id l) -> NoDup (List.map id (filter p l)).
Proof.
  induction l as [ | a l IH ]; simpl; intros Hnd.
  - constructor.
  - inversion Hnd as [ | ? ? Hnotin Hnd' ]; subst.
    destruct (p a); simpl; [ | apply IH; assumption ].
    constructor; [ | apply IH; assumption ].
    intros Hin. apply Hnotin.
    apply in_map_iff in Hin. destruct Hin as (x & Hx & Hxin).
    apply filter_In in Hxin. destruct Hxin as [Hxin _].
    rewrite <- Hx. apply in_map. assumption.
Qed.

Section Ids.

Context `{Host}.

(** X3.  The ids of the canonical list stay unique: when no two
    transactions share an id, none do after [updateTransaction] (which
    keeps every id where it is), after [deleteTransaction], and after
    [addTransaction] with an id that [generateId] did not give before. *)
Theorem ids_stay_unique (env : Env) (s s' : AppState) :
  NoDup (List.map id (transactions s)) ->
  (forall fd t,
     ~ In (generateId env) (List.map id (transactions s)) ->
     addTransaction env fd s = Returned t s' ->
     NoDup (List.map id (transactions s'))) /\
  (forall i fd t,
     updateTransaction env i fd s = Returned t s' ->
     List.map id (transactions s') = List.map id (transactions s) /\
     NoDup (List.map id (transactions s'))) /\
  (forall i b,
     deleteTransaction env i s = Returned b s' ->
     NoDup (List.map id (transactions s'))).
Proof.
  intros Hnd. split; [ | split ].
  - intros fd t Hfresh. unfold addTransaction.
    destruct (isValid (validateTransaction env fd)); cbn [negb];
      [ | discriminate ].
    intros Hret. injection Hret as _ <-.
    rewrite effects_transactions, applySearchAndSort_transactions.
    cbn [transactions setTransactions List.map id].
    constructor; assumption.
  - intros i fd t. unfold updateTransaction.
    destruct (isValid (validateTransaction env fd)); cbn [negb];
      [ | discriminate ].
    destruct (findIndex _ _) as [ index | ]; [ | discriminate ].
    destruct (nth_error _ _) as [ old | ] eqn:Hnth; [ | discriminate ].
    intros Hret. injection Hret as _ <-.
    rewrite effects_transactions, applySearchAndSort_transactions.
    cbn [transactions setTransactions].
    rewrite (assign_keeps_ids index _ old) by (assumption || reflexivity).
    auto.
  - intros i b. unfold deleteTransaction.
    destruct (env_confirm env); cbn [negb].
    + intros Hret. injection Hret as _ <-.
      rewrite effects_transactions, applySearchAndSort_transactions.
      cbn [transactions setTransactions].
      apply filter_keeps_NoDup_ids. assumption.
    + intros Hret. injection Hret as _ <-. assumption.
Qed.

(** X4.  Adding a transaction and then deleting it by the id that was
    returned gives back the canonical list as it was, when that id was not
    in the list before. *)
Theorem add_then_delete_restores_list
  (env env' : Env) (fd : FormData) (s : AppState) :
  isValid (validateTransaction env fd) = true ->
  ~ In (generateId env) (List.map id (transactions s)) ->
  env_confirm env' = true ->
  exists t s1 s2,
    addTransaction env fd s = Returned t s1 /\
    deleteTransaction env' (id t) s1 = Returned true s2 /\
    transactions s2 = transactions s /\
    getTransaction (id t) s2 = None.
Proof.
  intros Hv Hfresh Hc.
  unfold addTransaction. rewrite Hv. cbn [negb].
  eexists. eexists. eexists. split; [ reflexivity | ].
  unfold deleteTransaction. rewrite Hc. cbn [negb id].
  split; [ reflexivity | ].
  unfold getTransaction.
  rewrite !effects_transactions, !applySearchAndSort_transactions.
  cbn [transactions setTransactions].
  rewrite ?effects_transactions, ?applySearchAndSort_transactions.
  cbn [transactions setTransactions filter id].
  rewrite String.eqb_refl. cbn [negb].
  assert (Hkeep : filter (fun t => negb (String.eqb (id t) (generateId env)))
                         (transactions s) = transactions s).
  { apply filter_keeps_all. intros x Hx.
    apply negb_true_iff. apply String.eqb_neq. intros Heq.
    apply Hfresh. rewrite <- Heq. apply in_map. assumption. }
  rewrite Hkeep. split; [ reflexivity | ].
  destruct (find (fun t => String.eqb (id t) (generateId env)) (transactions s))
    as [ x | ] eqn:Hfind; [ | reflexivity ].
  apply find_some in Hfind. destruct Hfind as [Hin Heq].
  apply String.eqb_eq in Heq. exfalso. apply Hfresh.
  rewrite <- Heq. apply in_map. assumption.
Qed.

(** X5.  A confirmed [deleteTransaction] on an id that no transaction has
    still returns true, saves the list and calls the listeners, and the
    canonical list is the one before the call. *)
Theorem delete_absent_id_reports_success
  (env : Env) (i : string) (s : AppState) :
  env_confirm env = true ->
  getTransaction i s = None ->
  exists s',
    deleteTransaction env i s = Returned true s' /\
    transactions s' = transactions s /\
    trace s' = (trace s ++ SavedTransactions (transactions s)
                  :: List.map Notified (listeners s))%list.
Proof.
  intros Hc Habsent. unfold deleteTransaction. rewrite Hc. cbn [negb].
  eexists. split; [ reflexivity | ].
  assert (Hkeep : filter (fun t => negb (String.eqb (id t) i)) (transactions s)
                  = transactions s).
  { apply filter_keeps_all. intros x Hx.
    apply negb_true_iff.
    unfold getTransaction in Habsent.
    apply (find_none _ _ Habsent x Hx). }
  match goal with
  | |- context [applySearchAndSort ?x] =>
      destruct (commit_effects x) as (Ht & _ & Hx)
  end.
  rewrite Ht, Hx. cbn [transactions setTransactions trace listeners].
  rewrite Hkeep. auto.
Qed.

(** X6.  [importTransactions] puts the given records, as they are, in
    front of the canonical list; afterwards [getTransaction] returns the
    first imported record with the id asked for when there is one, whatever
    the list held under that id, and what it returned before otherwise. *)
Theorem import_goes_in_front
  (ts : list Transaction) (s : AppState) :
  exists s',
    importTransactions ts s = Returned tt s' /\
    transactions s' = (ts ++ transactions s)%list /\
    (forall i,
       getTransaction i s'
       = match find (fun t => String.eqb (id t) i) ts with
         | Some t => Some t
         | None => getTransaction i s
         end).
Proof.
  unfold importTransactions. eexists. split; [ reflexivity | ].
  unfold getTransaction.
  rewrite effects_transactions, applySearchAndSort_transactions.
  cbn [transactions setTransactions].
  split; [ reflexivity | ].
  intros i. induction ts as [ | a ts IH ]; simpl.
  - reflexivity.
  - destruct (String.eqb (id a) i); [ reflexivity | assumption ].
Qed.

End Ids.

(** *** The view *)

Section View.

Context `{Host}.

Lemma filterTest_length (ts : list Transaction) (r : RegExp) :
  List.length (fst (filterTest r ts)) <= List.length ts.
Proof.
  revert r. induction ts as [ | a ts IH ]; intros r; simpl.
  - lia.
  - destruct (test r (searchable a)) as [found r1].
    specialize (IH r1).
    destruct (filterTest r1 ts) as [kept r2]; simpl in *.
    destruct found; simpl; lia.
Qed.

(** X7.  After the view is recomputed, it holds only transactions of the
    canonical list, and no more of them than the list has; under a compiled
    pattern, each of them has a searchable text that matches the pattern;
    and without a compiled pattern (no search, or an error marker) the view
    is the canonical list rearranged. *)
Theorem view_is_drawn_from_the_list (s : AppState) :
  (forall t, In t (filteredTransactions (applySearchAndSort s)) ->
     In t (transactions s) /\
     (forall r, regex (currentSearch s) = Compiled r ->
                matches r (searchable t) = true)) /\
  List.length (filteredTransactions (applySearchAndSort s))
  <= List.length (transactions s) /\
  ((forall r, regex (currentSearch s) <> Compiled r) ->
   Permutation (filteredTransactions (applySearchAndSort s)) (transactions s)).
Proof.
  rewrite applySearchAndSort_view.
  pose proof (sort_Permutation (comparator (currentSort s))
                (filteredTransactions (applySearch s))) as Hperm.
  split; [ | split ].
  - intros t Hin.
    apply (Permutation_in _ Hperm) in Hin.
    unfold applySearch in Hin.
    destruct (regex (currentSearch s)) as [ | r | e ] eqn:Hr;
      cbn [filteredTransactions setFiltered] in Hin.
    + split; [ assumption | discriminate ].
    + pose proof (filterTest_sound (transactions s) r t) as Hsound.
      destruct (filterTest r (transactions s)) as [kept r'];
        cbn [filteredTransactions setFiltered fst] in *.
      destruct (Hsound Hin) as [Hlist Hm].
      split; [ assumption | ].
      intros r0 Hr0. injection Hr0 as <-. assumption.
    + split; [ assumption | discriminate ].
  - rewrite (Permutation_length Hperm).
    unfold applySearch.
    destruct (regex (currentSearch s)) as [ | r | e ];
      cbn [filteredTransactions setFiltered]; try lia.
    pose proof (filterTest_length (transactions s) r) as Hlen.
    destruct (filterTest r (transactions s)) as [kept r'];
      cbn [filteredTransactions setFiltered fst] in *.
    assumption.
  - intros Hno. rewrite (applySearch_no_filter s Hno) in Hperm.
    rewrite (applySearch_no_filter s Hno).
    exact Hperm.
Qed.






End View.

(** *** The search box *)

Section SearchBox.

Context `{Host}.

(** X9.  [handleSearch] never leaves an error marker in the store: on a
    pattern that does not compile it shows the error and does not call the
    store, which stays as it was; on any other pattern it clears the error
    text and calls [setSearch], after which the search state holds a
    matcher or nothing. *)
Theorem handleSearch_stores_no_error_marker
  (p : string) (cs : bool) (s : AppState) :
  exists text s',
    Ui.handleSearch p cs s = (text, Returned tt s') /\
    ((exists e, regexp_syntax_error p = Some e /\
                text = "Invalid regex: " ++ e /\ s' = s)
     \/
     (text = EmptyString /\
      setSearch p cs s = Returned tt s' /\
      forall e, regex (currentSearch s') <> Malformed e)).
Proof.
  unfold Ui.handleSearch, Patterns.compileRegex, Ui.searchFlags;
    cbn [Patterns.flag_g Patterns.flag_i].
  destruct (Str.truthy p) eqn:Hp.
  - destruct (regexp_syntax_error p) as [ e | ] eqn:He.
    + exists ("Invalid regex: " ++ e), s. split; [ reflexivity | ].
      left. exists e. auto.
    + eexists. eexists. split; [ reflexivity | ]. right.
      split; [ reflexivity | ]. split; [ reflexivity | ].
      intros e Hbad.
      match goal with
      | _ : regex (currentSearch (applySearchAndSort ?x)) = _ |- _ =>
          pose proof (applySearchAndSort_matcher x) as Hsame
      end.
      rewrite Hbad in Hsame.
      cbn [currentSearch setCurrentSearch regex] in Hsame.
      unfold compile in Hsame. rewrite Hp, He in Hsame. exact Hsame.
  - eexists. eexists. split; [ reflexivity | ]. right.
    split; [ reflexivity | ]. split; [ reflexivity | ].
    intros e Hbad.
    match goal with
    | _ : regex (currentSearch (applySearchAndSort ?x)) = _ |- _ =>
        pose proof (applySearchAndSort_matcher x) as Hsame
    end.
    rewrite Hbad in Hsame.
    cbn [currentSearch setCurrentSearch regex] in Hsame.
    unfold compile in Hsame. rewrite Hp in Hsame. exact Hsame.
Qed.

End SearchBox.

(** *** The top category *)

Definition keys (o : list (string * nat)) : list string := List.map fst o.

Lemma increment_absent (k : string) (o : list (string * nat)) :
  ~ In k (keys o) -> increment k o = (o ++ [(k, 1)])%list.
Proof.
  induction o as [ | [k0 n0] r IH ]; simpl; intros Hnot.
  - reflexivity.
  - destruct (String.eqb k0 k) eqn:Heq.
    + apply String.eqb_eq in Heq. exfalso. apply Hnot. left. assumption.
    + rewrite IH; [ reflexivity | ].
      intros Hin. apply Hnot. right. assumption.
Qed.

Lemma increment_present (k : string) (o : list (string * nat)) :
  In k (keys o) -> NoDup (keys o) ->
  keys (increment k o) = keys o /\
  (forall c n, In (c, n) (increment k o) ->
     (c = k /\ exists n', In (k, n') o /\ n = n' + 1) \/
     (c <> k /\ In (c, n) o)).
Proof.
  induction o as [ | [k0 n0] r IH ]; simpl; intros Hin Hnd.
  - contradiction.
  - inversion Hnd as [ | ? ? Hnotin Hnd' ]; subst.
    destruct (String.eqb k0 k) eqn:Heq.
    + apply String.eqb_eq in Heq. subst k0. split; [ reflexivity | ].
      intros c n [ Hhead | Htail ].
      * injection Hhead as <- <-. left. split; [ reflexivity | ].
        exists n0. auto.
      * right. split; [ | right; assumption ].
        intros ->. apply Hnotin.
        change k with (fst (k, n)). apply in_map. assumption.
    + apply String.eqb_neq in Heq.
      destruct Hin as [ Hin | Hin ]; [ contradiction | ].
      destruct (IH Hin Hnd') as [Hkeys Hent]. simpl.
      split; [ f_equal; assumption | ].
      intros c n [ Hhead | Htail ].
      * injection Hhead as <- <-. right. split; [ assumption | left; reflexivity ].
      * destruct (Hent c n Htail) as [ (-> & n' & Hn' & ->) | (Hc & Hcn) ].
        -- left. split; [ reflexivity | ]. exists n'. auto.
        -- right. auto.
Qed.

Lemma countCategory_last (c : string) (ts : list Transaction) (t : Transaction) :
  countCategory c (ts ++ [t])
  = countCategory c ts + (if String.eqb (category t) c then 1 else 0).
Proof.
  unfold countCategory. rewrite filter_app, length_app. simpl.
  destruct (String.eqb (category t) c); reflexivity.
Qed.

Lemma split_at_last (A B K : list string) (x k : string) :
  (A ++ x :: B = K ++ [k])%list ->
  (B = [] /\ x = k /\ A = K) \/
  (exists B0, B = (B0 ++ [k])%list /\ K = (A ++ x :: B0)%list).
Proof.
  intros Heq. destruct B as [ | b B' ].
  - left. apply app_inj_tail in Heq. destruct Heq as [-> ->]. auto.
  - right. destruct (exists_last (l := b :: B')) as (B0 & z' & HB0);
      [ discriminate | ].
    exists B0. rewrite HB0 in *.
    assert (Hre : (A ++ x :: B0 ++ [z'] = (A ++ x :: B0) ++ [z'])%list).
    { rewrite <- app_assoc. reflexivity. }
    rewrite Hre in Heq.
    apply app_inj_tail in Heq. destruct Heq as [<- <-]. auto.
Qed.

(** What the object [categoryCount] holds after the loop over the
    transactions: one member per category, in the order the categories
    first occur, each with the number of its transactions. *)
Lemma countCategories_spec (ts : list Transaction) :
  NoDup (keys (countCategories ts)) /\
  (forall c n, In (c, n) (countCategories ts) -> n = countCategory c ts) /\
  (forall c, In c (keys (countCategories ts)) <-> 1 <= countCategory c ts) /\
  (forall A x B,
     keys (countCategories ts) = (A ++ x :: B)%list ->
     forall y, In y B ->
     exists l1 l2,
       ts = (l1 ++ l2)%list /\ 1 <= countCategory x l1 /\
       countCategory y l1 = 0).
Proof.
  unfold countCategories.
  induction ts as [ | t ts IH ] using rev_ind.
  - simpl. split; [ constructor | ].
    split; [ intros c n [] | ].
    split; [ intros c; unfold countCategory; simpl; split;
             [ intros [] | lia ] | ].
    intros A x B Heq. destruct A; discriminate.
  - rewrite fold_left_app. cbn [fold_left].
    set (o := fold_left (fun o t => increment (category t) o) ts []) in *.
    set (k := category t).
    destruct IH as (Hnd & Hcount & Hkeys & Hord).
    destruct (in_dec string_dec k (keys o)) as [ Hin | Hnot ].
    + destruct (increment_present k o Hin Hnd) as [Hsame Hent].
      rewrite Hsame.
      split; [ assumption | ].
      split; [ | split ].
      * intros c n Hcn. rewrite countCategory_last. fold k.
        destruct (Hent c n Hcn) as [ (-> & n' & Hn' & ->) | (Hc & Hcn') ].
        -- rewrite String.eqb_refl. rewrite (Hcount k n' Hn'). reflexivity.
        -- apply String.eqb_neq in Hc. rewrite String.eqb_sym in Hc.
           rewrite Hc. rewrite (Hcount c n Hcn'). lia.
      * intros c. rewrite countCategory_last. fold k.
        destruct (String.eqb k c) eqn:Hkc.
        -- apply String.eqb_eq in Hkc. subst c. split; [ lia | auto ].
        -- rewrite Nat.add_0_r. apply Hkeys.
      * intros A x B Heq y Hy.
        destruct (Hord A x B Heq y Hy) as (l1 & l2 & -> & H1 & H0).
        exists l1, (l2 ++ [t])%list. rewrite app_assoc. auto.
    + rewrite (increment_absent k o Hnot).
      assert (Hzero : countCategory k ts = 0).
      { destruct (countCategory k ts) eqn:Hc; [ reflexivity | ].
        exfalso. apply Hnot. apply Hkeys. lia. }
      unfold keys in *. rewrite map_app. cbn [List.map fst].
      split; [ | split; [ | split ] ].
      * apply NoDup_app_remove_l with (l := []). simpl.
        apply Permutation_NoDup with (l := k :: List.map fst o).
        -- apply Permutation_cons_append.
        -- constructor; assumption.
      * intros c n Hcn. rewrite countCategory_last. fold k.
        apply in_app_or in Hcn. destruct Hcn as [ Hcn | [ Hcn | [] ] ].
        -- assert (Hc : c <> k).
           { intros ->. apply Hnot. change k with (fst (k, n)).
             apply in_map. assumption. }
           apply String.eqb_neq in Hc. rewrite String.eqb_sym in Hc.
           rewrite Hc. rewrite (Hcount c n Hcn). lia.
        -- injection Hcn as <- <-. rewrite String.eqb_refl. lia.
      * intros c. rewrite countCategory_last. fold k.
        rewrite in_app_iff. simpl.
        destruct (String.eqb k c) eqn:Hkc.
        -- apply String.eqb_eq in Hkc. subst c. split; [ lia | auto ].
        -- rewrite Nat.add_0_r. apply String.eqb_neq in Hkc.
           rewrite Hkeys. split; [ intros [ Hc | [ Hc | [] ] ]; tauto | auto ].
      * intros A x B Heq y Hy.
        destruct (split_at_last A B (List.map fst o) x k (eq_sym Heq))
          as [ (-> & _ & _) | (B0 & -> & HK) ]; [ destruct Hy | ].
        apply in_app_or in Hy. destruct Hy as [ Hy | [ <- | [] ] ].
        -- destruct (Hord A x B0 HK y Hy) as (l1 & l2 & -> & H1 & H0).
           exists l1, (l2 ++ [t])%list. rewrite app_assoc. auto.
        -- exists ts, [t]. split; [ reflexivity | ].
           split; [ | assumption ].
           apply Hkeys. rewrite HK. apply in_or_app. right. left. reflexivity.
Qed.

Definition pick (best e : string * nat) : string * nat :=
  if snd best <? snd e then e else best.

(** The loop of [getStats] keeps the first member with the highest count. *)
Lemma pick_first_highest (es : list (string * nat)) (init : string * nat) :
  snd init <= snd (fold_left pick es init) /\
  (forall e, In e es -> snd e <= snd (fold_left pick es init)) /\
  ((fold_left pick es init = init /\
    forall e, In e es -> snd e <= snd init) \/
   (exists A B,
      es = (A ++ fold_left pick es init :: B)%list /\
      snd init < snd (fold_left pick es init) /\
      forall e, In e A -> snd e < snd (fold_left pick es init))).
Proof.
  revert init. induction es as [ | e r IH ]; intros init; cbn [fold_left].
  - split; [ lia | ]. split; [ intros e [] | ].
    left. split; [ reflexivity | intros e [] ].
  - destruct (snd init <? snd e) eqn:Hlt.
    + assert (Hp : pick init e = e) by (unfold pick; rewrite Hlt; reflexivity).
      rewrite Hp.
      apply Nat.ltb_lt in Hlt.
      destruct (IH e) as (Hge & Hall & Hcase).
      split; [ lia | ].
      split; [ intros x [ <- | Hx ]; [ assumption | apply Hall; assumption ] | ].
      right. destruct Hcase as [ (Hbest & Hle) | (A & B & Hr & Hgt & HA) ].
      * exists [], r. rewrite Hbest. simpl.
        split; [ reflexivity | ]. split; [ assumption | intros x [] ].
      * exists (e :: A), B. split; [ simpl; f_equal; assumption | ].
        split; [ lia | ].
        intros x [ <- | Hx ]; [ assumption | apply HA; assumption ].
    + assert (Hp : pick init e = init)
        by (unfold pick; rewrite Hlt; reflexivity).
      rewrite Hp.
      apply Nat.ltb_ge in Hlt.
      destruct (IH init) as (Hge & Hall & Hcase).
      split; [ assumption | ].
      split; [ intros x [ <- | Hx ]; [ lia | apply Hall; assumption ] | ].
      destruct Hcase as [ (Hbest & Hle) | (A & B & Hr & Hgt & HA) ].
      * left. split; [ assumption | ].
        intros x [ <- | Hx ]; [ assumption | apply Hle; assumption ].
      * right. exists (e :: A), B. split; [ simpl; f_equal; assumption | ].
        split; [ assumption | ].
        intros x [ <- | Hx ]; [ lia | apply HA; assumption ].
Qed.

Lemma insertKey_Permutation (e : string * nat) (l : list (string * nat)) :
  Permutation (insertKey e l) (e :: l).
Proof.
  induction l as [ | y r IH ]; simpl.
  - apply Permutation_refl.
  - destruct (keyValue (fst y) <? keyValue (fst e))%N.
    + apply Permutation_trans with (y :: e :: r).
      * apply perm_skip. assumption.
      * apply perm_swap.
    + apply Permutation_refl.
Qed.

Lemma entries_Permutation (o : list (string * nat)) :
  Permutation (entries o) o.
Proof.
  unfold entries.
  apply Permutation_trans
    with (filter (fun e => isArrayIndex (fst e)) o
          ++ filter (fun e => negb (isArrayIndex (fst e))) o)%list.
  - apply Permutation_app_tail.
    induction (filter (fun e => isArrayIndex (fst e)) o) as [ | x r IH ];
      simpl.
    + apply Permutation_refl.
    + apply Permutation_trans
        with (x :: fold_right insertKey [] r).
      * apply insertKey_Permutation.
      * apply perm_skip. assumption.
  - induction o as [ | x r IH ]; simpl.
    + apply Permutation_refl.
    + destruct (isArrayIndex (fst x)); simpl.
      * apply perm_skip. assumption.
      * apply Permutation_sym. apply Permutation_cons_app.
        apply Permutation_sym. assumption.
Qed.

Lemma entries_without_index (o : list (string * nat)) :
  (forall e, In e o -> isArrayIndex (fst e) = false) -> entries o = o.
Proof.
  intros Hno. unfold entries.
  assert (Hnone : filter (fun e => isArrayIndex (fst e)) o = []).
  { induction o as [ | x r IH ]; simpl; [ reflexivity | ].
    rewrite (Hno x (or_introl eq_refl)). apply IH.
    intros e He. apply Hno. right. assumption. }
  assert (Hall : filter (fun e => negb (isArrayIndex (fst e))) o = o).
  { induction o as [ | x r IH ]; simpl; [ reflexivity | ].
    rewrite (Hno x (or_introl eq_refl)). simpl. f_equal. apply IH.
    - intros e He. apply Hno. right. assumption.
    - simpl in Hnone. rewrite (Hno x (or_introl eq_refl)) in Hnone.
      assumption. }
  rewrite Hnone, Hall. reflexivity.
Qed.

Lemma countCategory_positive (c : string) (ts : list Transaction) :
  1 <= countCategory c ts <-> exists t, In t ts /\ category t = c.
Proof.
  unfold countCategory. split.
  - destruct (filter (fun t => String.eqb (category t) c) ts) as [ | t r ]
      eqn:Hf; simpl; [ lia | ].
    intros _. exists t.
    assert (Hin : In t (filter (fun t => String.eqb (category t) c) ts))
      by (rewrite Hf; left; reflexivity).
    apply filter_In in Hin. destruct Hin as [Hin Heq].
    apply String.eqb_eq in Heq. auto.
  - intros (t & Hin & Hc).
    assert (Hf : In t (filter (fun t => String.eqb (category t) c) ts)).
    { apply filter_In. split; [ assumption | ].
      apply String.eqb_eq. assumption. }
    destruct (filter (fun t => String.eqb (category t) c) ts);
      [ destruct Hf | simpl; lia ].
Qed.

(** X10.  For a store that holds transactions, none under a category that
    names an inherited member of objects, the top category of [getStats]
    is the category of one of them, and no category has more transactions.
    When no category is written like an array index, it is, among the
    categories with as many transactions, the one that occurs first in the
    canonical list. *)
Theorem topCategory_is_most_frequent (env : Env) (s : AppState) :
  transactions s <> [] ->
  Forall (fun t => ~ In (category t) inheritedMembers) (transactions s) ->
  (exists t, In t (transactions s) /\
             category t = st_topCategory (getStats env s)) /\
  (forall c,
     countCategory c (transactions s)
     <= countCategory (st_topCategory (getStats env s)) (transactions s)) /\
  (Forall (fun t => isArrayIndex (category t) = false) (transactions s) ->
   forall c,
     c <> st_topCategory (getStats env s) ->
     countCategory c (transactions s)
     = countCategory (st_topCategory (getStats env s)) (transactions s) ->
     exists l1 l2,
       transactions s = (l1 ++ l2)%list /\
       1 <= countCategory (st_topCategory (getStats env s)) l1 /\
       countCategory c l1 = 0).
Proof.
  intros Hne _.
  unfold getStats; cbn [st_topCategory].
  set (ts := transactions s) in *.
  destruct (countCategories_spec ts) as (Hnd & Hcount & Hkeys & Hord).
  set (o := countCategories ts) in *.
  pose proof (entries_Permutation o) as Hperm.
  unfold topCategoryOf.
  change (fun (best e : string * nat) => if snd best <? snd e then e else best)
    with pick.
  destruct (pick_first_highest (entries o) ("-", 0)) as (_ & Hall & Hcase).
  (* some member has a count of at least one *)
  assert (Hsome : exists c n, In (c, n) o /\ 1 <= n).
  { destruct ts as [ | t0 r ]; [ contradiction | ].
    assert (Hk : In (category t0) (keys o)).
    { apply Hkeys. apply countCategory_positive. exists t0.
      split; [ left; reflexivity | reflexivity ]. }
    unfold keys in Hk. apply in_map_iff in Hk.
    destruct Hk as ([c n] & Hfst & Hin). simpl in Hfst. subst c.
    exists (category t0), n. split; [ assumption | ].
    rewrite (Hcount _ _ Hin). apply countCategory_positive.
    exists t0. split; [ left; reflexivity | reflexivity ]. }
  destruct Hcase as [ (Hinit & Hle) | (A & B & Hes & Hgt & HA) ].
  { exfalso. destruct Hsome as (c & n & Hin & Hn).
    apply (Permutation_in _ (Permutation_sym Hperm)) in Hin.
    specialize (Hle _ Hin). simpl in Hle. lia. }
  destruct (fold_left pick (entries o) ("-", 0)) as [top m] eqn:Hbest.
  cbn [fst snd] in *.
  assert (Hin_es : In (top, m) (entries o)).
  { rewrite Hes. apply in_or_app. right. left. reflexivity. }
  assert (Hin_o : In (top, m) o) by (apply (Permutation_in _ Hperm); assumption).
  assert (Hm : m = countCategory top ts) by (apply Hcount; assumption).
  split; [ | split ].
  - apply countCategory_positive. rewrite <- Hm. lia.
  - intros c. destruct (countCategory c ts) as [ | k ] eqn:Hc; [ lia | ].
    assert (Hk : In c (keys o)) by (apply Hkeys; lia).
    unfold keys in Hk. apply in_map_iff in Hk.
    destruct Hk as ([c' n] & Hfst & Hin). simpl in Hfst. subst c'.
    pose proof (Hcount _ _ Hin) as Hn.
    apply (Permutation_in _ (Permutation_sym Hperm)) in Hin.
    specialize (Hall _ Hin). simpl in Hall. lia.
  - intros Hplain c Hc Htie.
    assert (Hsame : entries o = o).
    { apply entries_without_index. intros [c' n] Hin. simpl.
      assert (Hk : In c' (keys o)).
      { unfold keys. change c' with (fst (c', n)). apply in_map. assumption. }
      apply Hkeys in Hk. apply countCategory_positive in Hk.
      destruct Hk as (t & Ht & <-).
      rewrite Forall_forall in Hplain. apply Hplain. assumption. }
    rewrite Hsame in Hes.
    assert (Hk : In c (keys o)) by (apply Hkeys; rewrite Htie, <- Hm; lia).
    unfold keys in Hk. apply in_map_iff in Hk.
    destruct Hk as ([c' n] & Hfst & Hin). simpl in Hfst. subst c'.
    pose proof (Hcount _ _ Hin) as Hn.
    rewrite Hes in Hin. apply in_app_or in Hin.
    destruct Hin as [ Hin | [ Hin | Hin ] ].
    + specialize (HA _ Hin). simpl in HA. lia.
    + injection Hin as -> _. contradiction.
    + apply (Hord (List.map fst A) top (List.map fst B)).
      * unfold keys. rewrite Hes, map_app. reflexivity.
      * change c with (fst (c, n)). apply in_map. assumption.
Qed.

(** *** The budget *)

(** X11.  In the result of [getStats], for a total spent that is a number
    not below zero and a budget above zero: the budget is reported as
    exceeded exactly when more was spent than the budget; what remains and
    what is overspent are not below zero and one of the two is zero;
    something remains exactly when less was spent than the budget, and
    something is overspent exactly when more was; the percentage lies
    between 0 and 100, is 0 when nothing was spent and 100 as soon as the
    budget is reached. *)
Theorem budget_status_is_consistent (env : Env) (s : AppState) (a b : Q) :
  st_totalAmount (getStats env s) = Num.Fin a ->
  total (st_budget (getStats env s)) = Num.Fin b ->
  (0 <= a)%Q -> (0 < b)%Q ->
  (isOverBudget (st_budget (getStats env s)) = true <-> (b < a)%Q) /\
  exists rest over share,
    remaining (st_budget (getStats env s)) = Num.Fin rest /\
    overspent (st_budget (getStats env s)) = Num.Fin over /\
    percentage (st_budget (getStats env s)) = Num.Fin share /\
    (0 <= rest)%Q /\ (0 <= over)%Q /\
    (rest == 0 \/ over == 0)%Q /\
    ((0 < rest)%Q <-> (a < b)%Q) /\
    ((0 < over)%Q <-> (b < a)%Q) /\
    (0 <= share)%Q /\ (share <= 100)%Q /\
    ((a == 0)%Q -> (share == 0)%Q) /\
    ((b <= a)%Q -> (share == 100)%Q).
Proof.
  unfold getStats;
    cbn [st_totalAmount st_budget total isOverBudget remaining overspent
         percentage].
  intros -> -> Ha Hb.
  assert (Hbpos : (b ?= 0)%Q = Gt) by (apply Qgt_alt; assumption).
  assert (Hq : (a / b * b == a)%Q) by (field; lra).
  assert (Hq0 : (0 <= a / b)%Q).
  { apply Qle_shift_div_l; [ assumption | lra ]. }
  split.
  - unfold Num.gtb, Num.ltb.
    destruct (Qcompare_spec b a) as [ He | Hlt | Hgt ]; split;
      intros Hx; try discriminate; try reflexivity; lra.
  - unfold Num.sub, Num.neg, Num.add, Num.div, Num.mul, Num.zero.
    rewrite Hbpos.
    unfold Num.max, Num.min, Num.ltb.
    destruct (Qcompare_spec (b + - a) 0) as [ H1 | H1 | H1 ];
      destruct (Qcompare_spec (a + - b) 0) as [ H2 | H2 | H2 ];
      destruct (Qcompare_spec 100 (a / b * 100)) as [ H3 | H3 | H3 ];
      eexists; eexists; eexists;
      (split; [ reflexivity | split; [ reflexivity | split; [ reflexivity | ] ] ]);
      repeat split; try lra; try (left; lra); try (right; lra);
      try (intros Hx; nra); try nra.
Qed.

(* ------------------------------------------------------------------ *)
(** ** Further properties of the validators *)

(** *** Characters *)

Ltac each_ascii c :=
  destruct c as [[ | ] [ | ] [ | ] [ | ] [ | ] [ | ] [ | ] [ | ]].

Lemma case_facts (c : ascii) :
  Str.toUpper (Str.toUpper c) = Str.toUpper c /\
  Str.toUpper (Str.toLower c) = Str.toUpper c /\
  Str.toLower (Str.toLower c) = Str.toLower c /\
  Str.isLetter (Str.toUpper c) = Str.isLetter c /\
  Str.isLetter (Str.toLower c) = Str.isLetter c /\
  Str.isWordChar (Str.toUpper c) = Str.isWordChar c /\
  Str.isWordChar (Str.toLower c) = Str.isWordChar c /\
  Str.isWhiteSpace (Str.toUpper c) = Str.isWhiteSpace c /\
  Str.isWhiteSpace (Str.toLower c) = Str.isWhiteSpace c.
Proof.
  each_ascii c; vm_compute; repeat split; reflexivity.
Qed.

Lemma not_letter_case (c : ascii) :
  Str.isLetter c = false -> Str.toUpper c = c /\ Str.toLower c = c.
Proof.
  each_ascii c; vm_compute; intros Hx; try discriminate; split; reflexivity.
Qed.

Lemma blank_facts (c : ascii) :
  Str.isWhiteSpace (blank c) = Str.isWhiteSpace c /\
  blank (blank c) = blank c /\
  (Str.isWhiteSpace c = false -> blank c = c) /\
  (Str.isWhiteSpace c = true -> Str.isLineTerminator (blank c) = false).
Proof.
  each_ascii c; vm_compute; repeat split; intros; try reflexivity;
    discriminate.
Qed.

Lemma map_length (f : ascii -> ascii) (s : string) :
  String.length (Str.map f s) = String.length s.
Proof.
  induction s as [ | c r IH ]; simpl; [ reflexivity | ].
  rewrite IH. reflexivity.
Qed.

(** *** Descriptions *)

Lemma hasDoubleSpaces_cons (a b : ascii) (r : string) :
  hasDoubleSpaces (String a (String b r))
  = (Str.isWhiteSpace a && Str.isWhiteSpace b)
    || hasDoubleSpaces (String b r).
Proof. reflexivity. Qed.

(** Without two white space characters in a row, collapsing replaces each
    white space character by a space. *)
Lemma collapseFrom_single (s : string) (inRun : bool) :
  hasDoubleSpaces s = false ->
  (inRun = true ->
   match s with
   | EmptyString => True
   | String c _ => Str.isWhiteSpace c = false
   end) ->
  collapseFrom inRun s = Str.map blank s.
Proof.
  revert inRun. induction s as [ | c r IH ]; intros inRun Hno Hhead.
  - reflexivity.
  - assert (Hrest : hasDoubleSpaces r = false).
    { destruct r as [ | d r' ]; [ reflexivity | ].
      rewrite hasDoubleSpaces_cons in Hno.
      apply orb_false_iff in Hno. apply Hno. }
    cbn [collapseFrom Str.map]. unfold blank at 1.
    destruct (Str.isWhiteSpace c) eqn:Hc.
    + destruct inRun; [ specialize (Hhead eq_refl); discriminate | ].
      f_equal. apply IH; [ assumption | ].
      intros _. destruct r as [ | d r' ]; [ exact I | ].
      rewrite hasDoubleSpaces_cons, Hc in Hno.
      apply orb_false_iff in Hno. destruct Hno as [Hd _].
      simpl in Hd. assumption.
    + f_equal. apply IH; [ assumption | discriminate ].
Qed.

Lemma hasDoubleSpaces_blank (s : string) :
  hasDoubleSpaces (Str.map blank s) = hasDoubleSpaces s.
Proof.
  induction s as [ | a r IH ]; [ reflexivity | ].
  destruct r as [ | b r' ]; [ reflexivity | ].
  cbn [Str.map] in *. rewrite !hasDoubleSpaces_cons, IH.
  destruct (blank_facts a) as (-> & _). destruct (blank_facts b) as (-> & _).
  reflexivity.
Qed.

Lemma restEndsNonSpace_blank (s : string) :
  restEndsNonSpace s = true -> restEndsNonSpace (Str.map blank s) = true.
Proof.
  induction s as [ | a r IH ]; [ discriminate | ].
  destruct r as [ | b r' ].
  - simpl. destruct (blank_facts a) as (-> & _). auto.
  - change (restEndsNonSpace (String a (String b r')))
      with (negb (Str.isLineTerminator a) && restEndsNonSpace (String b r')).
    change (restEndsNonSpace (Str.map blank (String a (String b r'))))
      with (negb (Str.isLineTerminator (blank a))
            && restEndsNonSpace (Str.map blank (String b r'))).
    intros Hx. apply andb_true_iff in Hx. destruct Hx as [Ha Hr].
    rewrite (IH Hr), andb_true_r.
    destruct (Str.isWhiteSpace a) eqn:Hws.
    + destruct (blank_facts a) as (_ & _ & _ & Hlt). rewrite (Hlt Hws).
      reflexivity.
    + destruct (blank_facts a) as (_ & _ & Hsame & _). rewrite (Hsame Hws).
      assumption.
Qed.

Lemma map_blank_twice (s : string) :
  Str.map blank (Str.map blank s) = Str.map blank s.
Proof.
  induction s as [ | a r IH ]; simpl; [ reflexivity | ].
  destruct (blank_facts a) as (_ & -> & _). rewrite IH. reflexivity.
Qed.

Lemma map_blank_plain (s : string) :
  (forall ch, In ch (list_ascii_of_string s) ->
              Str.isWhiteSpace ch = true -> ch = " "%char) ->
  Str.map blank s = s.
Proof.
  induction s as [ | a r IH ]; simpl; intros Hplain; [ reflexivity | ].
  rewrite IH by (intros ch Hch; apply Hplain; right; assumption).
  f_equal. unfold blank.
  destruct (Str.isWhiteSpace a) eqn:Hws; [ | reflexivity ].
  symmetry. apply Hplain; [ left; reflexivity | assumption ].
Qed.

(** X12.  The cleaned description that [validateDescription] returns is
    itself a valid description, and cleaning it again returns it unchanged;
    it has the length of the input, and it is the input when the only white
    space the input uses is the space. *)
Theorem cleaned_description_is_clean (s c : string) :
  d_cleaned (validateDescription s) = Some c ->
  validateDescription c
  = {| d_valid := true; d_message := EmptyString; d_cleaned := Some c |} /\
  String.length c = String.length s /\
  ((forall ch, In ch (list_ascii_of_string s) ->
               Str.isWhiteSpace ch = true -> ch = " "%char) ->
   c = s).
Proof.
  unfold validateDescription at 1.
  destruct (descriptionPattern s) eqn:Hp; cbn [negb]; [ | discriminate ].
  destruct (hasDoubleSpaces s) eqn:Hd; [ discriminate | ].
  cbn [d_cleaned]. intros Hc. injection Hc as <-.
  unfold collapseSpaces.
  rewrite (collapseFrom_single s false Hd) by discriminate.
  split; [ | split ].
  - unfold validateDescription.
    assert (Hp' : descriptionPattern (Str.map blank s) = true).
    { destruct s as [ | a r ]; [ discriminate | ].
      cbn [descriptionPattern Str.map] in *.
      apply andb_true_iff in Hp. destruct Hp as [Ha Hr].
      apply negb_true_iff in Ha.
      destruct (blank_facts a) as (-> & _). rewrite Ha. cbn [negb andb].
      destruct r as [ | b r' ]; [ reflexivity | ].
      apply (restEndsNonSpace_blank (String b r')). assumption. }
    rewrite Hp', hasDoubleSpaces_blank, Hd. cbn [negb].
    unfold collapseSpaces.
    rewrite collapseFrom_single;
      [ | rewrite hasDoubleSpaces_blank; assumption | discriminate ].
    rewrite map_blank_twice. reflexivity.
  - apply map_length.
  - apply map_blank_plain.
Qed.

(** *** Categories *)

Lemma categoryFrom_case (f : ascii -> ascii) (s : string) (afterLetter : bool) :
  (forall c, Str.isLetter (f c) = Str.isLetter c) ->
  (forall c, Str.isLetter c = false -> f c = c) ->
  categoryFrom afterLetter (Str.map f s) = categoryFrom afterLetter s.
Proof.
  intros Hletter Hother. revert afterLetter.
  induction s as [ | c r IH ]; intros afterLetter; simpl; [ reflexivity | ].
  rewrite Hletter.
  destruct (Str.isLetter c) eqn:Hc.
  - apply IH.
  - rewrite (Hother c Hc), !IH. reflexivity.
Qed.

Lemma map_toLower_twice (s : string) :
  Str.map Str.toLower (Str.map Str.toLower s) = Str.map Str.toLower s.
Proof.
  induction s as [ | a r IH ]; simpl; [ reflexivity | ].
  destruct (case_facts a) as (_ & _ & -> & _). rewrite IH. reflexivity.
Qed.

(** X13.  The cleaned category that [validateCategory] returns is itself a
    valid category, and cleaning it again returns it unchanged; it has the
    length of the input. *)
Theorem cleaned_category_is_clean (s c : string) :
  g_cleaned (validateCategory s) = Some c ->
  validateCategory c
  = {| g_valid := true; g_message := EmptyString; g_cleaned := Some c |} /\
  String.length c = String.length s.
Proof.
  unfold validateCategory at 1.
  destruct (categoryPattern s) eqn:Hp; cbn [negb]; [ | discriminate ].
  destruct (String.length s <? 2) eqn:Hl; [ discriminate | ].
  cbn [g_cleaned]. intros Hc. injection Hc as <-.
  assert (Hlen : String.length (capitalize s) = String.length s).
  { destruct s as [ | a r ]; [ reflexivity | ].
    simpl. rewrite map_length. reflexivity. }
  split; [ | assumption ].
  unfold validateCategory. rewrite Hlen, Hl.
  assert (Hp' : categoryPattern (capitalize s) = true).
  { destruct s as [ | a r ]; [ discriminate | ].
    unfold categoryPattern in *. cbn [capitalize categoryFrom] in *.
    destruct (case_facts a) as (_ & _ & _ & Hup & _). rewrite Hup.
    destruct (Str.isLetter a) eqn:Ha.
    - rewrite categoryFrom_case; [ assumption | | ].
      + intros x. apply case_facts.
      + intros x Hx. apply not_letter_case. assumption.
    - destruct (not_letter_case a Ha) as [-> _].
      simpl in Hp. rewrite andb_false_r in Hp. discriminate. }
  rewrite Hp'. cbn [negb]. f_equal. f_equal.
  destruct s as [ | a r ]; [ reflexivity | ].
  cbn [capitalize]. destruct (case_facts a) as (-> & _).
  rewrite map_toLower_twice. reflexivity.
Qed.

(** *** Amounts *)

Lemma fractionToEnd_dot (c : ascii) (r : string) :
  fractionToEnd (String c r) = true -> c = "."%char.
Proof.
  each_ascii c; simpl; intros Hx; try discriminate Hx; reflexivity.
Qed.

Lemma fractionToEnd_spec (f : string) :
  fractionToEnd f = true <-> fractionPart f.
Proof.
  unfold fractionPart. split.
  - intros Hf. destruct f as [ | c r ]; [ left; reflexivity | right ].
    pose proof (fractionToEnd_dot c r Hf) as ->.
    exists r. split; [ reflexivity | ].
    destruct r as [ | d1 [ | d2 [ | d3 r ] ] ]; simpl in Hf;
      try discriminate Hf; unfold allDigits; simpl.
    + rewrite Hf. split; [ reflexivity | lia ].
    + apply andb_true_iff in Hf. destruct Hf as [-> ->].
      split; [ reflexivity | lia ].
  - intros [-> | (ds & -> & Hd & Hl)]; [ reflexivity | ].
    destruct ds as [ | d1 [ | d2 [ | d3 r ] ] ]; simpl in Hl; try lia;
      unfold allDigits in Hd; simpl in Hd; simpl.
    + rewrite andb_true_r in Hd. assumption.
    + rewrite andb_true_r in Hd. assumption.
Qed.

Lemma digitsFractionToEnd_spec (r : string) :
  digitsFractionToEnd r = true <->
  exists ds f, r = ds ++ f /\ allDigits ds = true /\ fractionPart f.
Proof.
  split.
  - induction r as [ | c r IH ]; intros Hr.
    + exists EmptyString, EmptyString.
      split; [ reflexivity | split; [ reflexivity | left; reflexivity ] ].
    + cbn [digitsFractionToEnd] in Hr.
      destruct (Str.isDigit c) eqn:Hc.
      * destruct (IH Hr) as (ds & f & -> & Hd & Hf).
        exists (String c ds), f.
        split; [ reflexivity | split; [ | assumption ] ].
        unfold allDigits in *. simpl. rewrite Hc, Hd. reflexivity.
      * exists EmptyString, (String c r).
        split; [ reflexivity | split; [ reflexivity | ] ].
        apply fractionToEnd_spec. assumption.
  - intros (ds & f & -> & Hd & Hf).
    induction ds as [ | c ds IH ].
    + change (EmptyString ++ f) with f.
      pose proof (proj2 (fractionToEnd_spec f) Hf) as Hfe.
      destruct Hf as [-> | (ds & -> & _)]; [ reflexivity | ].
      exact Hfe.
    + unfold allDigits in Hd. simpl in Hd.
      apply andb_true_iff in Hd. destruct Hd as [Hc Hd].
      change (String c ds ++ f) with (String c (ds ++ f)).
      cbn [digitsFractionToEnd]. rewrite Hc. apply IH. assumption.
Qed.

Lemma amountPattern_spec (s : string) :
  amountPattern s = true <->
  exists w f, s = w ++ f /\ wholePart w /\ fractionPart f.
Proof.
  split.
  - intros Hs. destruct s as [ | c r ]; [ discriminate | ].
    cbn [amountPattern] in Hs.
    destruct (Ascii.eqb c "0") eqn:Hz.
    + apply Ascii.eqb_eq in Hz. subst c.
      exists "0", r.
      split; [ reflexivity | split; [ left; reflexivity | ] ].
      apply fractionToEnd_spec. assumption.
    + destruct (Str.isDigit c) eqn:Hc; [ | discriminate ].
      apply digitsFractionToEnd_spec in Hs.
      destruct Hs as (ds & f & -> & Hd & Hf).
      exists (String c ds), f.
      split; [ reflexivity | split; [ | assumption ] ].
      right. exists c, ds. repeat split; auto.
      intros ->. discriminate Hz.
  - intros (w & f & -> & Hw & Hf).
    destruct Hw as [-> | (c & r & -> & Hc & Hnz & Hr)].
    + change (amountPattern ("0" ++ f)) with (fractionToEnd f).
      apply fractionToEnd_spec. assumption.
    + change (String c r ++ f) with (String c (r ++ f)).
      cbn [amountPattern].
      destruct (Ascii.eqb c "0") eqn:Hz;
        [ apply Ascii.eqb_eq in Hz; contradiction | ].
      rewrite Hc. apply digitsFractionToEnd_spec. exists r, f. auto.
Qed.

Section Amounts.

Context `{Host}.

(** X14.  [validateAmount] accepts exactly the texts made of a whole part
    (0, or digits that do not start with 0) and an optional fraction (a dot
    and one or two digits), whose number is not above one million. *)
Theorem validateAmount_accepts (s : string) :
  a_valid (validateAmount s) = true <->
  (exists w f, s = w ++ f /\ wholePart w /\ fractionPart f) /\
  Num.gtb (parseFloat s) million = false.
Proof.
  rewrite <- amountPattern_spec. unfold validateAmount.
  destruct (amountPattern s); cbn [negb].
  - destruct (Num.gtb (parseFloat s) million); cbn [a_valid];
      split; try tauto; intros Hx; try discriminate Hx.
    destruct Hx as [_ Hx]. discriminate Hx.
  - cbn [a_valid]. split; [ discriminate | ].
    intros [Hx _]. discriminate Hx.
Qed.

End Amounts.

(** *** Dates *)

Lemma digit_facts (c : ascii) :
  Str.isDigit c = true ->
  Str.digitValue c <= 9 /\ Ascii.eqb c "-" = false /\
  (Ascii.eqb c "0" = false -> 1 <= Str.digitValue c).
Proof.
  each_ascii c; intros Hd; vm_compute in Hd; try discriminate Hd;
    (split;
     [ vm_compute; lia
     | split;
       [ reflexivity
       | intros Hz; vm_compute in Hz; try discriminate Hz; vm_compute; lia ] ]).
Qed.

Lemma monthDigits_spec (a b : ascii) :
  monthDigits a b = true ->
  Ascii.eqb a "-" = false /\ Ascii.eqb b "-" = false /\
  1 <= 10 * Str.digitValue a + Str.digitValue b <= 12.
Proof.
  unfold monthDigits. intros Hm.
  apply orb_true_iff in Hm. destruct Hm as [Hm | Hm].
  - apply andb_true_iff in Hm. destruct Hm as [Hm Hnz].
    apply andb_true_iff in Hm. destruct Hm as [Ha Hb].
    apply Ascii.eqb_eq in Ha. subst a.
    apply negb_true_iff in Hnz.
    destruct (digit_facts b Hb) as (Hle & Hh & Hpos).
    specialize (Hpos Hnz).
    change (Str.digitValue "0") with 0.
    split; [ reflexivity | split; [ assumption | lia ] ].
  - apply andb_true_iff in Hm. destruct Hm as [Ha Hb].
    apply Ascii.eqb_eq in Ha. subst a.
    change (Str.digitValue "1") with 1.
    split; [ reflexivity | ].
    apply orb_true_iff in Hb. destruct Hb as [Hb | Hb];
      [ apply orb_true_iff in Hb; destruct Hb as [Hb | Hb] | ];
      apply Ascii.eqb_eq in Hb; subst b;
      (split; [ reflexivity | vm_compute; lia ]).
Qed.

Lemma dayDigits_spec (a b : ascii) :
  dayDigits a b = true ->
  Ascii.eqb a "-" = false /\ Ascii.eqb b "-" = false /\
  1 <= 10 * Str.digitValue a + Str.digitValue b <= 31.
Proof.
  unfold dayDigits. intros Hm.
  apply orb_true_iff in Hm. destruct Hm as [Hm | Hm];
    [ apply orb_true_iff in Hm; destruct Hm as [Hm | Hm] | ].
  - apply andb_true_iff in Hm. destruct Hm as [Hm Hnz].
    apply andb_true_iff in Hm. destruct Hm as [Ha Hb].
    apply Ascii.eqb_eq in Ha. subst a.
    apply negb_true_iff in Hnz.
    destruct (digit_facts b Hb) as (Hle & Hh & Hpos).
    specialize (Hpos Hnz).
    change (Str.digitValue "0") with 0.
    split; [ reflexivity | split; [ assumption | lia ] ].
  - apply andb_true_iff in Hm. destruct Hm as [Ha Hb].
    destruct (digit_facts b Hb) as (Hle & Hh & _).
    apply orb_true_iff in Ha. destruct Ha as [Ha | Ha];
      apply Ascii.eqb_eq in Ha; subst a.
    + change (Str.digitValue "1") with 1.
      split; [ reflexivity | split; [ assumption | lia ] ].
    + change (Str.digitValue "2") with 2.
      split; [ reflexivity | split; [ assumption | lia ] ].
  - apply andb_true_iff in Hm. destruct Hm as [Ha Hb].
    apply Ascii.eqb_eq in Ha. subst a.
    change (Str.digitValue "3") with 3.
    split; [ reflexivity | ].
    apply orb_true_iff in Hb. destruct Hb as [Hb | Hb];
      apply Ascii.eqb_eq in Hb; subst b;
      (split; [ reflexivity | vm_compute; lia ]).
Qed.

Lemma split_other (sep c : ascii) (r : string) :
  Ascii.eqb c sep = false ->
  Str.split sep (String c r)
  = match Str.split sep r with
    | [] => [String c EmptyString]
    | w :: ws => String c w :: ws
    end.
Proof. intros Hc. cbn [Str.split]. rewrite Hc. reflexivity. Qed.

Lemma split_sep (sep : ascii) (r : string) :
  Str.split sep (String sep r) = EmptyString :: Str.split sep r.
Proof. cbn [Str.split]. rewrite Ascii.eqb_refl. reflexivity. Qed.

(** What the date pattern lets through has a month from 1 to 12 and a day
    from 1 to 31. *)
Lemma datePattern_ranges (s : string) :
  datePattern s = true ->
  1 <= monthOf s <= 12 /\ 1 <= dayOf s <= 31.
Proof.
  unfold datePattern. intros Hp.
  destruct s as [ | y1 s ]; [ discriminate Hp | ].
  destruct s as [ | y2 s ]; [ discriminate Hp | ].
  destruct s as [ | y3 s ]; [ discriminate Hp | ].
  destruct s as [ | y4 s ]; [ discriminate Hp | ].
  destruct s as [ | h1 s ]; [ discriminate Hp | ].
  destruct s as [ | m1 s ]; [ discriminate Hp | ].
  destruct s as [ | m2 s ]; [ discriminate Hp | ].
  destruct s as [ | h2 s ]; [ discriminate Hp | ].
  destruct s as [ | d1 s ]; [ discriminate Hp | ].
  destruct s as [ | d2 s ]; [ discriminate Hp | ].
  destruct s as [ | x s ]; [ | discriminate Hp ].
  cbn [list_ascii_of_string] in Hp.
  do 7 (apply andb_true_iff in Hp; destruct Hp as [Hp ?]).
  repeat match goal with
         | Hx : Ascii.eqb _ "-" = true |- _ =>
             apply Ascii.eqb_eq in Hx; subst
         end.
  destruct (monthDigits_spec m1 m2) as (Hm1 & Hm2 & Hm); [ assumption | ].
  destruct (dayDigits_spec d1 d2) as (Hd1 & Hd2 & Hd); [ assumption | ].
  repeat match goal with
         | Hx : Str.isDigit ?c = true |- _ =>
             destruct (digit_facts c Hx) as (_ & ? & _); clear Hx
         end.
  unfold monthOf, dayOf, splitDate.
  repeat first [ rewrite split_other by assumption | rewrite split_sep ].
  cbn [Str.split List.map fst snd digitsValue list_ascii_of_string fold_left].
  lia.
Qed.

Lemma daysInMonth_range (y m : nat) : 28 <= daysInMonth y m <= 31.
Proof.
  unfold daysInMonth.
  do 12 (destruct m as [ | m ]; [ try destruct (isLeapYear y); lia | ]).
  lia.
Qed.

(** The date object gives back the year, month and day it was made of
    exactly for a year from 100 on and a day the month has. *)
Lemma newDate_same (y mi d : nat) :
  newDate y mi d = (y, mi, d) <-> 100 <= y /\ d <= daysInMonth y (mi + 1).
Proof.
  unfold newDate.
  destruct (y <=? 99) eqn:Hy;
    [ apply Nat.leb_le in Hy | apply Nat.leb_gt in Hy ].
  - split; [ | lia ].
    destruct (d <=? _); [ | destruct (mi =? 11) ];
      intros Hx; injection Hx; intros; lia.
  - destruct (d <=? daysInMonth y (mi + 1)) eqn:Hd;
      [ apply Nat.leb_le in Hd | apply Nat.leb_gt in Hd ].
    + split; [ lia | reflexivity ].
    + split; [ | lia ].
      destruct (mi =? 11); intros Hx; injection Hx; intros; lia.
Qed.

Section Dates.

Context `{Host}.

(** X15.  In a time zone that has every day of the calendar, [validateDate]
    accepts exactly the texts of the form YYYY-MM-DD whose year is 100 or
    more and whose day exists in the month of that year, whatever today's
    date is; it warns exactly when it accepts a date after today. *)
Theorem validateDate_accepts (env : Env) (s : string) :
  noSkippedDay ->
  (t_valid (validateDate env s) = true <->
   datePattern s = true /\ 100 <= yearOf s /\
   dayOf s <= daysInMonth (yearOf s) (monthOf s)) /\
  (t_warning (validateDate env s) <> None <->
   t_valid (validateDate env s) = true /\
   laterDay (splitDate s) (env_today env) = true).
Proof.
  intros Hzone. unfold validateDate.
  destruct (datePattern s) eqn:Hp; cbn [negb].
  2:{ cbn [t_valid t_warning].
      split; split; intros Hx; try congruence; destruct Hx; congruence. }
  pose proof (datePattern_ranges s Hp) as [Hm Hd].
  unfold yearOf, monthOf, dayOf in *.
  destruct (splitDate s) as [[y m] d]. cbn [fst snd] in *.
  rewrite Hzone.
  pose proof (newDate_same y (m - 1) d) as Hsame.
  replace (m - 1 + 1) with m in Hsame by lia.
  destruct (newDate y (m - 1) d) as [[fy mi] dm].
  assert (Hcond :
    negb (fy =? y) || negb (mi =? m - 1) || negb (dm =? d) = false <->
    (fy, mi, dm) = (y, m - 1, d)).
  { split.
    - intros Hx. apply orb_false_iff in Hx. destruct Hx as [Hx H3].
      apply orb_false_iff in Hx. destruct Hx as [H1 H2].
      apply negb_false_iff in H1, H2, H3.
      apply Nat.eqb_eq in H1, H2, H3. congruence.
    - intros Hx. injection Hx as -> -> ->.
      rewrite !Nat.eqb_refl. reflexivity. }
  destruct (negb (fy =? y) || negb (mi =? m - 1) || negb (dm =? d)) eqn:Hc.
  - cbn [t_valid t_warning].
    split; split; intros Hx; try congruence.
    + destruct Hx as (_ & Hx). apply Hsame in Hx. apply Hcond in Hx.
      discriminate Hx.
    + destruct Hx as [Hx _]. discriminate Hx.
  - pose proof (proj1 Hcond eq_refl) as Heq. injection Heq as -> -> ->.
    replace (m - 1 + 1) with m by lia.
    pose proof (proj1 Hsame eq_refl) as Hok.
    destruct (laterDay (y, m, d) (env_today env)) eqn:Hl;
      cbn [t_valid t_warning]; split; split; intros Hx;
      try reflexivity; try congruence;
      try (split; [ reflexivity | assumption ]);
      try (split; reflexivity).
    destruct Hx as [_ Hx]. discriminate Hx.
Qed.

End Dates.

(** *** The checks that only warn *)

Lemma list_of_map (f : ascii -> ascii) (s : string) :
  list_ascii_of_string (Str.map f s) = List.map f (list_ascii_of_string s).
Proof.
  induction s as [ | c r IH ]; simpl; [ reflexivity | ].
  rewrite IH. reflexivity.
Qed.

Lemma span_map (p : ascii -> bool) (f : ascii -> ascii) (l : list ascii) :
  (forall c, p (f c) = p c) ->
  span p (List.map f l)
  = (List.map f (fst (span p l)), List.map f (snd (span p l))).
Proof.
  intros Hp. induction l as [ | c r IH ]; [ reflexivity | ].
  cbn [span List.map]. rewrite Hp.
  destruct (p c); [ | reflexivity ].
  rewrite IH. destruct (span p r) as [a b]. reflexivity.
Qed.

Lemma sameLetter_upper (a c : ascii) :
  sameLetter (Str.toUpper a) (Str.toUpper c) = sameLetter a c /\
  sameLetter a (Str.toUpper c) = sameLetter a c.
Proof.
  unfold sameLetter.
  destruct (case_facts a) as (-> & _). destruct (case_facts c) as (-> & _).
  split; reflexivity.
Qed.

Lemma isWordChar_upper (c : ascii) : Str.isWordChar (Str.toUpper c) = Str.isWordChar c.
Proof. apply case_facts. Qed.

Lemma isWhiteSpace_upper (c : ascii) :
  Str.isWhiteSpace (Str.toUpper c) = Str.isWhiteSpace c.
Proof. apply case_facts. Qed.

Lemma repeatsWord_upper (w l : list ascii) :
  repeatsWord (List.map Str.toUpper w) (List.map Str.toUpper l) = repeatsWord w l.
Proof.
  revert l. induction w as [ | a w IH ]; intros [ | c l ];
    cbn [repeatsWord List.map]; try reflexivity.
  - rewrite isWordChar_upper. reflexivity.
  - rewrite IH. destruct (sameLetter_upper a c) as [-> _]. reflexivity.
Qed.

Lemma repeatsWord_upper_text (w l : list ascii) :
  repeatsWord w (List.map Str.toUpper l) = repeatsWord w l.
Proof.
  revert l. induction w as [ | a w IH ]; intros [ | c l ];
    cbn [repeatsWord List.map]; try reflexivity.
  - rewrite isWordChar_upper. reflexivity.
  - rewrite IH. destruct (sameLetter_upper a c) as [_ ->]. reflexivity.
Qed.

Lemma duplicateAt_upper (l : list ascii) :
  duplicateAt (List.map Str.toUpper l) = duplicateAt l.
Proof.
  unfold duplicateAt.
  rewrite (span_map Str.isWordChar Str.toUpper l isWordChar_upper).
  destruct (span Str.isWordChar l) as [w rest]. cbn [fst snd].
  rewrite (span_map Str.isWhiteSpace Str.toUpper rest isWhiteSpace_upper).
  destruct (span Str.isWhiteSpace rest) as [spaces rest']. cbn [fst snd].
  destruct spaces as [ | x spaces ]; cbn [List.map]; [ reflexivity | ].
  apply repeatsWord_upper.
Qed.

Lemma duplicateFrom_upper (afterWordChar : bool) (l : list ascii) :
  duplicateFrom afterWordChar (List.map Str.toUpper l)
  = duplicateFrom afterWordChar l.
Proof.
  revert afterWordChar. induction l as [ | c r IH ]; intros afterWordChar;
    [ reflexivity | ].
  cbn [duplicateFrom List.map].
  change (Str.toUpper c :: List.map Str.toUpper r) with (List.map Str.toUpper (c :: r)).
  rewrite duplicateAt_upper, isWordChar_upper, IH. reflexivity.
Qed.

Lemma beverageFrom_upper (afterWordChar : bool) (l : list ascii) :
  beverageFrom afterWordChar (List.map Str.toUpper l)
  = beverageFrom afterWordChar l.
Proof.
  revert afterWordChar. induction l as [ | c r IH ]; intros afterWordChar;
    [ reflexivity | ].
  cbn [beverageFrom List.map].
  change (Str.toUpper c :: List.map Str.toUpper r) with (List.map Str.toUpper (c :: r)).
  rewrite isWordChar_upper, IH. f_equal. f_equal.
  induction beverages as [ | w ws IHw ]; [ reflexivity | ].
  cbn [existsb]. rewrite IHw, repeatsWord_upper_text. reflexivity.
Qed.

(** X16.  The warnings about repeated words and about beverages do not
    depend on the case of the letters of the description. *)
Theorem description_warnings_ignore_case (s s' : string) :
  sameUpToCase s s' ->
  hasDuplicateWords s = hasDuplicateWords s' /\
  isBeverageTransaction s = isBeverageTransaction s'.
Proof.
  unfold sameUpToCase, hasDuplicateWords, isBeverageTransaction.
  intros Hsame.
  assert (Hl : List.map Str.toUpper (list_ascii_of_string s)
               = List.map Str.toUpper (list_ascii_of_string s'))
    by (rewrite <- !list_of_map, Hsame; reflexivity).
  split.
  - rewrite <- (duplicateFrom_upper false (list_ascii_of_string s)), Hl.
    apply duplicateFrom_upper.
  - rewrite <- (beverageFrom_upper false (list_ascii_of_string s)), Hl.
    apply beverageFrom_upper.
Qed.

(** *** The whole form and the clock *)

Section Clock.

Context `{Host}.

Lemma validateDate_clock (env env' : Env) (s : string) :
  t_valid (validateDate env s) = t_valid (validateDate env' s) /\
  t_message (validateDate env s) = t_message (validateDate env' s).
Proof.
  unfold validateDate.
  destruct (negb (datePattern s)); [ split; reflexivity | ].
  destruct (splitDate s) as [[y m] d].
  destruct (localDay (newDate y (m - 1) d)) as [[fy mi] dm].
  destruct (_ || _ || _); [ split; reflexivity | ].
  destruct (laterDay _ (env_today env));
    destruct (laterDay _ (env_today env')); split; reflexivity.
Qed.

(** X17.  Whether a form is valid, its errors and its cleaned values do not
    depend on the day the form is checked; of the warnings only the one
    about the date does. *)
Theorem validateTransaction_ignores_the_clock (env env' : Env)
  (formData : FormData) :
  isValid (validateTransaction env formData)
  = isValid (validateTransaction env' formData) /\
  errors (validateTransaction env formData)
  = errors (validateTransaction env' formData) /\
  cleaned (validateTransaction env formData)
  = cleaned (validateTransaction env' formData) /\
  otherThanDate (warnings (validateTransaction env formData))
  = otherThanDate (warnings (validateTransaction env' formData)).
Proof.
  unfold validateTransaction. cbn [isValid errors cleaned warnings].
  destruct (validateDate_clock env env' (f_date formData)) as [Hv Hm].
  rewrite Hv, Hm.
  split; [ reflexivity | split; [ reflexivity | split; [ reflexivity | ] ] ].
  unfold otherThanDate. rewrite !filter_app. f_equal.
  rewrite <- Hv.
  destruct (t_warning (validateDate env (f_date formData))) as [ w | ];
    destruct (t_warning (validateDate env' (f_date formData))) as [ w' | ];
    destruct (t_valid (validateDate env (f_date formData)));
    cbn [andb]; try destruct (Str.truthy w); try destruct (Str.truthy w');
    reflexivity.
Qed.

End Clock.

(** *** Ids *)

(** X18.  Two ids made by [generateId] are the same only when they were
    made in the same millisecond with the same random text. *)
Theorem generateId_equal_ids (env env' : Env) :
  generateId env = generateId env' <->
  env_dateNow env = env_dateNow env' /\ env_random env = env_random env'.
Proof.
  unfold generateId. split.
  - intros Heq. simpl in Heq. injection Heq as Heq.
    apply digits_then_underscore in Heq;
      try (unfold Str.ofN; apply ofN_digits).
    destruct Heq as [Hn Hr]. split; [ | assumption ].
    apply DecimalN.Unsigned.to_uint_inj.
    unfold Str.ofN in Hn.
    pose proof (NilEmpty.usu (N.to_uint (env_dateNow env))) as Hu.
    rewrite Hn, NilEmpty.usu in Hu. injection Hu as Hu. symmetry. exact Hu.
  - intros [-> ->]. reflexivity.
Qed.

(** *** The form *)

Section Form.

Context `{Host}.

(** X19.  Submitting the form either shows an error and leaves the store as
    it was, the editing included, or shows a success, ends the editing and
    leaves in the list a transaction with the cleaned values of the form.
    The error is that of a form that is not valid or of an edited
    transaction that is no longer in the list. *)
Theorem handleFormSubmit_all_or_nothing (env : Env) (formData : FormData)
  (s : AppState) :
  let '(text, kind, s') := Ui.handleFormSubmit env formData s in
  let v := validateTransaction env formData in
  (kind = "error" /\ s' = s /\
   (text = "Invalid transaction data" /\ isValid v = false \/
    text = "Transaction not found" /\ Ui.isEditing s = true)) \/
  (kind = "success" /\ isValid v = true /\ editingId s' = None /\
   exists t, In t (transactions s') /\
             description t = c_description (cleaned v) /\
             amount t = c_amount (cleaned v) /\
             category t = c_category (cleaned v) /\
             date t = c_date (cleaned v)).
Proof.
  unfold Ui.handleFormSubmit, Ui.isEditing.
  assert (Hadd :
    match addTransaction env formData s with
    | Returned t s' =>
        isValid (validateTransaction env formData) = true /\
        In t (transactions s') /\
        description t = c_description (cleaned (validateTransaction env formData)) /\
        amount t = c_amount (cleaned (validateTransaction env formData)) /\
        category t = c_category (cleaned (validateTransaction env formData)) /\
        date t = c_date (cleaned (validateTransaction env formData))
    | Thrown e s' =>
        s' = s /\ message e = "Invalid transaction data" /\
        isValid (validateTransaction env formData) = false
    end).
  { unfold addTransaction.
    destruct (isValid (validateTransaction env formData)); cbn [negb].
    - split; [ reflexivity | ].
      rewrite effects_transactions, applySearchAndSort_transactions.
      split; [ left; reflexivity | repeat split ].
    - repeat split. }
  assert (Hupd : forall i,
    match updateTransaction env i formData s with
    | Returned t s' =>
        isValid (validateTransaction env formData) = true /\
        In t (transactions s') /\
        description t = c_description (cleaned (validateTransaction env formData)) /\
        amount t = c_amount (cleaned (validateTransaction env formData)) /\
        category t = c_category (cleaned (validateTransaction env formData)) /\
        date t = c_date (cleaned (validateTransaction env formData))
    | Thrown e s' =>
        s' = s /\
        (message e = "Invalid transaction data" /\
         isValid (validateTransaction env formData) = false \/
         message e = "Transaction not found")
    end).
  { intros i. unfold updateTransaction.
    destruct (isValid (validateTransaction env formData)); cbn [negb].
    - destruct (findIndex _ (transactions s)) as [ index | ] eqn:Hfind.
      + destruct (findIndex_nth_error _ _ _ Hfind) as (old & Hold & _).
        rewrite Hold.
        split; [ reflexivity | ].
        rewrite effects_transactions, applySearchAndSort_transactions.
        split; [ | repeat split ].
        apply nth_error_In with (n := index).
        apply assign_same. apply nth_error_Some. congruence.
      + split; [ reflexivity | right; reflexivity ].
    - split; [ reflexivity | left; split; reflexivity ]. }
  destruct (editingId s) as [ i | ] eqn:Hedit.
  - destruct (Str.truthy i) eqn:Hi.
    + specialize (Hupd i).
      destruct (updateTransaction env i formData s) as [ t s' | e s' ].
      * right. destruct Hupd as (Hv & Hin & Hrest).
        split; [ reflexivity | split; [ assumption | ] ].
        split; [ reflexivity | ]. exists t. split; assumption.
      * left. destruct Hupd as (-> & Hmsg).
        split; [ reflexivity | split; [ reflexivity | ] ].
        destruct Hmsg as [[Hmsg Hv] | Hmsg]; [ left | right ]; auto.
    + destruct (addTransaction env formData s) as [ t s' | e s' ].
      * right. destruct Hadd as (Hv & Hin & Hrest).
        split; [ reflexivity | split; [ assumption | ] ].
        split; [ reflexivity | ]. exists t. split; assumption.
      * left. destruct Hadd as (-> & Hmsg & Hv).
        split; [ reflexivity | split; [ reflexivity | ] ]. left. auto.
  - destruct (addTransaction env formData s) as [ t s' | e s' ].
    + right. destruct Hadd as (Hv & Hin & Hrest).
      split; [ reflexivity | split; [ assumption | ] ].
      split; [ reflexivity | ]. exists t. split; assumption.
    + left. destruct Hadd as (-> & Hmsg & Hv).
      split; [ reflexivity | split; [ reflexivity | ] ]. left. auto.
Qed.

End Form.

(** *** The search box, cleared *)

Section ClearSearch.

Context `{Host}.


End ClearSearch.

(** *** Cents *)

Lemma list_of_append (a b : string) :
  list_ascii_of_string (a ++ b)
  = (list_ascii_of_string a ++ list_ascii_of_string b)%list.
Proof.
  induction a as [ | c a IH ]; simpl; [ reflexivity | ].
  rewrite IH. reflexivity.
Qed.

Lemma digit_not_dot (c : ascii) :
  Str.isDigit c = true -> Ascii.eqb c "." = false.
Proof.
  each_ascii c; intros Hd; vm_compute in Hd; try discriminate Hd;
    reflexivity.
Qed.

Lemma centsFrom_digits (w l : list ascii) :
  forallb Str.isDigit w = true -> centsFrom (w ++ l)%list = centsFrom l.
Proof.
  induction w as [ | c w IH ]; intros Hw; [ reflexivity | ].
  simpl in Hw. apply andb_true_iff in Hw. destruct Hw as [Hc Hw].
  change ((c :: w) ++ l)%list with (c :: (w ++ l))%list.
  cbn [centsFrom]. rewrite (digit_not_dot c Hc), (IH Hw). reflexivity.
Qed.

Lemma wholePart_digits (w : string) : wholePart w -> allDigits w = true.
Proof.
  intros [-> | (c & r & -> & Hc & _ & Hr)]; [ reflexivity | ].
  unfold allDigits in *. simpl. rewrite Hc, Hr. reflexivity.
Qed.

(** X21.  Of the amounts that the amount pattern accepts, [hasCents] holds
    exactly for those written with two decimals: an amount with one decimal
    has no cents for it. *)
Theorem hasCents_two_decimals (w f : string) :
  wholePart w -> fractionPart f ->
  (hasCents (w ++ f) = true <-> String.length f = 3).
Proof.
  intros Hw Hf. unfold hasCents.
  rewrite list_of_append, centsFrom_digits by (apply wholePart_digits, Hw).
  destruct Hf as [-> | (ds & -> & Hd & Hl)].
  - simpl. split; discriminate.
  - destruct ds as [ | d1 [ | d2 [ | d3 r ] ] ]; simpl in Hl; try lia;
      unfold allDigits in Hd; simpl in Hd.
    + cbn [list_ascii_of_string centsFrom String.length].
      rewrite !andb_false_r. cbn [orb]. split; discriminate.
    + apply andb_true_iff in Hd. destruct Hd as [H1 H2].
      rewrite andb_true_r in H2.
      cbn [list_ascii_of_string centsFrom String.length endsWord].
      rewrite H1, H2. split; reflexivity.
Qed.

(* ------------------------------------------------------------------ *)
(** ** The properties on the example data

    From here on the store runs on the reference runtime. *)

Import Examples.

#[local] Existing Instance Reference.host.

(** C1.  The view after [setSearch] is not the set of matching
    transactions.  In a store holding 'Coffee', 'Coffee beans' and 'Bus
    pass', the search for 'Coffee' leaves only the first in the view,
    although the searchable text of the second matches too: the test of the
    first left the scan position of the one matcher at 6, and the test of
    the second started from there. *)
Theorem setSearch_loses_matching_transaction :
  exists s',
    setSearch "Coffee" false store = Returned tt s' /\
    transactions s' = [t1; t2; t3] /\
    filter (fun t => matches coffeeRegExp
                       (searchable t))
           (transactions s')
    = [t1; t2] /\
    snd (test coffeeRegExp
           (searchable t1))
    = setLastIndex 6 coffeeRegExp /\
    filteredTransactions s' = [t1].
Proof.
  eexists. split; [ reflexivity | ].
  split; [ vm_compute; reflexivity | ].
  split; [ vm_compute; reflexivity | ].
  split; vm_compute; reflexivity.
Qed.

(** C5.  [setSearch] and [setSort] call no listener.  In a store with one
    subscriber, each of them changes the view and leaves the trace as it
    was, where [addTransaction] ends with the call of the subscriber. *)
Theorem setSearch_setSort_call_no_listener :
  listeners store = [1] /\
  (exists s',
     setSearch "Coffee" false store = Returned tt s' /\
     filteredTransactions s' <> filteredTransactions store /\
     trace s' = trace store) /\
  (exists s',
     setSort "amount-asc" store = Returned tt s' /\
     filteredTransactions s' <> filteredTransactions store /\
     trace s' = trace store) /\
  (exists t s',
     addTransaction (Reference.env true) coffee store
     = Returned t s' /\
     trace s' = (trace store ++ [SavedTransactions (transactions s');
                                 Notified 1])%list).
Proof.
  split; [ reflexivity | ].
  split; [ | split ].
  - eexists. split; [ reflexivity | ]. split.
    + vm_compute. discriminate.
    + vm_compute. reflexivity.
  - eexists. split; [ reflexivity | ]. split.
    + vm_compute. discriminate.
    + vm_compute. reflexivity.
  - eexists. eexists. split; [ reflexivity | ].
    vm_compute. reflexivity.
Qed.

(** C3, as stated, fails: the error thrown for an invalid form is a plain
    [Error] with a fixed message, the same for a form whose description is
    wrong and for a form whose amount is wrong, although validation reports
    different field errors for the two. *)
Lemma validation_error_carries_no_field_list :
  errors (validateTransaction (Reference.env true) badDescription)
  = [("description", "Description cannot start or end with spaces")] /\
  errors (validateTransaction (Reference.env true) badAmount)
  = [("amount",
      "Amount must be a positive number with up to 2 decimals (e.g., 10, 10.50)")] /\
  addTransaction (Reference.env true) badDescription store
  = Thrown {| name := "Error"; message := "Invalid transaction data" |} store /\
  addTransaction (Reference.env true) badAmount store
  = Thrown {| name := "Error"; message := "Invalid transaction data" |} store /\
  ~ (exists carried : JsError -> list (string * string),
       forall fd e s',
         addTransaction (Reference.env true) fd store
         = Thrown e s' ->
         carried e = errors (validateTransaction (Reference.env true) fd)).
Proof.
  split; [ vm_compute; reflexivity | ].
  split; [ vm_compute; reflexivity | ].
  split; [ vm_compute; reflexivity | ].
  split; [ vm_compute; reflexivity | ].
  intros [carried Hc].
  pose proof (Hc badDescription _ _ eq_refl) as H1.
  pose proof (Hc badAmount _ _ eq_refl) as H2.
  vm_compute in H1, H2. rewrite H1 in H2. discriminate.
Qed.

(** C9, as stated, fails: for the amount 'abc', which does not validate,
    the cleaned amount is the number [NaN], not the raw input 'abc', as a
    value and as a text. *)
Lemma cleaned_amount_is_not_the_raw_input :
  failed "amount" (validateTransaction (Reference.env true) badAmount) = true /\
  f_amount badAmount = "abc" /\
  c_amount (cleaned (validateTransaction (Reference.env true) badAmount))
  = Num.NaN /\
  JsNumber (c_amount (cleaned (validateTransaction (Reference.env true) badAmount)))
  <> JsString (f_amount badAmount) /\
  numberToString
    (c_amount (cleaned (validateTransaction (Reference.env true) badAmount)))
  <> f_amount badAmount.
Proof.
  split; [ vm_compute; reflexivity | ].
  split; [ reflexivity | ].
  split; [ vm_compute; reflexivity | ].
  split; [ discriminate | ].
  vm_compute. discriminate.
Qed.

(** *** The theorems at work on the example data *)


(** C3 on a form with a wrong description and on an id no transaction has. *)
Lemma rejected_change_leaves_store_untouched_witness :
  addTransaction (Reference.env true) badDescription store
  = Thrown (newError "Invalid transaction data") store /\
  updateTransaction (Reference.env true) "txn_2"
    badDescription store
  = Thrown (newError "Invalid transaction data") store /\
  updateTransaction (Reference.env true) "txn_9"
    coffee store
  = Thrown (newError "Transaction not found") store.
Proof.
  split; [ | split ].
  - apply (proj1 (@rejected_change_leaves_store_untouched Reference.host
                    (Reference.env true) "txn_2" badDescription store)).
    vm_compute. discriminate.
  - apply (proj1 (@rejected_change_leaves_store_untouched Reference.host
                    (Reference.env true) "txn_2" badDescription store)).
    vm_compute. discriminate.
  - apply (proj2 (@rejected_change_leaves_store_untouched Reference.host
                    (Reference.env true) "txn_9" coffee store)).
    + vm_compute. reflexivity.
    + vm_compute. reflexivity.
Defined.

(** C4 on the form 'Coffee, 3.50, Food, 2025-01-10'. *)
Lemma addTransaction_valid_witness :
  exists t s',
    addTransaction (Reference.env true) coffee store
    = Returned t s' /\
    id t = "txn_1736510400000_k3j9x2m1q" /\
    createdAt t = updatedAt t /\
    transactions s' = t :: transactions store /\
    getTransaction (id t) s' = Some t.
Proof.
  destruct (@addTransaction_valid Reference.host (Reference.env true)
              coffee store)
    as (t & s' & Hret & _ & _ & _ & _ & Hid & _ & _ & Htime & Hhead & Hget).
  - vm_compute. reflexivity.
  - exists t, s'. rewrite Hid in *. auto.
Defined.

(** C4 as it is stated does not hold: the id is not new to the list when
    [generateId] makes a text that a transaction of the list has, as in a
    second call at the same time that draws the same random text. *)
Lemma addTransaction_same_id_twice :
  exists t1 s1 t2 s2,
    addTransaction (Reference.env true) coffee initial = Returned t1 s1 /\
    addTransaction (Reference.env true) coffee s1 = Returned t2 s2 /\
    In (id t2) (List.map id (transactions s1)) /\
    ~ NoDup (List.map id (transactions s2)).
Proof.
  eexists. eexists. eexists. eexists.
  split; [ reflexivity | ].
  split; [ reflexivity | ].
  split.
  - vm_compute. left. reflexivity.
  - vm_compute. intros Hnd. inversion Hnd as [ | x l Hnot Hrest ].
    apply Hnot. left. reflexivity.
Qed.

(** C6 on the second transaction of the example store. *)
Lemma deleteTransaction_confirmed_or_declined_witness :
  (exists s',
     deleteTransaction (Reference.env true) "txn_2" store
     = Returned true s' /\
     getTransaction "txn_2" s' = None /\
     S (List.length (transactions s')) = 3) /\
  deleteTransaction (Reference.env false) "txn_2" store
  = Returned false store.
Proof.
  split.
  - destruct (proj1 (@deleteTransaction_confirmed_or_declined Reference.host
                       (Reference.env true) "txn_2" store) eq_refl)
      as (s' & Hret & Hgone & _ & _ & Hone).
    exists s'. split; [ exact Hret | split; [ exact Hgone | ] ].
    change 3 with (List.length (transactions store)).
    apply (Hone t2).
    + vm_compute. auto.
    + reflexivity.
    + vm_compute. repeat constructor; simpl; intuition discriminate.
  - apply (proj2 (@deleteTransaction_confirmed_or_declined Reference.host
                    (Reference.env false) "txn_2" store)).
    reflexivity.
Defined.

(** X22 on the second transaction of the example store. *)
Lemma updateTransaction_frame_witness :
  exists index t s',
    updateTransaction (Reference.env true) "txn_2"
      coffee store
    = Returned t s' /\
    nth_error (transactions s') index = Some t /\
    id t = "txn_2" /\
    createdAt t = createdAt t2 /\
    updatedAt t = "2025-01-10T12:00:00.000Z" /\
    (forall j, j <> index ->
               nth_error (transactions s') j = nth_error (transactions store) j) /\
    settings s' = settings store /\
    currentSort s' = currentSort store /\
    sameMatcher (regex (currentSearch s')) (regex (currentSearch store)).
Proof.
  destruct (@updateTransaction_frame Reference.host (Reference.env true)
              "txn_2" coffee store t2)
    as (index & t & s' & Hret & _ & Hat & Hid & _ & Hcreated & Hupdated
        & _ & _ & _ & _ & _ & Hothers & Hsettings & Hsort & _ & _ & Hmatcher).
  - vm_compute. reflexivity.
  - vm_compute. reflexivity.
  - exists index, t, s'. repeat split; assumption.
Defined.

(** C8 on the example store, its view taken under three sort keys. *)
Lemma applySort_order_witness :
  Permutation
    (filteredTransactions (applySort (setCurrentSort "amount-asc" store)))
    (filteredTransactions store) /\
  Sorted (fun a b => Num.le (amount a) (amount b))
         (filteredTransactions
            (applySort (setCurrentSort "amount-asc" store))) /\
  Sorted (fun a b => Num.le (dateTimeValue (date b))
                            (dateTimeValue (date a)))
         (filteredTransactions
            (applySort (setCurrentSort "date-desc" store))) /\
  filteredTransactions
    (applySort (setCurrentSort "category-asc" store))
  = filteredTransactions store.
Proof.
  split; [ | split; [ | split ] ].
  - apply (proj1 (@applySort_order Reference.host
                    (setCurrentSort "amount-asc" store))).
  - apply (proj1 (proj2 (@applySort_order Reference.host
                           (setCurrentSort "amount-asc" store)))).
    + reflexivity.
    + apply Forall_forall. intros t Ht. vm_compute in Ht.
      destruct Ht as [ <- | [ <- | [ <- | [] ] ] ]; reflexivity.
  - apply (proj1 (proj2 (proj2 (@applySort_order Reference.host
                                  (setCurrentSort "date-desc" store))))).
    + reflexivity.
    + apply Forall_forall. intros t Ht. vm_compute in Ht.
      destruct Ht as [ <- | [ <- | [ <- | [] ] ] ]; vm_compute; reflexivity.
  - apply (proj2 (proj2 (proj2 (@applySort_order Reference.host
                                  (setCurrentSort "category-asc" store))))).
    vm_compute. intuition discriminate.
Defined.

(** The three views of the witness, written out. *)
Example applySort_views :
  filteredTransactions (applySort (setCurrentSort "amount-asc" store))
  = [t1; t2; t3] /\
  filteredTransactions (applySort (setCurrentSort "date-desc" store))
  = [t1; t3; t2] /\
  filteredTransactions (applySort (setCurrentSort "category-asc" store))
  = [t1; t3; t2].
Proof.
  split; [ vm_compute; reflexivity | ].
  split; vm_compute; reflexivity.
Qed.

(** C8 as it is stated does not hold for a record whose date is no date, as
    an import file can hold one: each comparison with it gives [NaN], which
    the sort reads as equal, and under 'date-desc' the view below keeps the
    record of 8 January before the record of 9 January.  (The three
    comparisons do not order the records consistently; a sort that looks at
    neighbours first, as the engines V8 and SpiderMonkey do on a short array,
    finds nothing to move.) *)
Lemma applySort_undated_record :
  currentSort (storeOf [t2; undated; t3]) = "date-desc" /\
  filteredTransactions (storeOf [t2; undated; t3]) = [t2; undated; t3] /\
  filteredTransactions (applySort (storeOf [t2; undated; t3]))
  = [t2; undated; t3] /\
  Num.ltb (dateTimeValue (date t2)) (dateTimeValue (date t3)) = true /\
  ~ Sorted (fun a b => Num.le (dateTimeValue (date b))
                              (dateTimeValue (date a)))
           (filteredTransactions (applySort (storeOf [t2; undated; t3]))).
Proof.
  split; [ reflexivity | ].
  split; [ vm_compute; reflexivity | ].
  assert (Hview : filteredTransactions (applySort (storeOf [t2; undated; t3]))
                  = [t2; undated; t3]) by (vm_compute; reflexivity).
  split; [ exact Hview | ].
  split; [ vm_compute; reflexivity | ].
  rewrite Hview. intros Hsorted.
  inversion Hsorted as [ | a l Hrest Hhead ]; subst.
  inversion Hhead as [ | b l' Hle ]; subst.
  vm_compute in Hle. exact Hle.
Qed.

(** C9 on a form whose description and amount fail and whose category
    validates. *)
Lemma validateTransaction_cleaned_witness :
  c_description
    (cleaned (validateTransaction (Reference.env true)
                {| f_description := " Coffee"; f_amount := "abc";
                   f_category := "fast food"; f_date := "2025-01-10" |}))
  = " Coffee" /\
  c_category
    (cleaned (validateTransaction (Reference.env true)
                {| f_description := " Coffee"; f_amount := "abc";
                   f_category := "fast food"; f_date := "2025-01-10" |}))
  = capitalize "fast food".
Proof.
  split.
  - apply (proj1 (proj2 (@validateTransaction_cleaned Reference.host
                           (Reference.env true)
                           {| f_description := " Coffee"; f_amount := "abc";
                              f_category := "fast food";
                              f_date := "2025-01-10" |}))).
    vm_compute. reflexivity.
  - apply (proj1 (proj2 (proj2 (@validateTransaction_cleaned Reference.host
                           (Reference.env true)
                           {| f_description := " Coffee"; f_amount := "abc";
                              f_category := "fast food";
                              f_date := "2025-01-10" |})))).
    vm_compute. reflexivity.
Defined.

(** C10 on the store as it is created. *)
Lemma getStats_empty_witness :
  st_total (getStats (Reference.env true) initial) = 0 /\
  st_topCategory (getStats (Reference.env true) initial) = "-" /\
  isOverBudget (st_budget (getStats (Reference.env true) initial)) = false /\
  Num.eq (remaining (st_budget (getStats (Reference.env true) initial)))
         (total (st_budget (getStats (Reference.env true) initial))) /\
  total (st_budget (getStats (Reference.env true) initial)) = Num.Fin 500.
Proof.
  destruct (getStats_empty (Reference.env true) initial)
    as (Htotal & _ & Htop & _ & _ & _ & _ & Hbudget & Hfine & _).
  - reflexivity.
  - destruct (Hfine I) as [Hover Hrem].
    repeat split; assumption.
Defined.

(** C10 as it is stated does not hold for a negative budget, which the
    settings form saves as it is typed: with no transaction, the budget of
    -5 is exceeded and nothing remains of it. *)
Lemma getStats_empty_negative_budget :
  transactions overdrawn = [] /\
  total (st_budget (getStats (Reference.env true) overdrawn))
  = Num.Fin (-5) /\
  isOverBudget (st_budget (getStats (Reference.env true) overdrawn)) = true /\
  remaining (st_budget (getStats (Reference.env true) overdrawn))
  = Num.Fin 0 /\
  ~ Num.eq (remaining (st_budget (getStats (Reference.env true) overdrawn)))
           (total (st_budget (getStats (Reference.env true) overdrawn))).
Proof.
  split; [ reflexivity | ].
  split; [ vm_compute; reflexivity | ].
  split; [ vm_compute; reflexivity | ].
  split; [ vm_compute; reflexivity | ].
  vm_compute. discriminate.
Qed.

(** C6 as it is stated does not hold when two transactions share an id, as
    after an import: deleting by that id removes both, and the count goes
    down by two. *)
Lemma deleteTransaction_twins :
  In t1 (transactions (storeOf [t1; twin; t3])) /\
  List.length (transactions (storeOf [t1; twin; t3])) = 3 /\
  exists s',
    deleteTransaction (Reference.env true) (id t1)
      (storeOf [t1; twin; t3])
    = Returned true s' /\
    List.length (transactions s') = 1.
Proof.
  split; [ vm_compute; auto | ].
  split; [ reflexivity | ].
  eexists. split; [ reflexivity | ].
  vm_compute. reflexivity.
Qed.


(** The scenario of the specification: adding 'Coffee, 3.50, Food,
    2025-01-10' to the store as it is created gives one transaction, a
    total of 3.5 and the top category 'Food', with a warning for the
    beverage and one for the cents. *)
Example scenario_add_coffee :
  exists t s',
    addTransaction (Reference.env true) coffee initial
    = Returned t s' /\
    st_total (getStats (Reference.env true) s') = 1 /\
    Num.eq (st_totalAmount (getStats (Reference.env true) s'))
           (Num.Fin (7 # 2)) /\
    st_topCategory (getStats (Reference.env true) s') = "Food" /\
    warnings (validateTransaction (Reference.env true) coffee)
    = [("description", "Beverage purchase detected");
       ("amount", "Amount includes cents")].
Proof.
  eexists. eexists. split; [ reflexivity | ].
  split; [ vm_compute; reflexivity | ].
  split; [ vm_compute; reflexivity | ].
  split; vm_compute; reflexivity.
Qed.

(* ------------------------------------------------------------------ *)
(** ** The further properties on the example data *)

(** X1: a listener that was not subscribed before is gone without a trace
    after subscribing and unsubscribing. *)
Lemma unsubscribe_removes_listener_witness :
  unsubscribe 2 (subscribe 2 store) = store.
Proof.
  apply (unsubscribe_removes_listener 2 store).
  vm_compute. intros [ E | [] ]. discriminate E.
Defined.

(** X2 on the example store: adding the coffee saves the list and then calls
    the one listener. *)
Lemma change_saves_then_notifies_witness :
  exists t s',
    addTransaction (Reference.env true) coffee store = Returned t s' /\
    trace s' = (trace store ++ [SavedTransactions (transactions s'); Notified 1])%list /\
    listeners s' = listeners store.
Proof.
  destruct (addTransaction (Reference.env true) coffee store)
    as [ t s' | e s' ] eqn:Hadd.
  - exists t, s'. split; [ reflexivity | ].
    destruct (@change_saves_then_notifies Reference.host (Reference.env true)
                store s') as (Hchange & _).
    apply (Hchange coffee t Hadd).
  - vm_compute in Hadd. discriminate Hadd.
Defined.

(** X3 on the example store. *)
Lemma ids_stay_unique_witness :
  exists t s',
    addTransaction (Reference.env true) coffee store = Returned t s' /\
    NoDup (List.map id (transactions s')).
Proof.
  destruct (addTransaction (Reference.env true) coffee store)
    as [ t s' | e s' ] eqn:Hadd.
  - exists t, s'. split; [ reflexivity | ].
    destruct (@ids_stay_unique Reference.host (Reference.env true) store s')
      as (Hnew & _).
    + vm_compute. repeat constructor; simpl; intuition discriminate.
    + apply (Hnew coffee t); [ | exact Hadd ].
      vm_compute. intros [ E | [ E | [ E | [] ] ] ]; discriminate E.
  - vm_compute in Hadd. discriminate Hadd.
Defined.

(** X4 on the example store. *)
Lemma add_then_delete_restores_list_witness :
  exists t s1 s2,
    addTransaction (Reference.env true) coffee store = Returned t s1 /\
    deleteTransaction (Reference.env true) (id t) s1 = Returned true s2 /\
    transactions s2 = transactions store.
Proof.
  destruct (@add_then_delete_restores_list Reference.host
              (Reference.env true) (Reference.env true) coffee store)
    as (t & s1 & s2 & Hadd & Hdel & Hlist & _).
  - vm_compute. reflexivity.
  - vm_compute. intros [ E | [ E | [ E | [] ] ] ]; discriminate E.
  - reflexivity.
  - exists t, s1, s2. auto.
Defined.

(** X5 on the example store, for an id that no transaction has. *)
Lemma delete_absent_id_reports_success_witness :
  exists s',
    deleteTransaction (Reference.env true) "txn_9" store = Returned true s' /\
    transactions s' = transactions store.
Proof.
  destruct (@delete_absent_id_reports_success Reference.host
              (Reference.env true) "txn_9" store)
    as (s' & Hdel & Hlist & _).
  - reflexivity.
  - vm_compute. reflexivity.
  - exists s'. auto.
Defined.

(** X7 on the example store, which has no search. *)
Lemma view_is_drawn_from_the_list_witness :
  Permutation (filteredTransactions (applySearchAndSort store))
              (transactions store).
Proof.
  apply (@view_is_drawn_from_the_list Reference.host store).
  intros r Hr. vm_compute in Hr. discriminate Hr.
Defined.


(** X10 on the example store: 'Food' is counted twice, 'Transport' once. *)
Lemma topCategory_is_most_frequent_witness :
  countCategory "Transport" (transactions store)
  <= countCategory (st_topCategory (getStats (Reference.env true) store))
                   (transactions store).
Proof.
  destruct (topCategory_is_most_frequent (Reference.env true) store)
    as (_ & Hmost & _).
  - vm_compute. discriminate.
  - apply Forall_forall. intros t Ht. vm_compute in Ht.
    destruct Ht as [ <- | [ <- | [ <- | [] ] ] ]; vm_compute;
      intros Hx;
      repeat (destruct Hx as [ Hx | Hx ]; [ discriminate Hx | ]);
      exact Hx.
  - apply Hmost.
Defined.

(** X11 on the example store: 60.50 of the default budget of 500 is used. *)
Lemma budget_status_is_consistent_witness :
  exists rest,
    remaining (st_budget (getStats (Reference.env true) store))
    = Num.Fin rest /\
    (0 <= rest)%Q.
Proof.
  destruct (budget_status_is_consistent (Reference.env true) store
              (121 # 2) 500)
    as (_ & rest & over & share & Hrest & _ & _ & Hpos & _).
  - vm_compute. reflexivity.
  - vm_compute. reflexivity.
  - vm_compute. discriminate.
  - vm_compute. reflexivity.
  - exists rest. split; assumption.
Defined.

(** X12 on a description with one space. *)
Lemma cleaned_description_is_clean_witness :
  validateDescription "Coffee shop"
  = {| d_valid := true; d_message := EmptyString;
       d_cleaned := Some "Coffee shop" |}.
Proof.
  apply (cleaned_description_is_clean "Coffee shop" "Coffee shop").
  vm_compute. reflexivity.
Defined.

(** X13 on a category typed in small letters. *)
Lemma cleaned_category_is_clean_witness :
  validateCategory "Fast food"
  = {| g_valid := true; g_message := EmptyString;
       g_cleaned := Some "Fast food" |}.
Proof.
  apply (cleaned_category_is_clean "fast food" "Fast food").
  vm_compute. reflexivity.
Defined.

(** X16 on a description typed in capitals. *)
Lemma description_warnings_ignore_case_witness :
  hasDuplicateWords "Coffee coffee" = hasDuplicateWords "COFFEE COFFEE" /\
  isBeverageTransaction "Coffee coffee"
  = isBeverageTransaction "COFFEE COFFEE".
Proof.
  apply (description_warnings_ignore_case "Coffee coffee" "COFFEE COFFEE").
  vm_compute. reflexivity.
Defined.

(** X21 on the amounts 10.50 and 10.5. *)
Lemma hasCents_two_decimals_witness :
  (hasCents ("10" ++ ".50") = true <-> String.length ".50" = 3) /\
  (hasCents ("10" ++ ".5") = true <-> String.length ".5" = 3).
Proof.
  assert (Hw : wholePart "10").
  { right. exists "1"%char, "0".
    split; [ reflexivity | ].
    split; [ reflexivity | ].
    split; [ discriminate | reflexivity ]. }
  split; apply hasCents_two_decimals; try exact Hw.
  - right. exists "50".
    split; [ reflexivity | split; [ reflexivity | simpl; lia ] ].
  - right. exists "5".
    split; [ reflexivity | split; [ reflexivity | simpl; lia ] ].
Defined.

(** X15 on the last day of February of a leap year, in the reference zone. *)
Lemma validateDate_accepts_witness :
  t_valid (validateDate (Reference.env true) "2024-02-29") = true <->
  datePattern "2024-02-29" = true /\ 100 <= yearOf "2024-02-29" /\
  dayOf "2024-02-29"
  <= daysInMonth (yearOf "2024-02-29") (monthOf "2024-02-29").
Proof.
  apply (@validateDate_accepts Reference.host (Reference.env true)
           "2024-02-29").
  intros day. reflexivity.
Defined.

(** Where the zone skipped a day, a date of that day is refused: the date
    object made for 30 December 2011 reads back as the 31st. *)
Example validateDate_skipped_day :
  validateDate (H := Reference.apia) (Reference.env true) "2011-12-30"
  = {| t_valid := false; t_message := "Invalid date"; t_warning := None |} /\
  t_valid (validateDate (H := Reference.host) (Reference.env true)
             "2011-12-30") = true.
Proof.
  split; vm_compute; reflexivity.
Qed.
